(** * Notification card widget (sdc_shoelace theme): model and properties

    A shallow embedding of the theme's notification card script
    (components/notification_card/notification_card.js, the file that
    defines [window.NotificationCard]) and of its Drupal wrapper
    (the behaviours [notificationCard] and [convertDrupalMessages]).

    The script is DOM code: it reads and writes elements, registers event
    listeners, schedules timers and dispatches events on the document.  The
    model keeps an explicit world (elements, container, timer queue, clock,
    persisted log, trace of effects) and threads it through a small state and
    exception monad, so that every function reads like its JavaScript. *)

From Stdlib Require Import ZArith Ascii String Lia.
From stdpp Require Import base strings list gmap.

(** ** Strings *)

(** The double quote character, used by the HTML template. *)
Definition dq : string := String "034"%char "".
(** Line feed, as the template literal has it between its lines. *)
Definition nl : string := String "010"%char "".

(** [String.prototype.includes]: [sub] occurs somewhere in [s]. *)
Fixpoint includes (s sub : string) : bool :=
  String.prefix sub s ||
  match s with
  | EmptyString => false
  | String _ s' => includes s' sub
  end.


(** ASCII white space, the separators of a [class] attribute. *)
Definition is_space (c : ascii) : bool :=
  Ascii.eqb c " " || Ascii.eqb c "009" || Ascii.eqb c "010" ||
  Ascii.eqb c "012" || Ascii.eqb c "013".

(** The class tokens of a [class] attribute value ([element.classList]). *)
Fixpoint classTokens_from (cur : string) (s : string) : list string :=
  match s with
  | EmptyString => if String.eqb cur "" then [] else [cur]
  | String c s' =>
      if is_space c
      then (if String.eqb cur "" then classTokens_from "" s'
            else cur :: classTokens_from "" s')
      else classTokens_from (cur +:+ String c "") s'
  end.

Definition classTokens (s : string) : list string := classTokens_from "" s.

(** [classList.contains(tok)], also what the selector [.tok] tests. *)
Definition hasClass (cls tok : string) : bool :=
  bool_decide (tok ∈ classTokens cls).

(** ** Pure helpers of notification_card.js *)

(** [escapeHtml(text)]: the script writes [text] into a detached div as
    [textContent] and reads [innerHTML] back.  The browser serialises a text
    node by replacing the ampersand, the no-break space (U+00A0, the bytes
    194 160 in this byte-string model), [<] and [>] by character references
    and leaving every other character alone. *)
Fixpoint escapeHtml (text : string) : string :=
  match text with
  | EmptyString => EmptyString
  | String c rest =>
      if Ascii.eqb c "&" then "&amp;" +:+ escapeHtml rest
      else if Ascii.eqb c "<" then "&lt;" +:+ escapeHtml rest
      else if Ascii.eqb c ">" then "&gt;" +:+ escapeHtml rest
      else
        match rest with
        | String d rest' =>
            if Ascii.eqb c "194" && Ascii.eqb d "160"
            then "&nbsp;" +:+ escapeHtml rest'
            else String c (escapeHtml rest)
        | EmptyString => String c EmptyString
        end
  end.

(** [s] without its first [n] characters. *)
Fixpoint skip (n : nat) (s : string) : string :=
  match n, s with
  | S n', String _ s' => skip n' s'
  | _, _ => s
  end.

(** The text the HTML parser reads from character data: the four character
    references that [escapeHtml] writes are decoded, anything else is taken
    as it is.  The fuel is the length of the input. *)
Fixpoint decodeFrom (fuel : nat) (s : string) : string :=
  match fuel with
  | O => ""
  | S fuel' =>
      match s with
      | EmptyString => ""
      | String c rest =>
          if Ascii.eqb c "&" then
            if String.prefix "amp;" rest then String "&" (decodeFrom fuel' (skip 4 rest))
            else if String.prefix "lt;" rest then String "<" (decodeFrom fuel' (skip 3 rest))
            else if String.prefix "gt;" rest then String ">" (decodeFrom fuel' (skip 3 rest))
            else if String.prefix "nbsp;" rest
              then String "194" (String "160" (decodeFrom fuel' (skip 5 rest)))
            else String c (decodeFrom fuel' rest)
          else String c (decodeFrom fuel' rest)
      end
  end.

Definition decodeText (s : string) : string := decodeFrom (String.length s) s.

(** The object literal [icons] of [getDefaultIcon], read as the finite map of
    its own four keys (names that a JavaScript object inherits from
    [Object.prototype] are not part of this map). *)
Definition icons : gmap string string :=
  <["info" := "info-circle"]>
  (<["success" := "check-circle"]>
  (<["warning" := "exclamation-triangle"]>
  (<["danger" := "exclamation-octagon"]> ∅))).

(** [icons.info] *)
Definition icons_info : string := default "" (icons !! "info").

(** [getDefaultIcon(variant)]: [icons[variant] || icons.info].  The argument
    is [None] when the caller's object has no [variant] (the property read
    gives [undefined], which is no key of [icons]).  The empty string is the
    one falsy string, hence the second test. *)
Definition getDefaultIcon (variant : option string) : string :=
  match variant with
  | Some v =>
      match icons !! v with
      | Some i => if String.eqb i "" then icons_info else i
      | None => icons_info
      end
  | None => icons_info
  end.

(** ** Configuration of [show] *)

(** The [options] object handed to [show]: each field is [None] when the
    object has no such property.  Fields carry the types the script's
    documentation gives them. *)
Record Options := {
  o_variant : option string;
  o_title : option string;
  o_message : option string;
  o_dismissible : option bool;
  o_duration : option Z;
  o_icon : option string
}.

(** The empty object. *)
Definition noOptions : Options :=
  {| o_variant := None; o_title := None; o_message := None;
     o_dismissible := None; o_duration := None; o_icon := None |}.

(** An object with all six properties: [defaults], and [config] after the
    merge. *)
Record Config := {
  variant : string;
  title : string;
  message : string;
  dismissible : bool;
  duration : Z;
  icon : string
}.

(** [Object.assign({}, defaults, options)]: every property present in
    [options] overrides the default. *)
Definition assign (defaults : Config) (options : Options) : Config :=
  {| variant := default (variant defaults) (o_variant options);
     title := default (title defaults) (o_title options);
     message := default (message defaults) (o_message options);
     dismissible := default (dismissible defaults) (o_dismissible options);
     duration := default (duration defaults) (o_duration options);
     icon := default (icon defaults) (o_icon options) |}.

(** The [defaults] literal of [show], for an [options] object that exists. *)
Definition defaultsFor (options : Options) : Config :=
  {| variant := "info";
     title := "Notification";
     message := "";
     dismissible := true;
     duration := 0;
     icon := getDefaultIcon (o_variant options) |}.

(** The markup of the dismiss control, present only when [dismissible]. *)
Definition dismissMarkup (d : bool) : string :=
  if d
  then "<sl-icon-button name=" +:+ dq +:+ "x-lg" +:+ dq +:+ " label=" +:+ dq
       +:+ "Dismiss" +:+ dq +:+ " class=" +:+ dq +:+ "notification-dismiss"
       +:+ dq +:+ "></sl-icon-button>"
  else "".

(** The pieces of the template literal of [show] around its five holes. *)
Definition tpl_open : string :=
  nl +:+ "        <sl-card class=" +:+ dq +:+ "notification-card notification-card--".
Definition tpl_to_icon : string :=
  dq +:+ ">" +:+ nl +:+
  "          <div slot=" +:+ dq +:+ "header" +:+ dq +:+ " class=" +:+ dq +:+
  "notification-header" +:+ dq +:+ ">" +:+ nl +:+
  "            <div class=" +:+ dq +:+ "notification-icon" +:+ dq +:+ ">" +:+ nl +:+
  "              <sl-icon name=" +:+ dq.
Definition tpl_to_title : string :=
  dq +:+ "></sl-icon>" +:+ nl +:+
  "            </div>" +:+ nl +:+
  "            <div class=" +:+ dq +:+ "notification-title-wrapper" +:+ dq +:+ ">" +:+ nl +:+
  "              <h3 class=" +:+ dq +:+ "notification-title" +:+ dq +:+ ">".
Definition tpl_to_dismiss : string :=
  "</h3>" +:+ nl +:+
  "            </div>" +:+ nl +:+
  "            ".
Definition tpl_to_message : string :=
  nl +:+
  "          </div>" +:+ nl +:+
  "          <div class=" +:+ dq +:+ "notification-message" +:+ dq +:+ ">" +:+ nl +:+
  "            ".
Definition tpl_close : string :=
  nl +:+
  "          </div>" +:+ nl +:+
  "        </sl-card>" +:+ nl +:+
  "      ".

(** The string assigned to [notification.innerHTML]. *)
Definition cardMarkup (config : Config) : string :=
  tpl_open +:+ variant config +:+
  tpl_to_icon +:+ icon config +:+
  tpl_to_title +:+ escapeHtml (title config) +:+
  tpl_to_dismiss +:+ dismissMarkup (dismissible config) +:+
  tpl_to_message +:+ message config +:+
  tpl_close.

(** ** The page: elements, timers, events *)

(** A DOM node is named by its index in the world's element table. *)
Abbreviation ElemId := nat.

(** The three closures the script hands to [setTimeout]. *)
Inductive Callback :=
| CbDismiss (card : ElemId)    (* function () { dismissCard(card); } *)
| CbRemove (card : ElemId)     (* the removal step inside dismissCard *)
| CbAnimateIn (card : ElemId). (* the second half of animateIn *)

(** The four closures the script hands to [addEventListener].  Each call of
    [initializeCard] builds new function objects, so the browser never merges
    two of them: a listener list can hold the same closure twice. *)
Inductive Listener :=
| OnDismissClick (card : ElemId)
| OnMouseEnter (card : ElemId)
| OnMouseLeave (card : ElemId)
| OnKeydown (card : ElemId) (dismissButton : bool).

Inductive EventType := Click | MouseEnter | MouseLeave | KeyDown.

#[global] Instance EventType_eq_dec : EqDecision EventType.
Proof. solve_decision. Defined.

Inductive StyleProp := Opacity | Transform | Transition.

(** The inline style properties the script writes. *)
Record Style := {
  opacity : string;
  transform : string;
  transition : string
}.

Definition noStyle : Style := {| opacity := ""; transform := ""; transition := "" |}.

Definition setProp (p : StyleProp) (v : string) (s : Style) : Style :=
  match p with
  | Opacity => {| opacity := v; transform := transform s; transition := transition s |}
  | Transform => {| opacity := opacity s; transform := v; transition := transition s |}
  | Transition => {| opacity := opacity s; transform := transform s; transition := v |}
  end.

(** Where an attached element hangs: in the notification container, or
    anywhere else in the page. *)
Inductive Parent := InContainer | InPage.

#[global] Instance Parent_eq_dec : EqDecision Parent.
Proof. solve_decision. Defined.

(** A notification card, with the parts of its subtree the script looks at:
    [dismissControl] is the first descendant matching [.notification-dismiss]
    (with the click listeners registered on it), [titleNode] the text content
    of the first descendant matching [.notification-title], [markup] the
    markup the node was parsed from (for a card made by [show], the string
    given to [notification.innerHTML]). *)
Record Element := {
  className : string;
  dataset : gmap string string;
  attributes : gmap string string;
  style : Style;
  dismissControl : option (list Listener);
  titleNode : option string;
  markup : string;
  listeners : list (EventType * Listener);
  parent : option Parent
}.

Definition set_dataset (f : gmap string string → gmap string string) (e : Element) : Element :=
  {| className := className e; dataset := f (dataset e); attributes := attributes e;
     style := style e; dismissControl := dismissControl e; titleNode := titleNode e;
     markup := markup e; listeners := listeners e; parent := parent e |}.

Definition set_attributes (f : gmap string string → gmap string string) (e : Element) : Element :=
  {| className := className e; dataset := dataset e; attributes := f (attributes e);
     style := style e; dismissControl := dismissControl e; titleNode := titleNode e;
     markup := markup e; listeners := listeners e; parent := parent e |}.

Definition set_style (f : Style → Style) (e : Element) : Element :=
  {| className := className e; dataset := dataset e; attributes := attributes e;
     style := f (style e); dismissControl := dismissControl e; titleNode := titleNode e;
     markup := markup e; listeners := listeners e; parent := parent e |}.

Definition set_dismissControl (f : option (list Listener) → option (list Listener))
    (e : Element) : Element :=
  {| className := className e; dataset := dataset e; attributes := attributes e;
     style := style e; dismissControl := f (dismissControl e); titleNode := titleNode e;
     markup := markup e; listeners := listeners e; parent := parent e |}.

Definition set_listeners (f : list (EventType * Listener) → list (EventType * Listener))
    (e : Element) : Element :=
  {| className := className e; dataset := dataset e; attributes := attributes e;
     style := style e; dismissControl := dismissControl e; titleNode := titleNode e;
     markup := markup e; listeners := f (listeners e); parent := parent e |}.

Definition set_parent (p : option Parent) (e : Element) : Element :=
  {| className := className e; dataset := dataset e; attributes := attributes e;
     style := style e; dismissControl := dismissControl e; titleNode := titleNode e;
     markup := markup e; listeners := listeners e; parent := p |}.

(** What a variable holds when it names no node of the table. *)
Definition blankElement : Element :=
  {| className := ""; dataset := ∅; attributes := ∅; style := noStyle;
     dismissControl := None; titleNode := None; markup := "";
     listeners := []; parent := None |}.

(** The two custom events the script dispatches on the document.  The title
    is [None] when the card has no title node (the optional chain gives
    [undefined]). *)
Inductive CustomEvent :=
| notificationDismiss (detail_variant : string) (detail_title : option string)
| notificationRemoved (detail_variant : string).

(** An entry of the usage log. *)
Record LogEntry := {
  log_variant : string;
  log_title : option string;
  log_timestamp : Z
}.

(** A Drupal status message block ([.messages]), with what the conversion
    behaviour reads from it: its class list, the text of its first
    [.messages__title] descendant, the markup of its first
    [.messages__content, .messages__list] descendant, its own markup, the
    [display] style and the ids [once] has marked it with. *)
Record MessageBlock := {
  m_className : string;
  m_title : option string;
  m_content : option string;
  m_innerHTML : string;
  m_display : string;
  m_once : list string
}.

(** Effects the rest of the page can observe, in the order they happen. *)
Inductive Effect :=
| Dispatched (e : CustomEvent)                       (* document.dispatchEvent *)
| StyleSet (card : ElemId) (p : StyleProp) (v : string)
| Detached (card : ElemId)                           (* remove() took it off its parent *)
| ContainerCreated
| Appended (card : ElemId)                           (* container.appendChild *)
| ConsoleLog (entry : LogEntry).

(** A pending timer: the time it is due and its callback. *)
Record Timer := { t_at : Z; t_cb : Callback }.

Record World := {
  elements : list Element;              (* the nodes, by ElemId *)
  container : option (list ElemId);     (* .notification-container and its children *)
  messages : list MessageBlock;         (* the .messages blocks of the page *)
  timers : list Timer;                  (* pending timers, next one first *)
  now : Z;                              (* the clock, in ms *)
  notificationLogs : list LogEntry;     (* localStorage item notificationLogs *)
  window_NotificationCard : bool;       (* the native script has been loaded *)
  trace : list Effect
}.

Definition set_elements (f : list Element → list Element) (w : World) : World :=
  {| elements := f (elements w); container := container w; messages := messages w;
     timers := timers w; now := now w; notificationLogs := notificationLogs w;
     window_NotificationCard := window_NotificationCard w; trace := trace w |}.

Definition set_container (c : option (list ElemId)) (w : World) : World :=
  {| elements := elements w; container := c; messages := messages w;
     timers := timers w; now := now w; notificationLogs := notificationLogs w;
     window_NotificationCard := window_NotificationCard w; trace := trace w |}.

Definition set_messages (f : list MessageBlock → list MessageBlock) (w : World) : World :=
  {| elements := elements w; container := container w; messages := f (messages w);
     timers := timers w; now := now w; notificationLogs := notificationLogs w;
     window_NotificationCard := window_NotificationCard w; trace := trace w |}.

Definition set_timers (f : list Timer → list Timer) (w : World) : World :=
  {| elements := elements w; container := container w; messages := messages w;
     timers := f (timers w); now := now w; notificationLogs := notificationLogs w;
     window_NotificationCard := window_NotificationCard w; trace := trace w |}.

Definition set_now (t : Z) (w : World) : World :=
  {| elements := elements w; container := container w; messages := messages w;
     timers := timers w; now := t; notificationLogs := notificationLogs w;
     window_NotificationCard := window_NotificationCard w; trace := trace w |}.

Definition set_notificationLogs (f : list LogEntry → list LogEntry) (w : World) : World :=
  {| elements := elements w; container := container w; messages := messages w;
     timers := timers w; now := now w; notificationLogs := f (notificationLogs w);
     window_NotificationCard := window_NotificationCard w; trace := trace w |}.

Definition emit (e : Effect) (w : World) : World :=
  {| elements := elements w; container := container w; messages := messages w;
     timers := timers w; now := now w; notificationLogs := notificationLogs w;
     window_NotificationCard := window_NotificationCard w; trace := trace w ++ [e] |}.

(** ** The monad of the script: state plus exceptions *)

Inductive JsError := TypeError (msg : string).

Inductive Completion (A : Type) :=
| Return (a : A)
| Throw (e : JsError).
Arguments Return {A} a.
Arguments Throw {A} e.

Definition M (A : Type) : Type := World → Completion A * World.

#[global] Instance M_ret : MRet M := λ A a w, (Return a, w).
#[global] Instance M_bind : MBind M := λ A B k m w,
  match m w with
  | (Return a, w') => k a w'
  | (Throw e, w') => (Throw e, w')
  end.

Definition throw {A} (e : JsError) : M A := λ w, (Throw e, w).
Definition gets {A} (f : World → A) : M A := λ w, (Return (f w), w).
Definition modify (f : World → World) : M unit := λ w, (Return tt, f w).

(** The world a computation leaves behind. *)
Definition exec {A} (m : M A) (w : World) : World := snd (m w).

(** [list.forEach(f)] *)
Fixpoint forEach {A} (l : list A) (f : A → M unit) : M unit :=
  match l with
  | [] => mret tt
  | x :: l' => f x;; forEach l' f
  end.

(** [if (c) { m }] *)
Definition when (c : bool) (m : M unit) : M unit := if c then m else mret tt.

(** ** DOM and timer primitives *)

(** The node a variable refers to. *)
Definition getEl (card : ElemId) (w : World) : Element :=
  default blankElement (elements w !! card).

Definition element (card : ElemId) : M Element := gets (getEl card).

Definition updateElement (card : ElemId) (f : Element → Element) : M unit :=
  modify (set_elements (alter f card)).

(** [card.style.p = v] *)
Definition setStyle (card : ElemId) (p : StyleProp) (v : string) : M unit :=
  updateElement card (set_style (setProp p v));;
  modify (emit (StyleSet card p v)).

(** [card.setAttribute(name, value)] *)
Definition setAttribute (card : ElemId) (name value : string) : M unit :=
  updateElement card (set_attributes (<[name := value]>)).

(** [card.dataset.key = value] *)
Definition setData (card : ElemId) (key value : string) : M unit :=
  updateElement card (set_dataset (<[key := value]>)).

(** [card.addEventListener(type, listener)] *)
Definition addEventListener (card : ElemId) (type : EventType) (l : Listener) : M unit :=
  updateElement card (set_listeners (λ ls, ls ++ [(type, l)])).

(** [dismissButton.addEventListener('click', listener)] on the card's
    dismiss control. *)
Definition addClickListener (card : ElemId) (l : Listener) : M unit :=
  updateElement card (set_dismissControl (fmap (λ ls, ls ++ [l]))).

(** [document.dispatchEvent(event)] *)
Definition dispatchEvent (e : CustomEvent) : M unit := modify (emit (Dispatched e)).

(** The timer queue is kept in firing order: a new timer goes behind every
    pending timer that is due no later than it. *)
Fixpoint enqueue (t : Timer) (q : list Timer) : list Timer :=
  match q with
  | [] => [t]
  | u :: q' => if (t_at u <=? t_at t)%Z then u :: enqueue t q' else t :: q
  end.

(** [setTimeout(cb, delay)] *)
Definition setTimeout (cb : Callback) (delay : Z) : M unit :=
  modify (λ w, set_timers (enqueue {| t_at := now w + Z.max 0 delay; t_cb := cb |}) w).

(** [card.remove()]: takes the card off its parent; a card that has no
    parent is left as it is, and nothing is raised. *)
Definition remove (card : ElemId) : M unit :=
  el ← element card;
  match parent el with
  | None => mret tt
  | Some p =>
      updateElement card (set_parent None);;
      when (bool_decide (p = InContainer))
        (modify (λ w, set_container (filter (λ c, c ≠ card) <$> container w) w));;
      modify (emit (Detached card))
  end.

(** ** notification_card.js *)

(** [getVariant(card)] *)
Definition getVariant (card : Element) : string :=
  let classes := className card in
  if includes classes "notification-card--success" then "success"
  else if includes classes "notification-card--warning" then "warning"
  else if includes classes "notification-card--danger" then "danger"
  else "info".

(** [dismissCard(card)] *)
Definition dismissCard (card : ElemId) : M unit :=
  el ← element card;
  dispatchEvent (notificationDismiss (getVariant el) (titleNode el));;
  setStyle card Transition "all 0.3s ease-out";;
  setStyle card Opacity "0";;
  setStyle card Transform "translateX(100%)";;
  setTimeout (CbRemove card) 300.

(** The function [dismissCard] schedules: remove the card, then announce it. *)
Definition removeCard (card : ElemId) : M unit :=
  remove card;;
  el ← element card;
  dispatchEvent (notificationRemoved (getVariant el)).

(** [animateIn(card)] *)
Definition animateIn (card : ElemId) : M unit :=
  setStyle card Opacity "0";;
  setStyle card Transform "translateX(100%)";;
  setTimeout (CbAnimateIn card) 50.

(** The function [animateIn] schedules. *)
Definition animateInStep (card : ElemId) : M unit :=
  setStyle card Transition "all 0.4s cubic-bezier(0.4, 0, 0.2, 1)";;
  setStyle card Opacity "1";;
  setStyle card Transform "translateX(0)".

(** [logs.slice(-n)] *)
Definition lastN {A} (n : nat) (l : list A) : list A := drop (length l - n) l.

(** [logNotification(card)]: the persisted item is read as the list this
    function wrote there. *)
Definition logNotification (card : ElemId) : M unit :=
  el ← element card;
  t ← gets now;
  let data := {| log_variant := getVariant el; log_title := titleNode el;
                 log_timestamp := t |} in
  modify (set_notificationLogs (λ logs, lastN 50 (logs ++ [data])));;
  modify (emit (ConsoleLog data)).

(** [initializeCard(card)] *)
Definition initializeCard (card : ElemId) : M unit :=
  el ← element card;
  let dismissButton := dismissControl el in
  when (bool_decide (is_Some dismissButton))
    (addClickListener card (OnDismissClick card));;
  when (String.eqb (getVariant el) "success" &&
        negb (bool_decide (dataset el !! "autoDismiss" = Some "false")))
    (setTimeout (CbDismiss card) 5000);;
  animateIn card;;
  addEventListener card MouseEnter (OnMouseEnter card);;
  addEventListener card MouseLeave (OnMouseLeave card);;
  setAttribute card "tabindex" "0";;
  addEventListener card KeyDown (OnKeydown card (bool_decide (is_Some dismissButton)));;
  logNotification card.

(** [document.querySelectorAll('.notification-card')]: the attached nodes
    carrying the class, in document order. *)
Definition querySelectorAll_cards (w : World) : list ElemId :=
  filter (λ c, bool_decide (is_Some (parent (getEl c w))) ∧
               hasClass (className (getEl c w)) "notification-card")
         (seq 0 (length (elements w))).

(** The marker test [x.dataset.notificationInitialized === 'true']. *)
Definition isInitialized (el : Element) : bool :=
  bool_decide (dataset el !! "notificationInitialized" = Some "true").

(** [initializeAll()] *)
Definition initializeAll : M unit :=
  cards ← gets querySelectorAll_cards;
  forEach cards (λ card,
    el ← element card;
    if isInitialized el then mret tt
    else setData card "notificationInitialized" "true";; initializeCard card).

(** The element the HTML parser builds from [cardMarkup config], as far as
    the script looks at it: the [class] attribute of the [sl-card], the
    dismiss control when the template has one, the title node with the text
    the escaped title decodes to.  (This is the parser's reading of markup
    whose holes stay in place: a variant or icon without a double quote, a
    message that brings no [.notification-dismiss] of its own.) *)
Definition parseCard (config : Config) : Element :=
  {| className := "notification-card notification-card--" +:+ variant config;
     dataset := ∅;
     attributes := ∅;
     style := noStyle;
     dismissControl := if dismissible config then Some [] else None;
     titleNode := Some (decodeText (escapeHtml (title config)));
     markup := cardMarkup config;
     listeners := [];
     parent := None |}.

(** [document.createElement] and friends: a new node at the end of the table. *)
Definition createElement (el : Element) : M ElemId :=
  n ← gets (λ w, length (elements w));
  modify (set_elements (λ els, els ++ [el]));;
  mret n.

(** The first statements of [show] after the merge: find the container or
    create it and append it to the body. *)
Definition ensureContainer : M unit :=
  c ← gets container;
  match c with
  | Some _ => mret tt
  | None => modify (set_container (Some []));; modify (emit ContainerCreated)
  end.

(** [container.appendChild(card)] *)
Definition appendChild (card : ElemId) : M unit :=
  updateElement card (set_parent (Some InContainer));;
  modify (λ w, set_container ((λ cs, cs ++ [card]) <$> container w) w);;
  modify (emit (Appended card)).

Module NotificationCard.

(** [NotificationCard.init(element)]; [None] is a call without argument. *)
Definition init (element_ : option ElemId) : M unit :=
  match element_ with
  | Some card =>
      el ← element card;
      if negb (isInitialized el)
      then setData card "notificationInitialized" "true";; initializeCard card
      else mret tt
  | None => initializeAll
  end.

(** [NotificationCard.show(options)]; [None] is a call without argument:
    reading [options.variant] for the [defaults] literal then throws. *)
Definition show (options : option Options) : M ElemId :=
  o ← match options with
      | Some o => mret o
      | None => throw (TypeError "Cannot read properties of undefined (reading 'variant')")
      end;
  let defaults := defaultsFor o in
  let config := assign defaults o in
  ensureContainer;;
  card ← createElement (parseCard config);
  appendChild card;;
  initializeCard card;;
  when (0 <? duration config)%Z
    (setTimeout (CbDismiss card) (duration config));;
  mret card.

End NotificationCard.

(** ** The event loop *)

(** Running a timer callback. *)
Definition fire (cb : Callback) : M unit :=
  match cb with
  | CbDismiss card => dismissCard card
  | CbRemove card => removeCard card
  | CbAnimateIn card => animateInStep card
  end.

(** Running a listener; [key] is the event's key for a keyboard event. *)
Definition handle (l : Listener) (key : string) : M unit :=
  match l with
  | OnDismissClick card => dismissCard card          (* after e.preventDefault() *)
  | OnMouseEnter card => setStyle card Transform "translateY(-4px) scale(1.02)"
  | OnMouseLeave card => setStyle card Transform ""
  | OnKeydown card dismissButton =>
      when (String.eqb key "Escape" && dismissButton) (dismissCard card)
  end.

(** The user clicks the dismiss control of [card]: its click listeners run
    in the order they were added. *)
Definition click (card : ElemId) : M unit :=
  el ← element card;
  forEach (default [] (dismissControl el)) (λ l, handle l "").

(** An event of type [type] reaches [card] itself. *)
Definition deliver (card : ElemId) (type : EventType) (key : string) : M unit :=
  el ← element card;
  forEach (filter (λ tl, tl.1 = type) (listeners el)) (λ tl, handle tl.2 key).

Definition keydown (card : ElemId) (key : string) : M unit := deliver card KeyDown key.

(** How many timer firings a callback can still cause, itself included. *)
Definition work (cb : Callback) : nat :=
  match cb with
  | CbDismiss _ => 2
  | CbRemove _ => 1
  | CbAnimateIn _ => 1
  end.

Definition pending (w : World) : nat := sum_list (map (λ t, work (t_cb t)) (timers w)).

(** The loop: while the first timer is due by [deadline], move the clock to
    its time, take it off the queue and run it. *)
Fixpoint runTimers (fuel : nat) (deadline : Z) (w : World) : World :=
  match fuel with
  | O => w
  | S fuel' =>
      match timers w with
      | t :: rest =>
          if (t_at t <=? deadline)%Z
          then runTimers fuel' deadline
                 (exec (fire (t_cb t))
                    (set_now (Z.max (now w) (t_at t)) (set_timers (λ _, rest) w)))
          else w
      | [] => w
      end
  end.

(** [ms] milliseconds pass: every timer due in that time fires. *)
Definition advance (ms : Z) (w : World) : World :=
  let deadline := (now w + ms)%Z in
  set_now deadline (runTimers (pending w) deadline w).

(** ** notification_card.drupal.js: the Drupal wrapper *)

Module Drupal.

(** What a variable holds when it names no block of the page. *)
Definition blankMessage : MessageBlock :=
  {| m_className := ""; m_title := None; m_content := None;
     m_innerHTML := ""; m_display := ""; m_once := [] |}.

Definition getMessage (i : nat) (w : World) : MessageBlock :=
  default blankMessage (messages w !! i).

(** The ids [once] has marked a card with: its [data-once] attribute. *)
Definition onceIds (el : Element) : list string :=
  classTokens (default "" (dataset el !! "once")).

(** Drupal core's [once(id, '.notification-card', context)]: the cards of
    the context that carry the class and have not been marked with [id]
    yet; they are marked and returned.  The context is given by the nodes
    in it. *)
Definition once_cards (id : string) (context : list ElemId) : M (list ElemId) :=
  w ← gets (λ w, w);
  let fresh := filter (λ c, hasClass (className (getEl c w)) "notification-card" ∧
                            id ∉ onceIds (getEl c w)) context in
  forEach fresh (λ c,
    el ← element c;
    setData c "once"
      (match dataset el !! "once" with
       | Some old => old +:+ " " +:+ id
       | None => id
       end));;
  mret fresh.

(** [once] marks a block by adding the id to its [data-once] attribute. *)
Definition markOnce (id : string) (m : MessageBlock) : MessageBlock :=
  {| m_className := m_className m; m_title := m_title m;
     m_content := m_content m; m_innerHTML := m_innerHTML m;
     m_display := m_display m; m_once := m_once m ++ [id] |}.

(** [once(id, '.messages', context)] over the status message blocks. *)
Definition once_messages (id : string) (context : list nat) : M (list nat) :=
  w ← gets (λ w, w);
  let fresh := filter (λ i, hasClass (m_className (getMessage i w)) "messages" ∧
                            id ∉ m_once (getMessage i w)) context in
  modify (set_messages (λ ms, foldr (λ i, alter (markOnce id) i) ms fresh));;
  mret fresh.

(** [Drupal.behaviors.notificationCard.attach(context)] *)
Definition notificationCard_attach (context : list ElemId) : M unit :=
  cards ← once_cards "notification-card" context;
  forEach cards (λ card,
    loaded ← gets window_NotificationCard;
    when loaded (NotificationCard.init (Some card))).

(** [Drupal.notificationCard.show(options)]; the result is [None] where
    the script returns nothing. *)
Definition show (options : option Options) : M (option ElemId) :=
  loaded ← gets window_NotificationCard;
  match loaded return M (option ElemId) with
  | true => card ← NotificationCard.show options; mret (Some card)
  | false => mret None
  end.

(** [Drupal.notificationCard.init(element)] *)
Definition init (element_ : option ElemId) : M unit :=
  loaded ← gets window_NotificationCard;
  when loaded (NotificationCard.init element_).

(** The variant the conversion derives from the block's classes: three
    tests in a row, each overwriting the result of the one before. *)
Definition messageVariant (messageEl : MessageBlock) : string :=
  let variant := "info" in
  let variant :=
    if hasClass (m_className messageEl) "messages--status" then "success" else variant in
  let variant :=
    if hasClass (m_className messageEl) "messages--warning" then "warning" else variant in
  let variant :=
    if hasClass (m_className messageEl) "messages--error" then "danger" else variant in
  variant.

(** [messageEl.querySelector('.messages__title')?.textContent || 'Notification'] *)
Definition messageTitle (messageEl : MessageBlock) : string :=
  match m_title messageEl with
  | Some t => if String.eqb t "" then "Notification" else t
  | None => "Notification"
  end.

(** [(messageEl.querySelector('.messages__content, .messages__list') || messageEl).innerHTML] *)
Definition messageMarkup (messageEl : MessageBlock) : string :=
  default (m_innerHTML messageEl) (m_content messageEl).

(** The object the conversion hands to [show]. *)
Definition messageOptions (messageEl : MessageBlock) : Options :=
  let variant := messageVariant messageEl in
  {| o_variant := Some variant;
     o_title := Some (messageTitle messageEl);
     o_message := Some (messageMarkup messageEl);
     o_dismissible := Some true;
     o_duration := Some (if String.eqb variant "success" then 5000 else 0)%Z;
     o_icon := None |}.

(** [messageEl.style.display = 'none'] *)
Definition hide (i : nat) : M unit :=
  modify (set_messages (alter (λ m,
    {| m_className := m_className m; m_title := m_title m;
       m_content := m_content m; m_innerHTML := m_innerHTML m;
       m_display := "none"; m_once := m_once m |}) i)).

(** The body of the [forEach] in [convertDrupalMessages.attach], for the
    block [i]. *)
Definition convertMessage (i : nat) : M unit :=
  messageEl ← gets (getMessage i);
  loaded ← gets window_NotificationCard;
  when loaded (NotificationCard.show (Some (messageOptions messageEl));; mret tt);;
  hide i.

(** [Drupal.behaviors.convertDrupalMessages.attach(context)] *)
Definition convertDrupalMessages_attach (context : list nat) : M unit :=
  blocks ← once_messages "convert-messages" context;
  forEach blocks convertMessage.

End Drupal.

(** ** Vocabulary of the properties *)

(** [wp m Q w]: run from [w], [m] returns normally and its result and final
    world satisfy [Q]. *)
Definition wp {A} (m : M A) (Q : A → World → Prop) (w : World) : Prop :=
  match m w with
  | (Return a, w') => Q a w'
  | (Throw _, _) => False
  end.

(** [preserves R m]: [m] always returns, and takes every world to one that
    is [R]-related to it. *)
Definition preserves {A} (R : relation World) (m : M A) : Prop :=
  ∀ w, wp m (λ _ w', R w w') w.

(** The parts of an element no function of the script writes: its classes,
    its title text, its markup, and whether it has a dismiss control. *)
Definition static (e : Element) : string * option string * string * bool :=
  (className e, titleNode e, markup e, bool_decide (is_Some (dismissControl e))).

(** [grows w w']: the element table only got longer, the static parts of the
    elements of [w] are the same in [w'], and the elements marked as
    initialized in [w] still are in [w']. *)
Record grows (w w' : World) : Prop := {
  grows_length : length (elements w) ≤ length (elements w');
  grows_static : ∀ c, c < length (elements w) → static (getEl c w') = static (getEl c w);
  grows_marker : ∀ c, isInitialized (getEl c w) = true → isInitialized (getEl c w') = true
}.


(** A page that just loaded the script: no card, no container, no timer. *)
Definition emptyPage : World :=
  {| elements := []; container := None; messages := []; timers := []; now := 0;
     notificationLogs := []; window_NotificationCard := true; trace := [] |}.

(** [{variant: v}] and [{variant: v, duration: d}] *)
Definition withVariant (v : string) : Options :=
  {| o_variant := Some v; o_title := None; o_message := None;
     o_dismissible := None; o_duration := None; o_icon := None |}.

Definition withVariantDuration (v : string) (d : Z) : Options :=
  {| o_variant := Some v; o_title := None; o_message := None;
     o_dismissible := None; o_duration := Some d; o_icon := None |}.

(** The events and effects counted by the properties. *)
Definition isDismissEvent (e : Effect) : bool :=
  match e with Dispatched (notificationDismiss _ _) => true | _ => false end.

Definition isRemovedEvent (e : Effect) : bool :=
  match e with Dispatched (notificationRemoved _) => true | _ => false end.

Definition isDetach (c : ElemId) (e : Effect) : bool :=
  match e with Detached c' => bool_decide (c' = c) | _ => false end.

(** How many [notificationDismiss] and [notificationRemoved] events the
    document has seen, and how many times [c] was taken off its parent. *)
Definition dismissCount (w : World) : nat := length (filter isDismissEvent (trace w)).
Definition removedCount (w : World) : nat := length (filter isRemovedEvent (trace w)).
Definition detachCount (c : ElemId) (w : World) : nat := length (filter (isDetach c) (trace w)).

(** The pending timers that will dismiss [c]. *)
Definition isDismissTimer (c : ElemId) (t : Timer) : bool :=
  match t_cb t with CbDismiss c' => bool_decide (c' = c) | _ => false end.

Definition dismissalsPending (c : ElemId) (w : World) : list Timer :=
  filter (isDismissTimer c) (timers w).

(** What [dismissCard] does at once: the event, then the exit transition. *)
Definition exitEffects (c : ElemId) (w : World) : list Effect :=
  [Dispatched (notificationDismiss (getVariant (getEl c w)) (titleNode (getEl c w)));
   StyleSet c Transition "all 0.3s ease-out";
   StyleSet c Opacity "0";
   StyleSet c Transform "translateX(100%)"].

(** What the removal step does: the detachment, when the card still has a
    parent, then the event. *)
Definition removalEffects (c : ElemId) (w : World) : list Effect :=
  match parent (getEl c w) with Some _ => [Detached c] | None => [] end ++
  [Dispatched (notificationRemoved (getVariant (getEl c w)))].

(** The style the exit transition leaves. *)
Definition exitStyle : Style :=
  {| opacity := "0"; transform := "translateX(100%)"; transition := "all 0.3s ease-out" |}.

(** The timer [dismissCard] sets when called at time [t]. *)
Definition removalTimer (c : ElemId) (t : Z) : Timer :=
  {| t_at := t + 300; t_cb := CbRemove c |}.

(** A card as the template layer renders it, with a title and a dismiss
    control, not yet mounted. *)
Definition renderedCard (v : string) : Element :=
  {| className := "notification-card notification-card--" +:+ v;
     dataset := ∅; attributes := ∅; style := noStyle;
     dismissControl := Some []; titleNode := Some "Saved";
     markup := ""; listeners := []; parent := Some InPage |}.

(** A page holding one such card, an info card. *)
Definition onePage : World :=
  {| elements := [renderedCard "info"]; container := None; messages := [];
     timers := []; now := 0; notificationLogs := [];
     window_NotificationCard := true; trace := [] |}.

(** [n] calls of [m] in a row. *)
Fixpoint times (n : nat) (m : M unit) : M unit :=
  match n with
  | O => mret tt
  | S n' => m;; times n' m
  end.

(** One more detachment, if the card has a parent to be taken off. *)
Definition detachIfAttached (c : ElemId) (w : World) : nat :=
  match parent (getEl c w) with Some _ => 1 | None => 0 end.

(** [keeps π]: the part [π] of the world is the same before and after. *)
Definition keeps {X} (π : World → X) : relation World := λ w w', π w' = π w.

(** How many pending timers will dismiss [c]. *)
Definition dismissalsCount (c : ElemId) (w : World) : nat := length (dismissalsPending c w).

(** The test of [initializeCard] for its own timer: a success card that does
    not opt out with [data-auto-dismiss="false"]. *)
Definition autoDismisses (el : Element) : bool :=
  String.eqb (getVariant el) "success" &&
  negb (bool_decide (dataset el !! "autoDismiss" = Some "false")).

(** The object with every default, as [show] merges it from [{}]. *)
Definition allDefaults : Config :=
  {| variant := "info"; title := "Notification"; message := ""; dismissible := true;
     duration := 0; icon := "info-circle" |}.

(** [show(options)], then [NotificationCard.init] twice on the card it
    returned. *)
Definition showThenInit (options : Options) : M ElemId :=
  card ← NotificationCard.show (Some options);
  NotificationCard.init (Some card);;
  NotificationCard.init (Some card);;
  mret card.

(** A success card made by [show], dismissed by a click on its control after
    100 ms and removed 300 ms later, seen at 400 ms: its own 5000 ms timer
    is still pending. *)
Definition dismissedSuccess : World :=
  advance 300 (exec (click 0) (advance 100
    (exec (NotificationCard.show (Some (withVariant "success"))) emptyPage))).

(** [show(options)], then [NotificationCard.init()] without argument. *)
Definition showThenInitAll (options : Options) : M unit :=
  NotificationCard.show (Some options);;
  NotificationCard.init None.

(** A page with one Drupal status message and no card. *)
Definition statusPage : World :=
  {| elements := []; container := None;
     messages := [ {| m_className := "messages messages--status";
                      m_title := None; m_content := Some "<p>Saved.</p>";
                      m_innerHTML := "<div class='messages__content'><p>Saved.</p></div>";
                      m_display := ""; m_once := [] |} ];
     timers := []; now := 0; notificationLogs := [];
     window_NotificationCard := true; trace := [] |}.

(** The two behaviours of the wrapper, the conversion first, then the card
    behaviour over a context that holds the new card. *)
Definition convertThenAttach : M unit :=
  Drupal.convertDrupalMessages_attach [0];;
  Drupal.notificationCard_attach [0].

(** [sameMarks w w']: the status message blocks have the same classes and
    the same [once] marks in [w'] as in [w]. *)
Definition sameMarks (w w' : World) : Prop :=
  ∀ i, m_className (Drupal.getMessage i w') = m_className (Drupal.getMessage i w) ∧
       m_once (Drupal.getMessage i w') = m_once (Drupal.getMessage i w).

(** ** Vocabulary of the further properties *)

(** [keepsEl P]: the part [P] of every element is the same before and
    after. *)
Definition keepsEl {X} (P : Element → X) : relation World :=
  λ w w', ∀ c, P (getEl c w') = P (getEl c w).

(** Whether the card has a dismiss control. *)
Definition hasDismiss (e : Element) : bool := bool_decide (is_Some (dismissControl e)).

(** The listeners [initializeCard] adds to the card itself. *)
Definition cardListeners (c : ElemId) (dismissButton : bool) : list (EventType * Listener) :=
  [(MouseEnter, OnMouseEnter c); (MouseLeave, OnMouseLeave c);
   (KeyDown, OnKeydown c dismissButton)].

(** The style [animateIn] starts from, and the one its second step ends
    with. *)
Definition entranceStart (s : Style) : Style :=
  {| opacity := "0"; transform := "translateX(100%)"; transition := transition s |}.

Definition enteredStyle : Style :=
  {| opacity := "1"; transform := "translateX(0)";
     transition := "all 0.4s cubic-bezier(0.4, 0, 0.2, 1)" |}.

(** The card [e], named [c], after [initializeCard]. *)
Definition wired (c : ElemId) (e : Element) : Element :=
  {| className := className e;
     dataset := dataset e;
     attributes := <["tabindex" := "0"]> (attributes e);
     style := entranceStart (style e);
     dismissControl := (λ ls, ls ++ [OnDismissClick c]) <$> dismissControl e;
     titleNode := titleNode e;
     markup := markup e;
     listeners := listeners e ++ cardListeners c (hasDismiss e);
     parent := parent e |}.

(** The entry [logNotification] writes for [c] in [w]. *)
Definition logEntryOf (c : ElemId) (w : World) : LogEntry :=
  {| log_variant := getVariant (getEl c w); log_title := titleNode (getEl c w);
     log_timestamp := now w |}.

(** The two timers [initializeCard] can set when called at time [t]. *)
Definition entranceTimer (c : ElemId) (t : Z) : Timer :=
  {| t_at := t + 50; t_cb := CbAnimateIn c |}.

Definition autoDismissTimer (c : ElemId) (t : Z) : Timer :=
  {| t_at := t + 5000; t_cb := CbDismiss c |}.

(** What makes a card react: its classes, data attributes, attributes,
    title, markup and the listeners on it and on its dismiss control. *)
Definition wiring (e : Element) :
    string * gmap string string * gmap string string * option (list Listener) *
    option string * string * list (EventType * Listener) :=
  (className e, dataset e, attributes e, dismissControl e, titleNode e, markup e, listeners e).

(** The pending timers by what they will do: dismiss a card, remove one. *)
Definition isDismissal (t : Timer) : bool :=
  match t_cb t with CbDismiss _ => true | _ => false end.

Definition isRemoval (t : Timer) : bool :=
  match t_cb t with CbRemove _ => true | _ => false end.

Definition dismissalsDue (w : World) : nat := length (filter isDismissal (timers w)).
Definition removalsDue (w : World) : nat := length (filter isRemoval (timers w)).

(** A timer that ends with [c] taken off its parent: its removal step, or a
    dismissal, which schedules one. *)
Definition leadsToRemoval (c : ElemId) (t : Timer) : bool :=
  match t_cb t with
  | CbDismiss c' | CbRemove c' => bool_decide (c' = c)
  | CbAnimateIn _ => false
  end.

(** A page holding two rendered cards, a success card and an info card. *)
Definition twoCards : World :=
  {| elements := [renderedCard "success"; renderedCard "info"]; container := None;
     messages := []; timers := []; now := 0; notificationLogs := [];
     window_NotificationCard := true; trace := [] |}.

(** The body of the loop of [initializeAll], for the card [card]. *)
Definition initializeAll_each (card : ElemId) : M unit :=
  el ← element card;
  if isInitialized el then mret tt
  else setData card "notificationInitialized" "true";; initializeCard card.

(** The card [e] with the mount marker set, and the card [e], named [c],
    after the loop of [initializeAll] has visited it. *)
Definition marked (e : Element) : Element :=
  set_dataset (<["notificationInitialized" := "true"]>) e.

Definition visited (c : ElemId) (e : Element) : Element :=
  if isInitialized e then e else wired c (marked e).

(** A node nothing has been wired on, and the node [c] wired exactly once:
    the three listeners on the card, one click listener on its dismiss
    control if it has one. *)
Definition bare (e : Element) : Prop :=
  listeners e = [] ∧ (dismissControl e = None ∨ dismissControl e = Some []).

Definition wiredOnce (c : ElemId) (e : Element) : Prop :=
  listeners e = cardListeners c (hasDismiss e) ∧
  (dismissControl e = None ∨ dismissControl e = Some [OnDismissClick c]).

(** [mountedThroughInit w]: every node is either unmarked and bare, or
    marked and wired once. *)
Definition mountedThroughInit (w : World) : Prop :=
  ∀ c, if isInitialized (getEl c w) then wiredOnce c (getEl c w) else bare (getEl c w).

(** The two loop bodies of the card behaviour: [once] marking a card with
    [id], and the behaviour handing a card to [init]. *)
Definition once_mark (id : string) (c : ElemId) : M unit :=
  el ← element c;
  setData c "once"
    (match dataset el !! "once" with
     | Some old => old +:+ " " +:+ id
     | None => id
     end).

Definition attach_each (card : ElemId) : M unit :=
  loaded ← gets window_NotificationCard;
  when loaded (NotificationCard.init (Some card)).

(** The cards of a context that [once] has not marked with [id] yet. *)
Definition freshCards (id : string) (context : list ElemId) (w : World) : list ElemId :=
  filter (λ c, hasClass (className (getEl c w)) "notification-card" ∧
               id ∉ Drupal.onceIds (getEl c w)) context.

(** [onceGrows w w']: every node has its classes and a [data-once] list that
    starts with the one it had. *)
Definition onceGrows (w w' : World) : Prop :=
  ∀ c, className (getEl c w') = className (getEl c w) ∧
       ∃ more, Drupal.onceIds (getEl c w') = Drupal.onceIds (getEl c w) ++ more.

(** The page of [onePage] before the native script has been loaded. *)
Definition onePageNoScript : World :=
  {| elements := [renderedCard "info"]; container := None; messages := [];
     timers := []; now := 0; notificationLogs := [];
     window_NotificationCard := false; trace := [] |}.

(** A queue in firing order: no timer is due before one that is ahead of
    it. *)
Fixpoint inOrder (q : list Timer) : Prop :=
  match q with
  | [] => True
  | t :: q' => Forall (λ u, (t_at t ≤ t_at u)%Z) q' ∧ inOrder q'
  end.

(** The queue as [setTimeout] and the timer loop keep it: in firing order,
    and with no timer left from the past. *)
Definition queueOrdered (w : World) : Prop :=
  inOrder (timers w) ∧ Forall (λ t, (now w ≤ t_at t)%Z) (timers w).

(** How many pending dismissals, or removals, are due by [d]. *)
Definition dismissalsDueBy (d : Z) (w : World) : nat :=
  length (filter (λ t, isDismissal t && (t_at t <=? d)%Z) (timers w)).

Definition removalsDueBy (d : Z) (w : World) : nat :=
  length (filter (λ t, isRemoval t && (t_at t <=? d)%Z) (timers w)).

(** A timer that will have taken [c] off its parent by [d]: a removal of [c]
    due by [d], or a dismissal of [c] due 300 ms before. *)
Definition removesBy (d : Z) (c : ElemId) (t : Timer) : bool :=
  match t_cb t with
  | CbRemove c' => bool_decide (c' = c) && (t_at t <=? d)%Z
  | CbDismiss c' => bool_decide (c' = c) && (t_at t + 300 <=? d)%Z
  | CbAnimateIn _ => false
  end.

(** The blocks of a context that [once] has not marked with [id] yet. *)
Definition freshBlocks (id : string) (context : list nat) (w : World) : list nat :=
  filter (λ i, hasClass (m_className (Drupal.getMessage i w)) "messages" ∧
               id ∉ m_once (Drupal.getMessage i w)) context.

(** The card [show] makes for the configuration [o] as the node [c]:
    parsed, appended to the container and mounted. *)
Definition shownCard (c : ElemId) (o : Options) : Element :=
  wired c (set_parent (Some InContainer) (parseCard (assign (defaultsFor o) o))).

(** The card a timer callback works on. *)
Definition cardOf (cb : Callback) : ElemId :=
  match cb with
  | CbDismiss c => c
  | CbRemove c => c
  | CbAnimateIn c => c
  end.

(** [inContainerOrGone card cs w]: the card is the last child of the
    container, after the children [cs], or it has been taken off and the
    container holds [cs]; and every pending timer is one of this card. *)
Definition inContainerOrGone (card : ElemId) (cs : list ElemId) (w : World) : Prop :=
  Forall (λ t, cardOf (t_cb t) = card) (timers w) ∧
  ((parent (getEl card w) = Some InContainer ∧ container w = Some (cs ++ [card])) ∨
   (parent (getEl card w) = None ∧ container w = Some cs)).


(** [keepsOrdered w w']: if the queue of [w] is in order, so is that of
    [w']. *)
Definition keepsOrdered (w w' : World) : Prop := queueOrdered w → queueOrdered w'.

(** * Properties *)

(** ** Strings *)

Lemma append_nil_l (s : string) : "" +:+ s = s.
Proof. reflexivity. Qed.

Lemma append_cons (c : ascii) (a b : string) : String c a +:+ b = String c (a +:+ b).
Proof. reflexivity. Qed.







(** ** Reasoning about the monad *)

Lemma wp_elim {A} (m : M A) Q w :
  wp m Q w → ∃ a w', m w = (Return a, w') ∧ Q a w'.
Proof. unfold wp. destruct (m w) as [[a|e] w']; [eauto | done]. Qed.

Lemma wp_intro {A} (m : M A) (Q : A → World → Prop) w a w' :
  m w = (Return a, w') → Q a w' → wp m Q w.
Proof. unfold wp. by intros ->. Qed.

Lemma wp_mono {A} (m : M A) (Q Q' : A → World → Prop) w :
  (∀ a w', Q a w' → Q' a w') → wp m Q w → wp m Q' w.
Proof. unfold wp. destruct (m w) as [[a|e] w']; [auto | done]. Qed.

Lemma wp_ret {A} (a : A) (Q : A → World → Prop) w : Q a w → wp (mret a) Q w.
Proof. done. Qed.

Lemma wp_bind {A B} (m : M A) (k : A → M B) (Q : B → World → Prop) w :
  wp m (λ a w', wp (k a) Q w') w → wp (m ≫= k) Q w.
Proof.
  unfold wp, mbind, M_bind. destruct (m w) as [[a|e] w']; [done | done].
Qed.

Lemma wp_gets {A} (f : World → A) (Q : A → World → Prop) w : Q (f w) w → wp (gets f) Q w.
Proof. done. Qed.

Lemma wp_modify (f : World → World) (Q : unit → World → Prop) w :
  Q tt (f w) → wp (modify f) Q w.
Proof. done. Qed.

Lemma wp_when (c : bool) (m : M unit) (Q : unit → World → Prop) w :
  (if c then wp m Q w else Q tt w) → wp (when c m) Q w.
Proof. by destruct c. Qed.

(** The final world of a computation that returns. *)
Lemma wp_exec {A} (m : M A) (Q : A → World → Prop) w :
  wp m Q w → ∃ a, m w = (Return a, exec m w) ∧ Q a (exec m w).
Proof.
  unfold wp, exec. destruct (m w) as [[a|e] w']; [eauto | done].
Qed.

Section Preserves.
Context (R : relation World) `{!PreOrder R}.

Lemma preserves_ret {A} (a : A) : preserves R (mret a).
Proof. intros w. apply wp_ret. reflexivity. Qed.

Lemma preserves_gets {A} (f : World → A) : preserves R (gets f).
Proof. intros w. apply wp_gets. reflexivity. Qed.

Lemma preserves_modify (f : World → World) :
  (∀ w, R w (f w)) → preserves R (modify f).
Proof. intros H w. apply wp_modify, H. Qed.

Lemma preserves_bind {A B} (m : M A) (k : A → M B) :
  preserves R m → (∀ a, preserves R (k a)) → preserves R (m ≫= k).
Proof.
  intros Hm Hk w. apply wp_bind. eapply wp_mono; [|apply Hm].
  intros a w1 H1. eapply wp_mono; [|apply Hk].
  intros b w2 H2. simpl in *. by etrans.
Qed.

Lemma preserves_when (c : bool) (m : M unit) :
  preserves R m → preserves R (when c m).
Proof. intros Hm. destruct c; [exact Hm | apply preserves_ret]. Qed.

Lemma preserves_if {A} (c : bool) (m1 m2 : M A) :
  preserves R m1 → preserves R m2 → preserves R (if c then m1 else m2).
Proof. by destruct c. Qed.

Lemma preserves_forEach {A} (l : list A) (f : A → M unit) :
  (∀ x, preserves R (f x)) → preserves R (forEach l f).
Proof.
  intros Hf. induction l as [|x l IH]; cbn [forEach].
  - apply preserves_ret.
  - apply preserves_bind; [apply Hf | intros _; apply IH].
Qed.

(** What [preserves] says about the world left behind. *)
Lemma preserves_exec {A} (m : M A) w : preserves R m → R w (exec m w).
Proof. intros H. destruct (wp_exec _ _ _ (H w)) as [a [_ HR]]. exact HR. Qed.

Lemma preserves_total {A} (m : M A) w :
  preserves R m → ∃ a, m w = (Return a, exec m w).
Proof. intros H. destruct (wp_exec _ _ _ (H w)) as [a [E _]]. eauto. Qed.
End Preserves.

(** ** What the script never changes *)

#[global] Instance grows_preorder : PreOrder grows.
Proof.
  split.
  - intros w. by split.
  - intros w1 w2 w3 [L1 S1 M1] [L2 S2 M2]. split.
    + lia.
    + intros c Hc. rewrite S2 by lia. by apply S1.
    + intros c Hc. by apply M2, M1.
Qed.

Lemma getEl_alter {X} (P : Element → X) (f : Element → Element) (c c' : ElemId) (w : World) :
  (∀ e, P (f e) = P e) →
  P (getEl c (set_elements (alter f c') w)) = P (getEl c w).
Proof.
  intros Hf. unfold getEl. cbn [elements set_elements].
  rewrite list_lookup_alter. case_decide; [subst c'|done].
  destruct (elements w !! c); simpl; [apply Hf | done].
Qed.

Lemma getEl_alter_eq (f : Element → Element) (c : ElemId) (w : World) :
  c < length (elements w) →
  getEl c (set_elements (alter f c) w) = f (getEl c w).
Proof.
  intros Hc. unfold getEl. cbn [elements set_elements].
  rewrite list_lookup_alter_eq.
  destruct (lookup_lt_is_Some_2 _ _ Hc) as [e ->]. done.
Qed.

Lemma getEl_alter_ne (f : Element → Element) (c c' : ElemId) (w : World) :
  c' ≠ c → getEl c (set_elements (alter f c') w) = getEl c w.
Proof.
  intros Hc. unfold getEl. cbn [elements set_elements].
  by rewrite list_lookup_alter_ne.
Qed.

Lemma grows_update (f : Element → Element) (c : ElemId) (w : World) :
  (∀ e, static (f e) = static e) →
  (∀ e, isInitialized e = true → isInitialized (f e) = true) →
  grows w (set_elements (alter f c) w).
Proof.
  intros Hs Hm. split.
  - cbn [elements set_elements]. by rewrite length_alter.
  - intros c' _. by apply getEl_alter.
  - intros c' Hc'. unfold getEl in *. cbn [elements set_elements].
    rewrite list_lookup_alter. case_decide; [subst c'|done].
    destruct (elements w !! c); simpl in *; [by apply Hm | done].
Qed.

Lemma grows_same_elements (w w' : World) : elements w' = elements w → grows w w'.
Proof.
  intros E. split.
  - by rewrite E.
  - intros c _. unfold getEl. by rewrite E.
  - intros c. unfold getEl. by rewrite E.
Qed.

Lemma grows_append (e : Element) (w : World) :
  grows w (set_elements (λ els, els ++ [e]) w).
Proof.
  split.
  - cbn [elements set_elements]. rewrite length_app. lia.
  - intros c Hc. unfold getEl. cbn [elements set_elements]. by rewrite lookup_app_l.
  - intros c. unfold getEl. cbn [elements set_elements].
    destruct (elements w !! c) as [e'|] eqn:E.
    + by rewrite (lookup_app_l_Some _ _ _ _ E).
    + by cbn.
Qed.

(** The script's functions return and only make the world grow. *)
Create HintDb engine.

#[local] Hint Resolve preserves_ret preserves_gets preserves_bind preserves_when
  preserves_forEach preserves_if : engine.
#[local] Hint Extern 1 (PreOrder grows) => exact grows_preorder : engine.

Lemma grows_updateElement (c : ElemId) (f : Element → Element) :
  (∀ e, static (f e) = static e) →
  (∀ e, isInitialized e = true → isInitialized (f e) = true) →
  preserves grows (updateElement c f).
Proof. intros Hs Hm. apply preserves_modify. intros w. by apply grows_update. Qed.

Lemma grows_modify_world (f : World → World) :
  (∀ w, elements (f w) = elements w) → preserves grows (modify f).
Proof. intros H. apply preserves_modify. intros w. by apply grows_same_elements. Qed.

Lemma grows_element (c : ElemId) : preserves grows (element c).
Proof. apply preserves_gets, _. Qed.

Lemma grows_setStyle c p v : preserves grows (setStyle c p v).
Proof.
  unfold setStyle. apply preserves_bind; [apply _ | |].
  - by apply grows_updateElement.
  - intros _. by apply grows_modify_world.
Qed.

Lemma grows_setAttribute c n v : preserves grows (setAttribute c n v).
Proof. by apply grows_updateElement. Qed.

Lemma grows_addEventListener c t l : preserves grows (addEventListener c t l).
Proof. by apply grows_updateElement. Qed.

Lemma grows_addClickListener c l : preserves grows (addClickListener c l).
Proof.
  apply grows_updateElement; [|done].
  intros e. unfold static. cbn. f_equal.
  destruct (dismissControl e); done.
Qed.

Lemma grows_dispatchEvent e : preserves grows (dispatchEvent e).
Proof. by apply grows_modify_world. Qed.

Lemma grows_setTimeout cb d : preserves grows (setTimeout cb d).
Proof. by apply grows_modify_world. Qed.

(** Writing a data attribute keeps the markers, unless it overwrites one. *)
Lemma grows_setData c k v :
  k ≠ "notificationInitialized" ∨ v = "true" → preserves grows (setData c k v).
Proof.
  intros H. apply grows_updateElement; [done|].
  intros e. unfold isInitialized. cbn. intros He%bool_decide_eq_true.
  apply bool_decide_eq_true.
  destruct (decide (k = "notificationInitialized")) as [->|Hne].
  - destruct H as [?| ->]; [done|]. apply lookup_insert_eq.
  - by rewrite lookup_insert_ne.
Qed.

#[local] Hint Resolve grows_element grows_setStyle grows_setAttribute grows_addEventListener
  grows_addClickListener grows_dispatchEvent grows_setTimeout : engine.

Lemma grows_remove c : preserves grows (remove c).
Proof.
  unfold remove. apply preserves_bind; [apply _ | auto with engine |].
  intros el. destruct (parent el); [|auto with engine].
  apply preserves_bind; [apply _ | by apply grows_updateElement |]. intros _.
  apply preserves_bind; [apply _ | |].
  - apply preserves_when; [apply _|]. by apply grows_modify_world.
  - intros _. by apply grows_modify_world.
Qed.

#[local] Hint Resolve grows_remove : engine.

Lemma grows_dismissCard c : preserves grows (dismissCard c).
Proof. unfold dismissCard. eauto 20 with engine. Qed.

Lemma grows_removeCard c : preserves grows (removeCard c).
Proof. unfold removeCard. eauto 20 with engine. Qed.

Lemma grows_animateIn c : preserves grows (animateIn c).
Proof. unfold animateIn. eauto 20 with engine. Qed.

Lemma grows_animateInStep c : preserves grows (animateInStep c).
Proof. unfold animateInStep. eauto 20 with engine. Qed.

Lemma grows_logNotification c : preserves grows (logNotification c).
Proof.
  unfold logNotification.
  apply preserves_bind; [apply _ | auto with engine |]. intros el.
  apply preserves_bind; [apply _ | auto with engine |]. intros t.
  apply preserves_bind; [apply _ | by apply grows_modify_world |]. intros _.
  by apply grows_modify_world.
Qed.

#[local] Hint Resolve grows_dismissCard grows_removeCard grows_animateIn grows_animateInStep
  grows_logNotification : engine.

Lemma grows_initializeCard c : preserves grows (initializeCard c).
Proof. unfold initializeCard. eauto 30 with engine. Qed.

#[local] Hint Resolve grows_initializeCard : engine.

Lemma grows_init_one c : preserves grows (NotificationCard.init (Some c)).
Proof.
  unfold NotificationCard.init.
  apply preserves_bind; [apply _ | auto with engine |]. intros el.
  apply preserves_if; [|auto with engine].
  apply preserves_bind; [apply _ | apply grows_setData; by right | auto with engine].
Qed.

Lemma grows_appendChild c : preserves grows (appendChild c).
Proof.
  unfold appendChild.
  apply preserves_bind; [apply _ | by apply grows_updateElement |]. intros _.
  apply preserves_bind; [apply _ | by apply grows_modify_world |]. intros _.
  by apply grows_modify_world.
Qed.

Lemma grows_ensureContainer : preserves grows ensureContainer.
Proof.
  unfold ensureContainer.
  apply preserves_bind; [apply _ | auto with engine |]. intros [cs|]; [auto with engine|].
  apply preserves_bind; [apply _ | by apply grows_modify_world |]. intros _.
  by apply grows_modify_world.
Qed.

Lemma ensureContainer_elements (w : World) :
  elements (exec ensureContainer w) = elements w.
Proof. unfold ensureContainer, exec, mbind, M_bind, gets. cbn. by destruct (container w). Qed.

(** [show] on an object: it returns a new node, the last of the table, whose
    static parts are those the parser gave it; the rest of the world grew. *)
Lemma show_returns (o : Options) (w : World) :
  wp (NotificationCard.show (Some o))
     (λ card w', card = length (elements w) ∧ grows w w' ∧
                 static (getEl card w') = static (parseCard (assign (defaultsFor o) o))) w.
Proof.
  unfold NotificationCard.show.
  apply wp_bind, wp_ret.
  apply wp_bind.
  destruct (wp_exec _ _ _ (grows_ensureContainer w)) as [[] [E1 G1]].
  eapply wp_intro; [exact E1|].
  pose proof (ensureContainer_elements w) as EL.
  set (w1 := exec ensureContainer w) in *. clearbody w1.
  unfold createElement.
  apply wp_bind, wp_bind, wp_gets, wp_bind, wp_modify, wp_ret.
  set (e := parseCard (assign (defaultsFor o) o)).
  set (w2 := set_elements (λ els, els ++ [e]) w1).
  assert (G2 : grows w1 w2) by apply grows_append.
  assert (L2 : length (elements w1) < length (elements w2)).
  { unfold w2. cbn [elements set_elements]. rewrite length_app. simpl. lia. }
  assert (S2 : getEl (length (elements w1)) w2 = e).
  { unfold getEl, w2. cbn [elements set_elements]. by rewrite list_lookup_middle. }
  clearbody w2.
  apply wp_bind. eapply wp_mono; [|apply grows_appendChild]. intros [] w3 G3. cbn beta in G3.
  apply wp_bind. eapply wp_mono; [|apply grows_initializeCard]. intros [] w4 G4. cbn beta in G4.
  apply wp_bind. eapply wp_mono; [|apply (preserves_when grows), grows_setTimeout].
  intros [] w5 G5. cbn beta in G5. apply wp_ret.
  assert (G : grows w2 w5) by (etrans; [exact G3|]; etrans; [exact G4|exact G5]).
  split; [by rewrite EL|]. split.
  - etrans; [exact G1|]. etrans; [exact G2|exact G].
  - rewrite (grows_static _ _ G) by exact L2. by rewrite S2.
Qed.

(** ** The variant of a card *)

Lemma getVariant_className (e e' : Element) :
  className e = className e' → getVariant e = getVariant e'.
Proof. unfold getVariant. by intros ->. Qed.


(** ** The markup of a card *)


Lemma prefix_nil (s : string) : String.prefix "" s = true.
Proof. by destruct s. Qed.

Lemma escapeHtml_cons (c : ascii) (rest : string) :
  escapeHtml (String c rest) =
  if Ascii.eqb c "&" then "&amp;" +:+ escapeHtml rest
  else if Ascii.eqb c "<" then "&lt;" +:+ escapeHtml rest
  else if Ascii.eqb c ">" then "&gt;" +:+ escapeHtml rest
  else
    match rest with
    | String d rest' =>
        if Ascii.eqb c "194" && Ascii.eqb d "160"
        then "&nbsp;" +:+ escapeHtml rest'
        else String c (escapeHtml rest)
    | EmptyString => String c EmptyString
    end.
Proof. reflexivity. Qed.

(** What the parser reads from an escaped text is the text. *)
Lemma decodeFrom_escapeHtml (text : string) (n : nat) :
  String.length (escapeHtml text) ≤ n → decodeFrom n (escapeHtml text) = text.
Proof.
  revert n.
  assert (H : (∀ n, String.length (escapeHtml text) ≤ n → decodeFrom n (escapeHtml text) = text) ∧
              ∀ x n, String.length (escapeHtml (String x text)) ≤ n →
                     decodeFrom n (escapeHtml (String x text)) = String x text); [|by destruct H].
  induction text as [|d text [IH1 IH2]].
  - split.
    { intros [|n] _; reflexivity. }
    intros x n. cbn [escapeHtml].
    destruct (Ascii.eqb_spec x "&") as [->|Hamp].
    { intros Hn. destruct n as [|n]; [by vm_compute in Hn; lia|]. by destruct n. }
    destruct (Ascii.eqb_spec x "<") as [->|Hlt].
    { intros Hn. destruct n as [|n]; [by vm_compute in Hn; lia|]. by destruct n. }
    destruct (Ascii.eqb_spec x ">") as [->|Hgt].
    { intros Hn. destruct n as [|n]; [by vm_compute in Hn; lia|]. by destruct n. }
    destruct n as [|n]; cbn [String.length]; [lia|]. intros _.
    cbn [decodeFrom]. rewrite (proj2 (Ascii.eqb_neq _ _) Hamp). by destruct n.
  - split; [apply IH2|]. intros x n.
    specialize (IH2 d). rewrite (escapeHtml_cons x).
    destruct (Ascii.eqb_spec x "&") as [->|Hamp].
    { change ("&amp;" +:+ ?s) with (String "&" (String "a" (String "m" (String "p" (String ";" s))))).
      set (r := escapeHtml (String d text)) in *. clearbody r.
      destruct n as [|n]; cbn [String.length]; [lia|]. intros Hn.
      cbn. rewrite prefix_nil. f_equal. apply IH2. lia. }
    destruct (Ascii.eqb_spec x "<") as [->|Hlt].
    { change ("&lt;" +:+ ?s) with (String "&" (String "l" (String "t" (String ";" s)))).
      set (r := escapeHtml (String d text)) in *. clearbody r.
      destruct n as [|n]; cbn [String.length]; [lia|]. intros Hn.
      cbn. rewrite prefix_nil. f_equal. apply IH2. lia. }
    destruct (Ascii.eqb_spec x ">") as [->|Hgt].
    { change ("&gt;" +:+ ?s) with (String "&" (String "g" (String "t" (String ";" s)))).
      set (r := escapeHtml (String d text)) in *. clearbody r.
      destruct n as [|n]; cbn [String.length]; [lia|]. intros Hn.
      cbn. rewrite prefix_nil. f_equal. apply IH2. lia. }
    destruct (Ascii.eqb x "194" && Ascii.eqb d "160") eqn:Hnb.
    { apply andb_true_iff in Hnb as [->%Ascii.eqb_eq ->%Ascii.eqb_eq].
      change ("&nbsp;" +:+ ?s) with
        (String "&" (String "n" (String "b" (String "s" (String "p" (String ";" s)))))).
      set (r := escapeHtml text) in *. clearbody r.
      destruct n as [|n]; cbn [String.length]; [lia|]. intros Hn.
      cbn. rewrite prefix_nil. do 2 f_equal. apply IH1. lia. }
    set (r := escapeHtml (String d text)) in *. clearbody r.
    destruct n as [|n]; cbn [String.length]; [lia|]. intros Hn.
    cbn [decodeFrom]. rewrite (proj2 (Ascii.eqb_neq _ _) Hamp).
    f_equal. apply IH2. lia.
Qed.

Lemma decodeText_escapeHtml (text : string) : decodeText (escapeHtml text) = text.
Proof. by apply decodeFrom_escapeHtml. Qed.





(** ** [show]: the element it returns *)

Lemma static_eq (e e' : Element) :
  static e = static e' →
  className e = className e' ∧ titleNode e = titleNode e' ∧ markup e = markup e' ∧
  (is_Some (dismissControl e) ↔ is_Some (dismissControl e')).
Proof.
  unfold static. intros [= Hc Ht Hm Hd]. repeat split; try done.
  - intros H. apply (bool_decide_eq_true_2 _) in H. rewrite Hd in H.
    by apply bool_decide_eq_true in H.
  - intros H. apply (bool_decide_eq_true_2 _) in H. rewrite <- Hd in H.
    by apply bool_decide_eq_true in H.
Qed.

(** [show] called with an object never throws; the card it returns is the
    one the parser built from the merged configuration. *)
Lemma show_card (o : Options) (w : World) :
  ∃ card w',
    NotificationCard.show (Some o) w = (Return card, w') ∧
    card = length (elements w) ∧
    className (getEl card w') = className (parseCard (assign (defaultsFor o) o)) ∧
    titleNode (getEl card w') = Some (title (assign (defaultsFor o) o)) ∧
    markup (getEl card w') = cardMarkup (assign (defaultsFor o) o).
Proof.
  destruct (wp_elim _ _ _ (show_returns o w)) as [card [w' [E [Hc [_ Hs]]]]].
  exists card, w'. apply static_eq in Hs as (? & Ht & ? & _).
  cbn [titleNode parseCard] in Ht. rewrite decodeText_escapeHtml in Ht. done.
Qed.


(** C5. Round trip between [show] and [getVariant]: when the configuration
    names one of the four variants, or none, [show] returns a card whose
    derived variant is the one named, and [info] when none was. *)
Theorem show_getVariant_round_trip (o : Options) (w : World) :
  o_variant o = None ∨
  (∃ v, o_variant o = Some v ∧ v ∈ ["info"; "success"; "warning"; "danger"]) →
  ∃ card w',
    NotificationCard.show (Some o) w = (Return card, w') ∧
    getVariant (getEl card w') = default "info" (o_variant o).
Proof.
  intros Hv. destruct (show_card o w) as (card & w' & E & _ & Hc & _ & _).
  exists card, w'. split; [done|].
  rewrite (getVariant_className _ _ Hc).
  unfold getVariant. cbn [className parseCard variant assign defaultsFor].
  destruct Hv as [-> | (v & -> & Hv)]; [done|]. cbn [default].
  repeat (apply elem_of_cons in Hv as [-> | Hv]; [done|]).
  by apply elem_of_nil in Hv.
Qed.

(** [show({variant: 'warning'})] on the empty page returns a warning card. *)
Lemma show_getVariant_round_trip_warning :
  ∃ card w',
    NotificationCard.show (Some (withVariant "warning")) emptyPage = (Return card, w') ∧
    getVariant (getEl card w') = "warning".
Proof.
  apply (show_getVariant_round_trip (withVariant "warning") emptyPage).
  right. exists "warning". split; [reflexivity | set_solver].
Defined.

(** ** Dismissal *)

(** Unfolding the script's functions down to the world they build. *)
Ltac mrun :=
  unfold exec, dismissCard, removeCard, animateIn, animateInStep, logNotification,
    appendChild, setTimeout, dispatchEvent, addClickListener, addEventListener,
    setData, setAttribute, setStyle, updateElement, element, when, gets, modify,
    mbind, M_bind, mret, M_ret;
  cbv beta iota zeta delta [fst snd].

(** Looking up an element through the writes that leave the table alone. *)
Lemma getEl_emit c e w : getEl c (emit e w) = getEl c w.
Proof. reflexivity. Qed.
Lemma getEl_set_timers c f w : getEl c (set_timers f w) = getEl c w.
Proof. reflexivity. Qed.
Lemma getEl_set_container c cs w : getEl c (set_container cs w) = getEl c w.
Proof. reflexivity. Qed.
Lemma getEl_set_now c t w : getEl c (set_now t w) = getEl c w.
Proof. reflexivity. Qed.
Lemma getEl_set_notificationLogs c f w : getEl c (set_notificationLogs f w) = getEl c w.
Proof. reflexivity. Qed.
Lemma getEl_set_messages c f w : getEl c (set_messages f w) = getEl c w.
Proof. reflexivity. Qed.

Create Rewrite HintDb world.
#[local] Hint Rewrite getEl_emit getEl_set_timers getEl_set_container getEl_set_now
  getEl_set_notificationLogs getEl_set_messages : world.

(** [through P]: a part [P] of an element that the pending writes keep. *)
Ltac through P :=
  repeat first [ progress autorewrite with world
               | rewrite (getEl_alter P) by done ].

(** [dismissCard] in any world, whatever state the card is in. *)
Lemma dismissCard_effect (c : ElemId) (w : World) :
  dismissCard c w = (Return tt, exec (dismissCard c) w) ∧
  trace (exec (dismissCard c) w) = trace w ++ exitEffects c w ∧
  timers (exec (dismissCard c) w) = enqueue (removalTimer c (now w)) (timers w) ∧
  now (exec (dismissCard c) w) = now w ∧
  (∀ c', className (getEl c' (exec (dismissCard c) w)) = className (getEl c' w)) ∧
  (∀ c', parent (getEl c' (exec (dismissCard c) w)) = parent (getEl c' w)).
Proof.
  split; [reflexivity|]. split.
  { unfold exitEffects. mrun. cbn. by rewrite <- !app_assoc. }
  split; [reflexivity|]. split; [reflexivity|]. split.
  - intros c'. mrun. by through className.
  - intros c'. mrun. by through parent.
Qed.

(** [card.remove()] as a function on worlds. *)
Lemma remove_run (c : ElemId) (w : World) :
  remove c w =
  (Return tt,
   match parent (getEl c w) with
   | None => w
   | Some p =>
       emit (Detached c)
         ((if bool_decide (p = InContainer)
           then λ w1, set_container (filter (λ c', c' ≠ c) <$> container w1) w1
           else λ w1, w1)
            (set_elements (alter (set_parent None) c) w))
   end).
Proof.
  unfold remove, element, mbind, M_bind, gets. cbv beta iota.
  destruct (parent (getEl c w)) as [p|]; [|reflexivity].
  by destruct (bool_decide (p = InContainer)).
Qed.

Lemma remove_keeps_class (c c' : ElemId) (w : World) :
  className (getEl c' (exec (remove c) w)) = className (getEl c' w).
Proof.
  unfold exec. rewrite remove_run. cbn [snd].
  destruct (parent (getEl c w)) as [p|]; [|done].
  destruct (bool_decide (p = InContainer)); by through className.
Qed.

Lemma removeCard_run (c : ElemId) (w : World) :
  removeCard c w =
  (Return tt,
   emit (Dispatched (notificationRemoved (getVariant (getEl c w)))) (exec (remove c) w)).
Proof.
  unfold removeCard, exec, mbind, M_bind. rewrite remove_run.
  unfold element, gets, dispatchEvent, modify. cbv beta iota zeta delta [fst snd].
  do 4 f_equal. apply getVariant_className.
  pose proof (remove_keeps_class c c w) as H. unfold exec in H.
  by rewrite remove_run in H.
Qed.

(** The removal step in any world: it never raises, with or without a
    parent to take the card off. *)
Lemma removeCard_effect (c : ElemId) (w : World) :
  removeCard c w = (Return tt, exec (removeCard c) w) ∧
  trace (exec (removeCard c) w) = trace w ++ removalEffects c w ∧
  timers (exec (removeCard c) w) = timers w ∧
  now (exec (removeCard c) w) = now w ∧
  parent (getEl c (exec (removeCard c) w)) = None ∧
  (∀ c', className (getEl c' (exec (removeCard c) w)) = className (getEl c' w)).
Proof.
  unfold exec at 1 2 3 4 5 6. rewrite !removeCard_run. cbn [snd].
  split; [done|]. unfold removalEffects, exec. rewrite remove_run. cbn [snd].
  destruct (parent (getEl c w)) as [p|] eqn:Hp.
  - assert (Hc : c < length (elements w)).
    { apply lookup_lt_is_Some. unfold getEl in Hp.
      destruct (elements w !! c); [eauto | done]. }
    destruct (bool_decide (p = InContainer)).
    all: repeat split; try done.
    all: try (intros c'; by through className).
    all: try (cbn; by rewrite <- app_assoc).
    all: autorewrite with world; by rewrite getEl_alter_eq.
  - repeat split; done.
Qed.

(** ** The event loop *)

(** Nothing fires while the next timer is not due. *)
Lemma runTimers_idle (fuel : nat) (deadline : Z) (w : World) :
  (∀ t, head (timers w) = Some t → (deadline < t_at t)%Z) →
  runTimers fuel deadline w = w.
Proof.
  intros H. destruct fuel as [|fuel]; [done|]. cbn [runTimers].
  destruct (timers w) as [|t rest]; [done|].
  specialize (H t eq_refl). destruct (Z.leb_spec (t_at t) deadline); [lia | done].
Qed.

(** A due timer fires. *)
Lemma runTimers_fire (fuel : nat) (deadline : Z) (w : World) (t : Timer) (rest : list Timer) :
  timers w = t :: rest → (t_at t ≤ deadline)%Z →
  runTimers (S fuel) deadline w =
  runTimers fuel deadline
    (exec (fire (t_cb t)) (set_now (Z.max (now w) (t_at t)) (set_timers (λ _, rest) w))).
Proof.
  intros E H. cbn [runTimers]. rewrite E.
  destruct (Z.leb_spec (t_at t) deadline); [done | lia].
Qed.

Lemma advance_idle (ms : Z) (w : World) :
  (∀ t, head (timers w) = Some t → (now w + ms < t_at t)%Z) →
  advance ms w = set_now (now w + ms) w.
Proof. intros H. unfold advance. by rewrite runTimers_idle. Qed.

(** The loop has fuel enough: [pending] bounds the number of firings, since
    a callback causes fewer firings than it is counted for. *)
Lemma pending_enqueue (t : Timer) (q : list Timer) :
  sum_list (map (λ t, work (t_cb t)) (enqueue t q)) =
  work (t_cb t) + sum_list (map (λ t, work (t_cb t)) q).
Proof.
  induction q as [|u q IH]; cbn [enqueue]; [done|].
  destruct (t_at u <=? t_at t)%Z; [|done].
  cbn in *. rewrite IH. lia.
Qed.

Lemma pending_fire (cb : Callback) (w : World) :
  pending (exec (fire cb) w) + 1 = pending w + work cb.
Proof.
  unfold pending. destruct cb as [c|c|c]; cbn [fire work].
  - destruct (dismissCard_effect c w) as (_ & _ & -> & _).
    rewrite pending_enqueue. cbn [work t_cb removalTimer]. lia.
  - destruct (removeCard_effect c w) as (_ & _ & -> & _). lia.
  - change (timers (exec (animateInStep c) w)) with (timers w). lia.
Qed.

Lemma work_positive (cb : Callback) : 0 < work cb.
Proof. destruct cb; cbn; lia. Qed.

Lemma runTimers_complete (fuel : nat) (deadline : Z) (w : World) :
  pending w ≤ fuel →
  ∀ t, head (timers (runTimers fuel deadline w)) = Some t → (deadline < t_at t)%Z.
Proof.
  revert w. induction fuel as [|fuel IH]; intros w Hp t; cbn [runTimers].
  - unfold pending in Hp. destruct (timers w) as [|u rest]; [done|].
    cbn in Hp. pose proof (work_positive (t_cb u)). lia.
  - destruct (timers w) as [|u rest] eqn:E; [by rewrite E|].
    destruct (Z.leb_spec (t_at u) deadline) as [Hdue|Hnot].
    + apply IH.
      pose proof (pending_fire (t_cb u)
        (set_now (Z.max (now w) (t_at u)) (set_timers (λ _, rest) w))) as Hf.
      assert (Hw : pending w = work (t_cb u) +
                pending (set_now (Z.max (now w) (t_at u)) (set_timers (λ _, rest) w))).
      { unfold pending. cbn [timers set_now set_timers]. rewrite E. by cbn. }
      lia.
    + rewrite E. intros [= <-]. lia.
Qed.

(** After [advance], the next pending timer, if any, is not due yet. *)
Lemma advance_complete (ms : Z) (w : World) (t : Timer) :
  head (timers (advance ms w)) = Some t → (now w + ms < t_at t)%Z.
Proof. unfold advance. cbn [timers set_now]. by apply runTimers_complete. Qed.

(** C6. [dismissCard] first dispatches [notificationDismiss] with the card's
    variant and title, then writes the exit transition (transition, opacity,
    transform), sets the removal timer 300 ms ahead and returns; the card
    keeps its parent.  The removal step returns normally in every world: it
    takes the card off its parent when it has one, detaches nothing when it
    has none, and dispatches [notificationRemoved] with the variant either
    way.  On a page with no other timer pending, nothing more happens before
    300 ms have passed, and once they have, the card is off its parent and
    the document has seen [notificationRemoved]. *)
Theorem dismiss_emits_then_removes (c : ElemId) (w : World) :
  dismissCard c w = (Return tt, exec (dismissCard c) w) ∧
  trace (exec (dismissCard c) w) = trace w ++ exitEffects c w ∧
  timers (exec (dismissCard c) w) = enqueue (removalTimer c (now w)) (timers w) ∧
  parent (getEl c (exec (dismissCard c) w)) = parent (getEl c w) ∧
  (c < length (elements w) → style (getEl c (exec (dismissCard c) w)) = exitStyle) ∧
  (∀ w', removeCard c w' = (Return tt, exec (removeCard c) w') ∧
         trace (exec (removeCard c) w') = trace w' ++ removalEffects c w' ∧
         parent (getEl c (exec (removeCard c) w')) = None) ∧
  (∀ w', parent (getEl c w') = None →
         trace (exec (removeCard c) w') =
         trace w' ++ [Dispatched (notificationRemoved (getVariant (getEl c w')))]) ∧
  (timers w = [] →
     (∀ ms, (0 ≤ ms < 300)%Z →
        advance ms (exec (dismissCard c) w) =
        set_now (now w + ms) (exec (dismissCard c) w)) ∧
     (∀ ms, (300 ≤ ms)%Z →
        trace (advance ms (exec (dismissCard c) w)) =
          trace w ++ exitEffects c w ++ removalEffects c w ∧
        parent (getEl c (advance ms (exec (dismissCard c) w))) = None ∧
        timers (advance ms (exec (dismissCard c) w)) = [])).
Proof.
  destruct (dismissCard_effect c w) as (Hrun & Htr & Htm & Hnow & Hcls & Hpar).
  set (w1 := exec (dismissCard c) w) in *.
  split; [done|]. split; [done|]. split; [done|]. split; [apply Hpar|]. split.
  { intros Hc. unfold w1. destruct (lookup_lt_is_Some_2 _ _ Hc) as [e He].
    mrun. unfold getEl. cbn [elements set_elements set_timers emit].
    rewrite !list_lookup_alter_eq, He. reflexivity. }
  split.
  { intros w'. destruct (removeCard_effect c w') as (Hr & Htr' & _ & _ & Hp' & _). done. }
  split.
  { intros w' Hnone. destruct (removeCard_effect c w') as (_ & Htr' & _).
    rewrite Htr'. unfold removalEffects. by rewrite Hnone. }
  intros Ht. rewrite Ht in Htm. cbn [enqueue] in Htm. split.
  - intros ms Hms. rewrite advance_idle, Hnow; [done|].
    intros t. rewrite Htm. intros [= <-]. cbn [t_at removalTimer]. lia.
  - intros ms Hms. unfold advance, pending. rewrite Htm.
    cbn [map sum_list sum_list_with work t_cb removalTimer].
    rewrite (runTimers_fire 0 _ w1 _ _ Htm) by (cbn [t_at removalTimer]; lia).
    cbn [runTimers fire t_cb removalTimer].
    set (w2 := set_now _ (set_timers _ w1)).
    destruct (removeCard_effect c w2) as (_ & Htr2 & Htm2 & _ & Hpar2 & _).
    split; [|split].
    + cbn [trace set_now]. rewrite Htr2. unfold w2. cbn [trace set_now set_timers].
      rewrite Htr, <- app_assoc. do 2 f_equal.
      unfold removalEffects. autorewrite with world.
      by rewrite Hpar, (getVariant_className _ _ (Hcls c)).
    + by autorewrite with world.
    + cbn [timers set_now]. by rewrite Htm2.
Qed.

(** The card of [onePage], dismissed: the events and the timing. *)
Lemma dismiss_emits_then_removes_onePage :
  trace (exec (dismissCard 0) onePage) =
    [Dispatched (notificationDismiss "info" (Some "Saved"));
     StyleSet 0 Transition "all 0.3s ease-out";
     StyleSet 0 Opacity "0";
     StyleSet 0 Transform "translateX(100%)"] ∧
  style (getEl 0 (exec (dismissCard 0) onePage)) = exitStyle ∧
  parent (getEl 0 (advance 299 (exec (dismissCard 0) onePage))) = Some InPage ∧
  trace (advance 299 (exec (dismissCard 0) onePage)) = trace (exec (dismissCard 0) onePage) ∧
  parent (getEl 0 (advance 300 (exec (dismissCard 0) onePage))) = None ∧
  trace (advance 300 (exec (dismissCard 0) onePage)) =
    trace (exec (dismissCard 0) onePage) ++
    [Detached 0; Dispatched (notificationRemoved "info")].
Proof.
  destruct (dismiss_emits_then_removes 0 onePage) as (_ & Htr & _ & _ & Hst & _ & _ & Htimed).
  destruct (Htimed eq_refl) as [Hbefore Hafter].
  destruct (Hafter 300%Z ltac:(lia)) as (Htr3 & Hp3 & _).
  split; [exact Htr|]. split; [apply Hst; simpl; lia|].
  rewrite (Hbefore 299%Z ltac:(lia)).
  split; [reflexivity|]. split; [reflexivity|]. split; [exact Hp3|].
  rewrite Htr3, Htr. reflexivity.
Defined.

(** ** Dismissing more than once *)

Lemma exec_bind_unit (m k : M unit) (w : World) :
  m w = (Return tt, exec m w) → exec (m;; k) w = exec k (exec m w).
Proof. unfold exec at 2, mbind, M_bind. by intros ->. Qed.

Lemma count_app {A} (f : A → bool) (l1 l2 : list A) :
  length (filter f (l1 ++ l2)) = length (filter f l1) + length (filter f l2).
Proof. by rewrite filter_app, length_app. Qed.

(** Each call of [dismissCard] emits one more [notificationDismiss] and
    nothing else that is counted. *)
Lemma dismissCard_counts (c : ElemId) (w : World) :
  dismissCount (exec (dismissCard c) w) = S (dismissCount w) ∧
  removedCount (exec (dismissCard c) w) = removedCount w ∧
  (∀ c', detachCount c' (exec (dismissCard c) w) = detachCount c' w).
Proof.
  destruct (dismissCard_effect c w) as (_ & Htr & _).
  unfold dismissCount, removedCount, detachCount. rewrite Htr.
  repeat split; intros; rewrite count_app.
  - change (length (filter isDismissEvent (exitEffects c w))) with 1. lia.
  - change (length (filter isRemovedEvent (exitEffects c w))) with 0. lia.
  - change (length (filter (isDetach c') (exitEffects c w))) with 0. lia.
Qed.

(** Each removal step emits one more [notificationRemoved], and detaches
    only a card that has a parent. *)
Lemma removeCard_counts (c : ElemId) (w : World) :
  dismissCount (exec (removeCard c) w) = dismissCount w ∧
  removedCount (exec (removeCard c) w) = S (removedCount w) ∧
  detachCount c (exec (removeCard c) w) = detachCount c w + detachIfAttached c w.
Proof.
  destruct (removeCard_effect c w) as (_ & Htr & _).
  unfold dismissCount, removedCount, detachCount, detachIfAttached, removalEffects in *.
  rewrite Htr. repeat split; rewrite !count_app.
  - destruct (parent (getEl c w)).
    + change (length (filter isDismissEvent [Detached c])) with 0.
      change (length (filter isDismissEvent [Dispatched _])) with 0. lia.
    + change (length (filter isDismissEvent [])) with 0.
      change (length (filter isDismissEvent [Dispatched _])) with 0. lia.
  - destruct (parent (getEl c w)).
    + change (length (filter isRemovedEvent [Detached c])) with 0.
      change (length (filter isRemovedEvent [Dispatched _])) with 1. lia.
    + change (length (filter isRemovedEvent [])) with 0.
      change (length (filter isRemovedEvent [Dispatched _])) with 1. lia.
  - change (length (filter (isDetach c) [Dispatched _])) with 0.
    destruct (parent (getEl c w)).
    + assert (E : length (filter (isDetach c) [Detached c]) = 1).
      { cbn [filter list_filter isDetach]. rewrite bool_decide_eq_true_2 by done.
        rewrite decide_True by done. done. }
      rewrite E. lia.
    + change (length (filter (isDetach c) [])) with 0. lia.
Qed.

Lemma enqueue_replicate (t : Timer) (j : nat) :
  enqueue t (replicate j t) = replicate (S j) t.
Proof.
  induction j as [|j IH]; [done|]. cbn [replicate enqueue].
  destruct (Z.leb_spec (t_at t) (t_at t)); [|lia]. by rewrite IH.
Qed.

(** [n] calls in a row leave [n] removal timers, all due at the same time. *)
Lemma times_dismissCard (c : ElemId) (n : nat) (w : World) (j : nat) :
  timers w = replicate j (removalTimer c (now w)) →
  timers (exec (times n (dismissCard c)) w) = replicate (j + n) (removalTimer c (now w)) ∧
  now (exec (times n (dismissCard c)) w) = now w ∧
  dismissCount (exec (times n (dismissCard c)) w) = dismissCount w + n ∧
  removedCount (exec (times n (dismissCard c)) w) = removedCount w ∧
  detachCount c (exec (times n (dismissCard c)) w) = detachCount c w ∧
  parent (getEl c (exec (times n (dismissCard c)) w)) = parent (getEl c w).
Proof.
  revert w j. induction n as [|n IH]; intros w j Ht.
  - cbn [times]. unfold exec. cbn. rewrite Nat.add_0_r, Nat.add_0_r. done.
  - cbn [times].
    destruct (dismissCard_effect c w) as (Hrun & _ & Htm & Hnow & _ & Hpar).
    destruct (dismissCard_counts c w) as (Hd & Hr & Hdet).
    rewrite (exec_bind_unit _ _ _ Hrun).
    set (w1 := exec (dismissCard c) w) in *.
    rewrite Ht, enqueue_replicate in Htm. rewrite <- Hnow in Htm.
    destruct (IH w1 (S j) Htm) as (H1 & H2 & H3 & H4 & H5 & H6).
    rewrite H1, H2, H3, H4, H5, H6, Hnow, Hd, Hr, Hdet, Hpar.
    repeat split; try done; try lia. f_equal. lia.
Qed.

Lemma pending_replicate_removal (c : ElemId) (t0 : Z) (k : nat) (w : World) :
  timers w = replicate k (removalTimer c t0) → pending w = k.
Proof.
  unfold pending. intros ->. induction k as [|k IH]; [done|].
  cbn [replicate map sum_list sum_list_with]. cbn [sum_list] in IH. rewrite IH. done.
Qed.

(** [k] removal timers that are due all fire: [k] removal steps run. *)
Lemma runTimers_removals (c : ElemId) (t0 deadline : Z) (k : nat) (w : World) :
  timers w = replicate k (removalTimer c t0) → (t0 + 300 ≤ deadline)%Z →
  timers (runTimers k deadline w) = [] ∧
  dismissCount (runTimers k deadline w) = dismissCount w ∧
  removedCount (runTimers k deadline w) = removedCount w + k ∧
  detachCount c (runTimers k deadline w) = detachCount c w + Nat.min k (detachIfAttached c w) ∧
  (0 < k ∨ parent (getEl c w) = None → parent (getEl c (runTimers k deadline w)) = None).
Proof.
  revert w. induction k as [|k IH]; intros w Ht Hd.
  - cbn [runTimers replicate] in *. rewrite Ht.
    repeat split; try lia. by intros [?|?]; [lia|].
  - cbn [replicate] in Ht.
    rewrite (runTimers_fire k _ w _ _ Ht) by (cbn [t_at removalTimer]; lia).
    cbn [fire t_cb removalTimer].
    set (w2 := set_now _ (set_timers _ w)).
    destruct (removeCard_effect c w2) as (_ & _ & Htm & _ & Hpar & _).
    destruct (removeCard_counts c w2) as (Hd2 & Hr2 & Hdet2).
    set (w3 := exec (removeCard c) w2) in *.
    assert (Ht3 : timers w3 = replicate k (removalTimer c t0)) by by rewrite Htm.
    destruct (IH w3 Ht3 Hd) as (H1 & H2 & H3 & H4 & H5).
    rewrite H1, H2, H3, H4, Hd2, Hr2, Hdet2.
    assert (Hz : detachIfAttached c w3 = 0) by (unfold detachIfAttached; by rewrite Hpar).
    rewrite Hz, Nat.min_0_r.
    change (detachIfAttached c w2) with (detachIfAttached c w).
    change (dismissCount w2) with (dismissCount w).
    change (removedCount w2) with (removedCount w).
    change (detachCount c w2) with (detachCount c w).
    repeat split; try done; try lia.
    + unfold detachIfAttached. destruct (parent (getEl c w)); lia.
    + intros _. apply H5. by right.
Qed.

(** C2, as the script has it.  [dismissCard] has no guard: every call, in
    whatever state the card is, dispatches one [notificationDismiss] and sets
    one removal timer 300 ms ahead, and every removal step dispatches one
    [notificationRemoved]; so [n] dismissals within the window give [n]
    [notificationDismiss] and, once the window has passed, [n]
    [notificationRemoved] events.  What happens at most once is the
    detachment: the first removal step takes the card off its parent, the
    later ones find it without parent and detach nothing. *)
Theorem dismiss_repeats_events (c : ElemId) (w : World) :
  (dismissCard c w = (Return tt, exec (dismissCard c) w) ∧
   trace (exec (dismissCard c) w) = trace w ++ exitEffects c w ∧
   dismissCount (exec (dismissCard c) w) = S (dismissCount w) ∧
   timers (exec (dismissCard c) w) = enqueue (removalTimer c (now w)) (timers w)) ∧
  (removeCard c w = (Return tt, exec (removeCard c) w) ∧
   removedCount (exec (removeCard c) w) = S (removedCount w) ∧
   detachCount c (exec (removeCard c) w) = detachCount c w + detachIfAttached c w ∧
   parent (getEl c (exec (removeCard c) w)) = None) ∧
  (∀ n, timers w = [] →
     dismissCount (advance 300 (exec (times n (dismissCard c)) w)) = dismissCount w + n ∧
     removedCount (advance 300 (exec (times n (dismissCard c)) w)) = removedCount w + n ∧
     detachCount c (advance 300 (exec (times n (dismissCard c)) w)) =
       detachCount c w + Nat.min n (detachIfAttached c w) ∧
     timers (advance 300 (exec (times n (dismissCard c)) w)) = []).
Proof.
  split; [|split].
  - destruct (dismissCard_effect c w) as (Hrun & Htr & Htm & _).
    destruct (dismissCard_counts c w) as (Hd & _).
    done.
  - destruct (removeCard_effect c w) as (Hrun & _ & _ & _ & Hpar & _).
    destruct (removeCard_counts c w) as (_ & Hr & Hdet).
    done.
  - intros n Ht.
    destruct (times_dismissCard c n w 0) as (H1 & H2 & H3 & H4 & H5 & H6); [by rewrite Ht|].
    set (w1 := exec (times n (dismissCard c)) w) in *. cbn [Nat.add] in H1.
    unfold advance. rewrite (pending_replicate_removal c (now w) n w1 H1).
    destruct (runTimers_removals c (now w) (now w1 + 300) n w1 H1) as (G1 & G2 & G3 & G4 & _);
      [lia|].
    unfold dismissCount, removedCount, detachCount in *. cbn [trace timers set_now].
    rewrite G1, G2, G3, G4, H3, H4, H5.
    repeat split; try done.
    unfold detachIfAttached. by rewrite H6.
Qed.

(** Three dismissals of the card of [onePage] in a row: three events of each
    kind, one detachment. *)
Lemma dismiss_repeats_events_onePage :
  dismissCount (advance 300 (exec (times 3 (dismissCard 0)) onePage)) = 3 ∧
  removedCount (advance 300 (exec (times 3 (dismissCard 0)) onePage)) = 3 ∧
  detachCount 0 (advance 300 (exec (times 3 (dismissCard 0)) onePage)) = 1 ∧
  timers (advance 300 (exec (times 3 (dismissCard 0)) onePage)) = [].
Proof.
  destruct (dismiss_repeats_events 0 onePage) as (_ & _ & H).
  exact (H 3 eq_refl).
Defined.

(** C2 as stated fails.  Two dismissals of the card of [onePage] within the
    window: the document sees [notificationDismiss] twice and, when the
    window has passed, [notificationRemoved] twice, for one detachment.  And
    a success card that was dismissed by a click and removed still has its
    5000 ms timer: when that fires, the document sees one more
    [notificationDismiss] and, 300 ms later, one more [notificationRemoved]. *)
Lemma second_dismiss_duplicates_removed :
  removedCount (advance 300 (exec (dismissCard 0;; dismissCard 0) onePage)) = 2 ∧
  dismissCount (advance 300 (exec (dismissCard 0;; dismissCard 0) onePage)) = 2 ∧
  detachCount 0 (advance 300 (exec (dismissCard 0;; dismissCard 0) onePage)) = 1 ∧
  parent (getEl 0 dismissedSuccess) = None ∧
  dismissCount dismissedSuccess = 1 ∧
  removedCount dismissedSuccess = 1 ∧
  dismissCount (advance 5000 dismissedSuccess) = 2 ∧
  removedCount (advance 5000 dismissedSuccess) = 2.
Proof. by vm_compute. Qed.

(** ** [show] step by step *)

#[global] Instance keeps_preorder {X} (π : World → X) : PreOrder (keeps π).
Proof.
  split.
  - by intros w.
  - intros w1 w2 w3 H1 H2. unfold keeps in *. congruence.
Qed.

(** The functions of the script return in every world. *)
Lemma total_ensureContainer w : ensureContainer w = (Return tt, exec ensureContainer w).
Proof. destruct (preserves_total grows ensureContainer w grows_ensureContainer) as [[] E]. done. Qed.

Lemma total_appendChild c w : appendChild c w = (Return tt, exec (appendChild c) w).
Proof. reflexivity. Qed.

Lemma total_initializeCard c w : initializeCard c w = (Return tt, exec (initializeCard c) w).
Proof. destruct (preserves_total grows _ w (grows_initializeCard c)) as [[] E]. done. Qed.

Lemma total_when (b : bool) (m : M unit) w :
  m w = (Return tt, exec m w) → when b m w = (Return tt, exec (when b m) w).
Proof. by destruct b. Qed.

Lemma total_setTimeout cb d w : setTimeout cb d w = (Return tt, exec (setTimeout cb d) w).
Proof. reflexivity. Qed.

(** [show] on an object, as the sequence of its steps. *)
Lemma show_run (o : Options) (w : World) :
  NotificationCard.show (Some o) w =
  (Return (length (elements w)),
   exec (when (0 <? duration (assign (defaultsFor o) o))%Z
           (setTimeout (CbDismiss (length (elements w))) (duration (assign (defaultsFor o) o))))
     (exec (initializeCard (length (elements w)))
        (exec (appendChild (length (elements w)))
           (set_elements (λ els, els ++ [parseCard (assign (defaultsFor o) o)])
              (exec ensureContainer w))))).
Proof.
  unfold NotificationCard.show, createElement.
  unfold mbind, M_bind, mret, M_ret, gets, modify.
  rewrite total_ensureContainer, ensureContainer_elements.
  rewrite total_appendChild, total_initializeCard.
  rewrite total_when by apply total_setTimeout. done.
Qed.

(** ** The dismissal timers [show] sets *)

Lemma filter_enqueue (f : Timer → bool) (t : Timer) (q : list Timer) :
  length (filter f (enqueue t q)) = length (filter f q) + (if f t then 1 else 0).
Proof.
  induction q as [|u q IH]; cbn [enqueue].
  - rewrite filter_cons, filter_nil.
    destruct (f t); [rewrite decide_True by done | rewrite decide_False by (by intros [])]; done.
  - destruct (t_at u <=? t_at t)%Z.
    + rewrite !filter_cons. destruct (decide (f u)); cbn [length]; rewrite IH; lia.
    + rewrite (filter_cons _ t).
      destruct (f t); [rewrite decide_True by done | rewrite decide_False by (by intros [])];
        cbn [length]; lia.
Qed.

Lemma dismissalsCount_setTimeout (c : ElemId) (cb : Callback) (d : Z) (w : World) :
  dismissalsCount c (exec (setTimeout cb d) w) =
  dismissalsCount c w +
  (if isDismissTimer c {| t_at := now w + Z.max 0 d; t_cb := cb |} then 1 else 0).
Proof. unfold dismissalsCount, dismissalsPending. mrun. cbn [timers set_timers]. apply filter_enqueue. Qed.

(** Proving that a function of the script keeps a part of the world that
    its writes do not touch. *)
Ltac keeps_step :=
  lazymatch goal with
  | |- PreOrder _ => apply _
  | |- preserves _ (mret _) => apply preserves_ret
  | |- preserves _ (gets _) => apply preserves_gets
  | |- preserves _ (modify _) =>
      apply preserves_modify;
      lazymatch goal with
      | |- PreOrder _ => apply _
      | |- _ => intros ?; reflexivity
      end
  | |- preserves _ (_ ≫= _) => apply preserves_bind; [| | intros ?]
  | |- preserves _ (when _ _) => apply preserves_when
  | |- preserves _ (forEach _ _) => apply preserves_forEach; [| intros ?]
  | |- preserves _ (if ?b then _ else _) => destruct b
  | |- preserves _ (match ?x with _ => _ end) => destruct x
  end.

Ltac keeps_tac :=
  unfold initializeCard, animateIn, animateInStep, logNotification, dismissCard, removeCard,
    remove, appendChild, ensureContainer, setStyle, setAttribute, setData, addEventListener,
    addClickListener, dispatchEvent, updateElement, element;
  repeat keeps_step.

Lemma keeps_count_setTimeout (c : ElemId) (cb : Callback) (d : Z) :
  (∀ t, isDismissTimer c {| t_at := t; t_cb := cb |} = false) →
  preserves (keeps (dismissalsCount c)) (setTimeout cb d).
Proof.
  intros H w. unfold wp, keeps. cbn.
  change (dismissalsCount c (exec (setTimeout cb d) w) = dismissalsCount c w).
  rewrite dismissalsCount_setTimeout, H. lia.
Qed.

Lemma keeps_count_animateIn (c card : ElemId) :
  preserves (keeps (dismissalsCount c)) (animateIn card).
Proof.
  unfold animateIn.
  apply preserves_bind; [apply _ | keeps_tac | intros ?].
  apply preserves_bind; [apply _ | keeps_tac | intros ?].
  by apply keeps_count_setTimeout.
Qed.

Lemma exec_gets_bind {A} (f : World → A) (k : A → M unit) (w : World) :
  exec (gets f ≫= k) w = exec (k (f w)) w.
Proof. reflexivity. Qed.

(** Mounting sets one dismissal timer on a success card that does not opt
    out, and none on any other card. *)
Lemma initializeCard_schedules (c : ElemId) (w : World) :
  dismissalsCount c (exec (initializeCard c) w) =
  dismissalsCount c w + (if autoDismisses (getEl c w) then 1 else 0).
Proof.
  unfold initializeCard, element. rewrite exec_gets_bind.
  fold (autoDismisses (getEl c w)).
  set (click_ := when _ (addClickListener _ _)).
  set (timer_ := when _ (setTimeout _ _)).
  set (rest_ := animateIn c ≫= _).
  assert (Hc : preserves (keeps (dismissalsCount c)) click_) by (subst click_; keeps_tac).
  assert (Hr : preserves (keeps (dismissalsCount c)) rest_).
  { subst rest_. apply preserves_bind; [apply _ | apply keeps_count_animateIn | intros ?].
    keeps_tac. }
  destruct (preserves_total _ click_ w Hc) as [[] E1].
  rewrite (exec_bind_unit _ _ _ E1).
  pose proof (preserves_exec _ click_ w Hc) as K1. unfold keeps in K1.
  set (w1 := exec click_ w) in *.
  assert (E2 : timer_ w1 = (Return tt, exec timer_ w1)).
  { subst timer_. by apply total_when. }
  rewrite (exec_bind_unit _ _ _ E2).
  pose proof (preserves_exec _ rest_ (exec timer_ w1) Hr) as K3. unfold keeps in K3.
  rewrite K3. subst timer_.
  destruct (autoDismisses (getEl c w)); cbn [when].
  - rewrite dismissalsCount_setTimeout, K1. cbn [isDismissTimer t_cb].
    by rewrite bool_decide_eq_true_2.
  - change (dismissalsCount c w1 = dismissalsCount c w + 0). lia.
Qed.

Lemma keeps_count_ensureContainer (c : ElemId) :
  preserves (keeps (dismissalsCount c)) ensureContainer.
Proof. keeps_tac. Qed.

(** The dismissal timers of the new card after [show]: one from the mount
    when it is a success card, one from [show] itself when the duration is
    positive. *)
Lemma show_schedules (o : Options) (w : World) :
  ∃ w',
    NotificationCard.show (Some o) w = (Return (length (elements w)), w') ∧
    dismissalsCount (length (elements w)) w' =
    dismissalsCount (length (elements w)) w +
    (if String.eqb (getVariant (parseCard (assign (defaultsFor o) o))) "success" then 1 else 0) +
    (if (0 <? duration (assign (defaultsFor o) o))%Z then 1 else 0).
Proof.
  eexists. split; [apply show_run|].
  set (card := length (elements w)). set (e := parseCard _).
  pose proof (preserves_exec _ _ w (keeps_count_ensureContainer card)) as K1.
  pose proof (ensureContainer_elements w) as EL.
  unfold keeps in K1. set (w1 := exec ensureContainer w) in *.
  set (w2 := set_elements _ w1).
  set (w3 := exec (appendChild card) w2).
  assert (K3 : dismissalsCount card w3 = dismissalsCount card w1) by reflexivity.
  assert (G3 : getEl card w3 = set_parent (Some InContainer) e).
  { unfold w3, w2. mrun. autorewrite with world.
    rewrite getEl_alter_eq.
    - unfold getEl. cbn [elements set_elements]. subst card. rewrite <- EL.
      by rewrite list_lookup_middle.
    - cbn [elements set_elements]. rewrite length_app. subst card. rewrite EL. simpl. lia. }
  pose proof (initializeCard_schedules card w3) as K4. rewrite G3 in K4.
  set (w4 := exec (initializeCard card) w3) in *.
  assert (A : autoDismisses (set_parent (Some InContainer) e) =
              String.eqb (getVariant e) "success").
  { unfold autoDismisses. cbn [dataset set_parent]. subst e. cbn [dataset parseCard].
    rewrite lookup_empty, bool_decide_eq_false_2 by done.
    cbn [negb]. rewrite andb_true_r. done. }
  rewrite A in K4.
  destruct (0 <? duration (assign (defaultsFor o) o))%Z; cbn [when].
  - rewrite dismissalsCount_setTimeout. cbn [isDismissTimer t_cb].
    rewrite bool_decide_eq_true_2 by done. lia.
  - change (dismissalsCount card w4 = dismissalsCount card w +
      (if String.eqb (getVariant e) "success" then 1 else 0) + 0). lia.
Qed.

(** C3, at the input where the script departs from it.  [show] sets its own
    dismissal timer exactly when the duration is positive, but the mount it
    performs sets one more, 5000 ms ahead, on every success card:
    [show({variant:'success', duration:0})] leaves a pending dismissal, and
    the card is gone 5300 ms later.  For [{variant:'info', duration:3000}]
    the one dismissal is due at 3000 ms; the card has its parent until
    3300 ms and has lost it then. *)
Theorem show_success_duration_0_still_dismisses :
  (∀ o w, ∃ w',
     NotificationCard.show (Some o) w = (Return (length (elements w)), w') ∧
     dismissalsCount (length (elements w)) w' =
     dismissalsCount (length (elements w)) w +
     (if String.eqb (getVariant (parseCard (assign (defaultsFor o) o))) "success" then 1 else 0) +
     (if (0 <? duration (assign (defaultsFor o) o))%Z then 1 else 0)) ∧
  dismissalsPending 0 (exec (NotificationCard.show (Some (withVariantDuration "success" 0))) emptyPage)
    = [{| t_at := 5000; t_cb := CbDismiss 0 |}] ∧
  parent (getEl 0 (advance 5299
    (exec (NotificationCard.show (Some (withVariantDuration "success" 0))) emptyPage)))
    = Some InContainer ∧
  parent (getEl 0 (advance 5300
    (exec (NotificationCard.show (Some (withVariantDuration "success" 0))) emptyPage)))
    = None ∧
  removedCount (advance 5300
    (exec (NotificationCard.show (Some (withVariantDuration "success" 0))) emptyPage))
    = 1 ∧
  dismissalsPending 0 (exec (NotificationCard.show (Some (withVariantDuration "info" 3000))) emptyPage)
    = [{| t_at := 3000; t_cb := CbDismiss 0 |}] ∧
  dismissCount (advance 2999
    (exec (NotificationCard.show (Some (withVariantDuration "info" 3000))) emptyPage))
    = 0 ∧
  parent (getEl 0 (advance 3299
    (exec (NotificationCard.show (Some (withVariantDuration "info" 3000))) emptyPage)))
    = Some InContainer ∧
  parent (getEl 0 (advance 3300
    (exec (NotificationCard.show (Some (withVariantDuration "info" 3000))) emptyPage)))
    = None.
Proof.
  split; [exact show_schedules|].
  by vm_compute.
Qed.

(** ** Mounting more than once *)

(** A mount call on a marked element is a no-op. *)
Lemma init_marked_noop (c : ElemId) (w : World) :
  isInitialized (getEl c w) = true →
  NotificationCard.init (Some c) w = (Return tt, w).
Proof.
  intros H. unfold NotificationCard.init, element, mbind, M_bind, gets.
  cbv beta iota. by rewrite H.
Qed.

(** A mount call leaves the element marked. *)
Lemma init_marks (c : ElemId) (w : World) :
  c < length (elements w) →
  isInitialized (getEl c (exec (NotificationCard.init (Some c)) w)) = true.
Proof.
  intros Hc. destruct (isInitialized (getEl c w)) eqn:Hi.
  - unfold exec. by rewrite init_marked_noop.
  - unfold NotificationCard.init, element. rewrite exec_gets_bind, Hi. cbn [negb].
    rewrite exec_bind_unit by reflexivity.
    apply (grows_marker _ _ (preserves_exec grows _ _ (grows_initializeCard c))).
    unfold setData. mrun. rewrite getEl_alter_eq by done.
    unfold isInitialized. cbn [dataset set_dataset].
    apply bool_decide_eq_true. apply lookup_insert_eq.
Qed.

(** Two mount calls in a row do what one does. *)
Lemma init_twice (c : ElemId) (w : World) :
  c < length (elements w) →
  exec (NotificationCard.init (Some c);; NotificationCard.init (Some c)) w =
  exec (NotificationCard.init (Some c)) w.
Proof.
  intros Hc.
  destruct (preserves_total grows _ w (grows_init_one c)) as [[] E].
  rewrite (exec_bind_unit _ _ _ E).
  unfold exec at 1. by rewrite (init_marked_noop _ _ (init_marks c w Hc)).
Qed.

(** C1, at the input where the script departs from it.  [init] tests and
    sets the marker, so a mount call on a marked element does nothing and
    two calls of [init] on an element do what one does (on the rendered card
    of [onePage]: one click listener, one dismissal per click); but [show]
    wires the card it creates without setting the marker.  After [show({})]
    the card is wired and unmarked; the first [init] on it wires it a second
    time (the second [init] does nothing): the dismiss control then has two
    click listeners and one click dismisses twice, two [notificationDismiss]
    and two [notificationRemoved] events.  [init()] without argument after
    [show({})] does the same, and so does the wrapper's card behaviour after
    its conversion behaviour has made a card with [show]. *)
Theorem show_card_is_mounted_again_by_init :
  (∀ c w, isInitialized (getEl c w) = true →
          NotificationCard.init (Some c) w = (Return tt, w)) ∧
  (∀ c w, c < length (elements w) →
          exec (NotificationCard.init (Some c);; NotificationCard.init (Some c)) w =
          exec (NotificationCard.init (Some c)) w) ∧
  dismissControl (getEl 0
    (exec (NotificationCard.init (Some 0);; NotificationCard.init (Some 0)) onePage))
    = Some [OnDismissClick 0] ∧
  dismissCount (exec (click 0)
    (exec (NotificationCard.init (Some 0);; NotificationCard.init (Some 0)) onePage)) = 1 ∧
  isInitialized (getEl 0 (exec (NotificationCard.show (Some noOptions)) emptyPage)) = false ∧
  dismissControl (getEl 0 (exec (NotificationCard.show (Some noOptions)) emptyPage))
    = Some [OnDismissClick 0] ∧
  fst (showThenInit noOptions emptyPage) = Return 0 ∧
  dismissControl (getEl 0 (exec (showThenInit noOptions) emptyPage))
    = Some [OnDismissClick 0; OnDismissClick 0] ∧
  length (listeners (getEl 0 (exec (showThenInit noOptions) emptyPage))) = 6 ∧
  length (notificationLogs (exec (showThenInit noOptions) emptyPage)) = 2 ∧
  dismissCount (exec (click 0) (exec (showThenInit noOptions) emptyPage)) = 2 ∧
  removedCount (advance 300 (exec (click 0) (exec (showThenInit noOptions) emptyPage))) = 2 ∧
  dismissControl (getEl 0 (exec (showThenInitAll noOptions) emptyPage))
    = Some [OnDismissClick 0; OnDismissClick 0] ∧
  dismissControl (getEl 0 (exec convertThenAttach statusPage))
    = Some [OnDismissClick 0; OnDismissClick 0].
Proof.
  split; [exact init_marked_noop|]. split; [exact init_twice|].
  by vm_compute.
Qed.

(** ** The defaults of [show] *)



(** C10. [show] called without argument throws a [TypeError] while it
    builds the defaults (reading [options.variant]), and the page is as it
    was: no container, no element, no timer, no event.  Called with an
    object, the empty one included, it returns; with the empty object the
    card is the one of the six defaults. *)
Theorem show_without_argument_throws (w : World) :
  (∃ msg, NotificationCard.show None w = (Throw (TypeError msg), w)) ∧
  (∀ o, ∃ card w', NotificationCard.show (Some o) w = (Return card, w')) ∧
  (∃ card w',
     NotificationCard.show (Some noOptions) w = (Return card, w') ∧
     markup (getEl card w') = cardMarkup allDefaults ∧
     className (getEl card w') = "notification-card notification-card--info" ∧
     titleNode (getEl card w') = Some "Notification" ∧
     getVariant (getEl card w') = "info").
Proof.
  split; [by eexists|]. split.
  - intros o. destruct (show_card o w) as (card & w' & E & _). eauto.
  - destruct (show_card noOptions w) as (card & w' & E & _ & Hc & Ht & Hm).
    exists card, w'. split; [done|]. split; [done|]. split; [done|]. split; [done|].
    by rewrite (getVariant_className _ _ Hc).
Qed.

(** ** The Drupal wrapper *)

Lemma keeps_messages_ensureContainer : preserves (keeps messages) ensureContainer.
Proof. keeps_tac. Qed.

Lemma keeps_messages_initializeCard c : preserves (keeps messages) (initializeCard c).
Proof. unfold initializeCard, animateIn, setTimeout. keeps_tac. Qed.

(** [show] leaves the status message blocks alone. *)
Lemma show_keeps_messages (o : Options) (w : World) :
  messages (exec (NotificationCard.show (Some o)) w) = messages w.
Proof.
  unfold exec at 1. rewrite show_run. cbn [snd].
  set (w3 := exec (appendChild _) _).
  assert (H3 : messages w3 = messages w).
  { unfold w3. mrun. cbn [messages set_elements set_container emit].
    apply (preserves_exec _ _ w keeps_messages_ensureContainer). }
  pose proof (preserves_exec _ _ w3 (keeps_messages_initializeCard (length (elements w)))) as H4.
  unfold keeps in H4.
  destruct (0 <? _)%Z; cbn [when]; [|by rewrite <- H3].
  mrun. cbn [messages set_timers]. by rewrite <- H3.
Qed.

(** ** Once per block *)

#[global] Instance sameMarks_preorder : PreOrder sameMarks.
Proof.
  split.
  - by intros w i.
  - intros w1 w2 w3 H1 H2 i. destruct (H1 i) as [A B], (H2 i) as [C D].
    split; congruence.
Qed.

Lemma filter_none {A} (P : A → Prop) `{!∀ x, Decision (P x)} (l : list A) :
  (∀ x, x ∈ l → ¬ P x) → filter P l = [].
Proof.
  induction l as [|x l IH]; [done|]. intros Hall.
  rewrite filter_cons_False by (apply Hall; left).
  apply IH. intros y Hy. apply Hall. by right.
Qed.






(** * Further properties of the script *)

(** ** Mounting, step by step *)

#[global] Instance keepsEl_preorder {X} (P : Element → X) : PreOrder (keepsEl P).
Proof.
  split.
  - by intros w c.
  - intros w1 w2 w3 H1 H2 c. by rewrite H2.
Qed.

(** [initializeCard] as the sequence of its steps, the two tests made on the
    card as it is found. *)
Lemma initializeCard_steps (c : ElemId) (w : World) :
  exec (initializeCard c) w =
  exec (logNotification c)
    (exec (addEventListener c KeyDown (OnKeydown c (hasDismiss (getEl c w))))
       (exec (setAttribute c "tabindex" "0")
          (exec (addEventListener c MouseLeave (OnMouseLeave c))
             (exec (addEventListener c MouseEnter (OnMouseEnter c))
                (exec (animateIn c)
                   (exec (when (autoDismisses (getEl c w)) (setTimeout (CbDismiss c) 5000))
                      (exec (when (hasDismiss (getEl c w))
                               (addClickListener c (OnDismissClick c))) w))))))).
Proof.
  unfold initializeCard, element. rewrite exec_gets_bind.
  fold (autoDismisses (getEl c w)). fold (hasDismiss (getEl c w)).
  rewrite exec_bind_unit by (by apply total_when).
  rewrite exec_bind_unit by (by apply total_when).
  do 5 (rewrite exec_bind_unit by reflexivity).
  reflexivity.
Qed.

(** Reading the card an update was made on, and any other card. *)
Ltac at_card :=
  repeat first
    [ progress autorewrite with world
    | rewrite getEl_alter_eq
        by (cbn [elements set_elements emit set_timers set_notificationLogs set_container
                 set_now set_messages];
            rewrite ?length_alter; assumption) ].

(** Computing the fields of an element under the setters, innermost first. *)
Ltac el_compute :=
  cbv beta iota delta
    [set_listeners set_attributes set_style set_dismissControl set_dataset set_parent setProp
     entranceStart cardListeners className dataset attributes style dismissControl titleNode
     markup listeners parent opacity transform transition fmap option_fmap option_map].

Ltac off_card :=
  repeat first [ progress autorewrite with world | rewrite getEl_alter_ne by done ].

(** What mounting does to the card. *)
Lemma initializeCard_getEl (c : ElemId) (w : World) :
  c < length (elements w) →
  getEl c (exec (initializeCard c) w) = wired c (getEl c w).
Proof.
  intros Hc. rewrite initializeCard_steps. unfold wired, hasDismiss.
  destruct (getEl c w) as [cls ds at_ st dc tn mk ls p] eqn:E.
  destruct dc as [cl|];
    [rewrite bool_decide_eq_true_2 by (cbn; eauto)
    | rewrite bool_decide_eq_false_2 by (cbn; by intros [? ?])];
    destruct (autoDismisses _); cbn [when];
    mrun; at_card; rewrite E; el_compute; by rewrite <- !app_assoc.
Qed.

(** Mounting a card leaves every other card as it is. *)
Lemma initializeCard_others (c c' : ElemId) (w : World) :
  c' ≠ c → getEl c' (exec (initializeCard c) w) = getEl c' w.
Proof.
  intros Hc. rewrite initializeCard_steps.
  destruct (hasDismiss (getEl c w)), (autoDismisses (getEl c w)); cbn [when];
    mrun; by off_card.
Qed.

(** What mounting does to the rest of the world. *)
Lemma initializeCard_world (c : ElemId) (w : World) :
  timers (exec (initializeCard c) w) =
    enqueue (entranceTimer c (now w))
      (if autoDismisses (getEl c w) then enqueue (autoDismissTimer c (now w)) (timers w)
       else timers w) ∧
  notificationLogs (exec (initializeCard c) w) =
    lastN 50 (notificationLogs w ++ [logEntryOf c w]) ∧
  trace (exec (initializeCard c) w) =
    trace w ++ [StyleSet c Opacity "0"; StyleSet c Transform "translateX(100%)";
                ConsoleLog (logEntryOf c w)] ∧
  container (exec (initializeCard c) w) = container w ∧
  messages (exec (initializeCard c) w) = messages w ∧
  now (exec (initializeCard c) w) = now w ∧
  window_NotificationCard (exec (initializeCard c) w) = window_NotificationCard w ∧
  length (elements (exec (initializeCard c) w)) = length (elements w).
Proof.
  rewrite initializeCard_steps. unfold logEntryOf, entranceTimer, autoDismissTimer.
  destruct (hasDismiss (getEl c w)), (autoDismisses (getEl c w)); cbn [when];
    mrun; cbn [timers notificationLogs trace container messages now window_NotificationCard
               elements set_elements set_timers emit set_notificationLogs];
    rewrite ?length_alter; through getVariant; through titleNode;
    change (Z.max 0 50) with 50%Z; change (Z.max 0 5000) with 5000%Z;
    rewrite <- ?app_assoc; repeat split; done.
Qed.

(** ** What timers and listeners leave alone *)

Lemma keepsEl_updateElement {X} (P : Element → X) (c : ElemId) (f : Element → Element) :
  (∀ e, P (f e) = P e) → preserves (keepsEl P) (updateElement c f).
Proof. intros H. apply preserves_modify. intros w c'. by apply getEl_alter. Qed.

Lemma keepsEl_modify {X} (P : Element → X) (f : World → World) :
  (∀ w, elements (f w) = elements w) → preserves (keepsEl P) (modify f).
Proof. intros H. apply preserves_modify. intros w c. unfold getEl. by rewrite H. Qed.

(** Proving that a function of the script keeps a part of every element. *)
Ltac keepsEl_step :=
  lazymatch goal with
  | |- PreOrder _ => apply _
  | |- preserves _ (mret _) => apply preserves_ret
  | |- preserves _ (gets _) => apply preserves_gets
  | |- preserves _ (updateElement _ _) => apply keepsEl_updateElement; intros ?; done
  | |- preserves _ (modify _) => apply keepsEl_modify; intros ?; reflexivity
  | |- preserves _ (_ ≫= _) => apply preserves_bind; [| | intros ?]
  | |- preserves _ (when _ _) => apply preserves_when
  | |- preserves _ (forEach _ _) => apply preserves_forEach; [| intros ?]
  | |- preserves _ (if ?b then _ else _) => destruct b
  | |- preserves _ (match ?x with _ => _ end) => destruct x
  end.

Ltac keepsEl_tac :=
  unfold fire, handle, initializeCard, animateIn, animateInStep, logNotification, dismissCard,
    removeCard, remove, appendChild, ensureContainer, setStyle, setAttribute, setData,
    addEventListener, addClickListener, dispatchEvent, setTimeout, element;
  repeat keepsEl_step.

Section Loop.
Context (R : relation World) `{!PreOrder R}.
Hypothesis R_fire : ∀ cb, preserves R (fire cb).
Hypothesis R_now : ∀ t w, R w (set_now t w).
Hypothesis R_timers : ∀ f w, R w (set_timers f w).

(** A relation that every callback respects holds across the timer loop. *)
Lemma runTimers_rel (fuel : nat) (deadline : Z) (w : World) :
  R w (runTimers fuel deadline w).
Proof.
  revert w. induction fuel as [|fuel IH]; intros w; cbn [runTimers]; [reflexivity|].
  destruct (timers w) as [|t rest]; [reflexivity|].
  destruct (t_at t <=? deadline)%Z; [|reflexivity].
  etrans; [|apply IH]. etrans; [apply (R_timers (λ _, rest))|].
  etrans; [apply R_now|]. apply (preserves_exec R), R_fire.
Qed.

Lemma advance_rel (ms : Z) (w : World) : R w (advance ms w).
Proof. unfold advance. etrans; [apply runTimers_rel | apply R_now]. Qed.
End Loop.

Lemma keepsEl_fire (cb : Callback) : preserves (keepsEl wiring) (fire cb).
Proof. destruct cb; keepsEl_tac. Qed.

Lemma keepsEl_handle (l : Listener) (key : string) : preserves (keepsEl wiring) (handle l key).
Proof. destruct l; keepsEl_tac. Qed.

Lemma keeps_logs_fire (cb : Callback) : preserves (keeps notificationLogs) (fire cb).
Proof. destruct cb; cbn [fire]; unfold dismissCard, removeCard, setTimeout; keeps_tac. Qed.

Lemma keeps_logs_handle (l : Listener) (key : string) :
  preserves (keeps notificationLogs) (handle l key).
Proof. destruct l; cbn [handle]; unfold dismissCard, setTimeout; keeps_tac. Qed.

Lemma click_rel (R : relation World) `{!PreOrder R} (c : ElemId) (w : World) :
  (∀ l key, preserves R (handle l key)) → R w (exec (click c) w).
Proof.
  intros H. apply (preserves_exec R). unfold click, element.
  apply preserves_bind; [apply _ | apply preserves_gets, _ | intros el].
  apply preserves_forEach; [apply _ | intros l; apply H].
Qed.

Lemma deliver_rel (R : relation World) `{!PreOrder R} (c : ElemId) (type : EventType)
    (key : string) (w : World) :
  (∀ l key, preserves R (handle l key)) → R w (exec (deliver c type key) w).
Proof.
  intros H. apply (preserves_exec R). unfold deliver, element.
  apply preserves_bind; [apply _ | apply preserves_gets, _ | intros el].
  apply preserves_forEach; [apply _ | intros l; apply H].
Qed.

(** Timers and listeners keep the wiring of every card. *)
Lemma advance_wiring (c : ElemId) (ms : Z) (w : World) :
  wiring (getEl c (advance ms w)) = wiring (getEl c w).
Proof. by apply (advance_rel (keepsEl wiring) keepsEl_fire). Qed.

Lemma click_wiring (c c' : ElemId) (w : World) :
  wiring (getEl c (exec (click c') w)) = wiring (getEl c w).
Proof. apply (click_rel (keepsEl wiring)), keepsEl_handle. Qed.

Lemma deliver_wiring (c c' : ElemId) (type : EventType) (key : string) (w : World) :
  wiring (getEl c (exec (deliver c' type key) w)) = wiring (getEl c w).
Proof. apply (deliver_rel (keepsEl wiring)), keepsEl_handle. Qed.

(** X1. Timers and listeners restyle, dismiss and detach, and nothing else:
    whatever time passes and whatever the user clicks, hovers or types, every
    card keeps its classes, data attributes (the mount marker among them),
    attributes, title, markup and listeners, and the usage log is not
    written. *)
Theorem timers_and_listeners_keep_wiring (c : ElemId) (w : World) :
  (∀ ms, wiring (getEl c (advance ms w)) = wiring (getEl c w) ∧
         notificationLogs (advance ms w) = notificationLogs w) ∧
  (∀ c', wiring (getEl c (exec (click c') w)) = wiring (getEl c w) ∧
         notificationLogs (exec (click c') w) = notificationLogs w) ∧
  (∀ c' type key,
         wiring (getEl c (exec (deliver c' type key) w)) = wiring (getEl c w) ∧
         notificationLogs (exec (deliver c' type key) w) = notificationLogs w).
Proof.
  split; [|split].
  - intros ms. split; [apply advance_wiring|].
    by apply (advance_rel (keeps notificationLogs) keeps_logs_fire).
  - intros c'. split; [apply click_wiring|].
    apply (click_rel (keeps notificationLogs)), keeps_logs_handle.
  - intros c' type key. split; [apply deliver_wiring|].
    apply (deliver_rel (keeps notificationLogs)), keeps_logs_handle.
Qed.

(** ** One card at a time *)

Lemma dismissCard_others (c c' : ElemId) (w : World) :
  c' ≠ c → getEl c' (exec (dismissCard c) w) = getEl c' w.
Proof. intros Hc. mrun. by off_card. Qed.

Lemma animateInStep_others (c c' : ElemId) (w : World) :
  c' ≠ c → getEl c' (exec (animateInStep c) w) = getEl c' w.
Proof. intros Hc. mrun. by off_card. Qed.

Lemma removeCard_others (c c' : ElemId) (w : World) :
  c' ≠ c → getEl c' (exec (removeCard c) w) = getEl c' w.
Proof.
  intros Hc. unfold exec. rewrite removeCard_run. cbn [snd]. unfold exec.
  rewrite remove_run. cbn [snd].
  destruct (parent (getEl c w)) as [p|]; [|done].
  destruct (bool_decide (p = InContainer)); by off_card.
Qed.

(** X2. The functions of the script work on the card they are given and on
    no other: mounting, dismissing, removing or animating a card leaves every
    other card exactly as it was. *)
Theorem card_functions_touch_one_card (c c' : ElemId) (w : World) :
  c' ≠ c →
  getEl c' (exec (initializeCard c) w) = getEl c' w ∧
  getEl c' (exec (dismissCard c) w) = getEl c' w ∧
  getEl c' (exec (removeCard c) w) = getEl c' w ∧
  getEl c' (exec (animateInStep c) w) = getEl c' w.
Proof.
  intros Hc. split; [by apply initializeCard_others|].
  split; [by apply dismissCard_others|].
  split; [by apply removeCard_others | by apply animateInStep_others].
Qed.

(** On the page with two cards, working on the first leaves the second. *)
Lemma card_functions_touch_one_card_twoCards :
  getEl 1 (exec (initializeCard 0) twoCards) = getEl 1 twoCards ∧
  getEl 1 (exec (dismissCard 0) twoCards) = getEl 1 twoCards ∧
  getEl 1 (exec (removeCard 0) twoCards) = getEl 1 twoCards ∧
  getEl 1 (exec (animateInStep 0) twoCards) = getEl 1 twoCards.
Proof. apply (card_functions_touch_one_card 0 1 twoCards). lia. Defined.

(** ** Events and timers *)

Lemma enqueue_Permutation (t : Timer) (q : list Timer) : enqueue t q ≡ₚ t :: q.
Proof.
  induction q as [|u q IH]; cbn [enqueue]; [done|].
  destruct (t_at u <=? t_at t)%Z; [|done].
  rewrite IH. apply Permutation_swap.
Qed.

Lemma count_cons {A} (f : A → bool) (x : A) (l : list A) :
  length (filter f (x :: l)) = (if f x then 1 else 0) + length (filter f l).
Proof.
  rewrite filter_cons.
  destruct (f x); [rewrite decide_True by done | rewrite decide_False by (by intros [])]; done.
Qed.

(** The second step of [animateIn] dispatches no event. *)
Lemma animateInStep_counts (c : ElemId) (w : World) :
  dismissCount (exec (animateInStep c) w) = dismissCount w ∧
  removedCount (exec (animateInStep c) w) = removedCount w.
Proof.
  assert (Htr : trace (exec (animateInStep c) w) =
                trace w ++ [StyleSet c Transition "all 0.4s cubic-bezier(0.4, 0, 0.2, 1)";
                            StyleSet c Opacity "1"; StyleSet c Transform "translateX(0)"]).
  { mrun. cbn [trace emit set_elements]. by rewrite <- !app_assoc. }
  unfold dismissCount, removedCount. rewrite Htr, !count_app.
  change (length (filter isDismissEvent [_; _; _])) with 0.
  change (length (filter isRemovedEvent [_; _; _])) with 0. lia.
Qed.

(** One firing: the head of the queue is taken off and run. *)
Lemma fire_counts (t : Timer) (rest : list Timer) (w : World) (t0 : Z) :
  timers w = t :: rest →
  let w1 := exec (fire (t_cb t)) (set_now t0 (set_timers (λ _, rest) w)) in
  dismissCount w1 + dismissalsDue w1 = dismissCount w + dismissalsDue w ∧
  removedCount w1 + removalsDue w1 + dismissalsDue w1 =
    removedCount w + removalsDue w + dismissalsDue w.
Proof.
  intros E w1. subst w1. set (w0 := set_now t0 (set_timers (λ _, rest) w)).
  assert (D0 : dismissCount w0 = dismissCount w) by reflexivity.
  assert (R0 : removedCount w0 = removedCount w) by reflexivity.
  assert (T0 : timers w0 = rest) by reflexivity.
  unfold dismissalsDue, removalsDue. rewrite E, !count_cons.
  destruct t as [at_ [c|c|c]]; cbn [t_cb fire isDismissal isRemoval].
  - destruct (dismissCard_counts c w0) as (-> & -> & _).
    destruct (dismissCard_effect c w0) as (_ & _ & -> & _).
    rewrite !filter_enqueue, T0. cbn [isDismissal isRemoval removalTimer t_cb]. lia.
  - destruct (removeCard_counts c w0) as (-> & -> & _).
    destruct (removeCard_effect c w0) as (_ & _ & -> & _). rewrite T0. lia.
  - destruct (animateInStep_counts c w0) as (-> & ->).
    change (timers (exec (animateInStep c) w0)) with (timers w0). rewrite T0. lia.
Qed.

Lemma runTimers_counts (fuel : nat) (deadline : Z) (w : World) :
  dismissCount (runTimers fuel deadline w) + dismissalsDue (runTimers fuel deadline w) =
    dismissCount w + dismissalsDue w ∧
  removedCount (runTimers fuel deadline w) + removalsDue (runTimers fuel deadline w) +
    dismissalsDue (runTimers fuel deadline w) =
    removedCount w + removalsDue w + dismissalsDue w.
Proof.
  revert w. induction fuel as [|fuel IH]; intros w; cbn [runTimers]; [done|].
  destruct (timers w) as [|t rest] eqn:E; [done|].
  destruct (t_at t <=? deadline)%Z; [|done].
  destruct (fire_counts t rest w (Z.max (now w) (t_at t)) E) as [H1 H2]. cbv zeta in H1, H2.
  destruct (IH (exec (fire (t_cb t)) (set_now (Z.max (now w) (t_at t)) (set_timers (λ _, rest) w))))
    as [I1 I2].
  split; lia.
Qed.

(** X3. Events are conserved across the timer loop: whatever time passes,
    the [notificationDismiss] events seen plus the dismissals still pending
    stay the same number, and so do the [notificationRemoved] events seen
    plus the removals and dismissals still pending.  So every pending
    dismissal ends in exactly one [notificationDismiss] and one
    [notificationRemoved], none is dropped and none is merged with another. *)
Theorem timers_conserve_events (ms : Z) (w : World) :
  dismissCount (advance ms w) + dismissalsDue (advance ms w) =
    dismissCount w + dismissalsDue w ∧
  removedCount (advance ms w) + removalsDue (advance ms w) + dismissalsDue (advance ms w) =
    removedCount w + removalsDue w + dismissalsDue w.
Proof. unfold advance. apply (runTimers_counts (pending w) (now w + ms) w). Qed.

(** ** A card stays until it is dismissed *)

Lemma keepsEl_parent_animateInStep (c : ElemId) : preserves (keepsEl parent) (animateInStep c).
Proof. keepsEl_tac. Qed.

(** A firing that does not lead to the removal of [c] keeps its parent, and
    schedules nothing that leads to its removal. *)
Lemma fire_keeps_parent (c : ElemId) (t : Timer) (w : World) :
  leadsToRemoval c t = false →
  Forall (λ u, leadsToRemoval c u = false) (timers w) →
  parent (getEl c (exec (fire (t_cb t)) w)) = parent (getEl c w) ∧
  Forall (λ u, leadsToRemoval c u = false) (timers (exec (fire (t_cb t)) w)).
Proof.
  unfold leadsToRemoval at 1. intros Ht Hq.
  destruct t as [at_ [c'|c'|c']]; cbn [t_cb fire] in *.
  - destruct (dismissCard_effect c' w) as (_ & _ & -> & _ & _ & Hp).
    split; [apply Hp|]. rewrite enqueue_Permutation. by constructor.
  - apply bool_decide_eq_false in Ht.
    destruct (removeCard_effect c' w) as (_ & _ & -> & _).
    split; [|done]. rewrite removeCard_others; [done | congruence].
  - split; [|done].
    apply (preserves_exec (keepsEl parent) _ w (keepsEl_parent_animateInStep c')).
Qed.

Lemma runTimers_keeps_parent (c : ElemId) (fuel : nat) (deadline : Z) (w : World) :
  Forall (λ u, leadsToRemoval c u = false) (timers w) →
  parent (getEl c (runTimers fuel deadline w)) = parent (getEl c w).
Proof.
  revert w. induction fuel as [|fuel IH]; intros w Hq; cbn [runTimers]; [done|].
  destruct (timers w) as [|t rest] eqn:E; [done|].
  destruct (t_at t <=? deadline)%Z; [|done].
  apply Forall_cons in Hq as [Ht Hrest].
  set (w0 := set_now (Z.max (now w) (t_at t)) (set_timers (λ _, rest) w)).
  destruct (fire_keeps_parent c t w0 Ht Hrest) as [Hp Hq'].
  rewrite IH by exact Hq'. exact Hp.
Qed.

(** X4. A card is taken off the page only through a dismissal: as long as no
    pending timer dismisses or removes the card, it keeps its parent however
    much time passes, whatever the timers of other cards do. *)
Theorem card_stays_until_dismissed (c : ElemId) (ms : Z) (w : World) :
  Forall (λ t, leadsToRemoval c t = false) (timers w) →
  parent (getEl c (advance ms w)) = parent (getEl c w).
Proof. intros Hq. unfold advance. autorewrite with world. by apply runTimers_keeps_parent. Qed.

(** On the page with two cards, the first one mounted and dismissed: the
    second card is still attached ten seconds later. *)
Lemma card_stays_until_dismissed_twoCards :
  parent (getEl 1 (advance 10000 (exec (initializeCard 0;; dismissCard 0) twoCards))) =
  parent (getEl 1 (exec (initializeCard 0;; dismissCard 0) twoCards)).
Proof.
  apply (card_stays_until_dismissed 1 10000 (exec (initializeCard 0;; dismissCard 0) twoCards)).
  vm_compute. repeat constructor.
Defined.

(** ** The entrance animation *)

(** A timer due before the whole queue goes to its front. *)
Lemma enqueue_front (t : Timer) (q : list Timer) :
  (∀ u, head q = Some u → (t_at t < t_at u)%Z) → enqueue t q = t :: q.
Proof.
  destruct q as [|u q]; [done|]. intros H. cbn [enqueue].
  specialize (H u eq_refl). destruct (Z.leb_spec (t_at u) (t_at t)); [lia | done].
Qed.

Lemma enqueue_head_later (d : Z) (t : Timer) (q : list Timer) :
  (d < t_at t)%Z → (∀ u, head q = Some u → (d < t_at u)%Z) →
  ∀ u, head (enqueue t q) = Some u → (d < t_at u)%Z.
Proof.
  intros Ht Hq u. destruct q as [|v q]; cbn [enqueue].
  - by intros [= <-].
  - destruct (t_at v <=? t_at t)%Z; intros [= <-]; [by apply Hq | done].
Qed.

(** Taking a timer off the queue and moving the clock leaves the nodes. *)
Lemma elements_fired (t : Z) (f : list Timer → list Timer) (w : World) :
  elements (set_now t (set_timers f w)) = elements w.
Proof. reflexivity. Qed.

(** Time passes and exactly the first timer fires. *)
Lemma advance_one (ms : Z) (w : World) (t : Timer) (rest : list Timer) :
  timers w = t :: rest → (t_at t ≤ now w + ms)%Z →
  (∀ u, head (timers (exec (fire (t_cb t))
                        (set_now (Z.max (now w) (t_at t)) (set_timers (λ _, rest) w)))) = Some u →
        (now w + ms < t_at u)%Z) →
  advance ms w =
  set_now (now w + ms)
    (exec (fire (t_cb t)) (set_now (Z.max (now w) (t_at t)) (set_timers (λ _, rest) w))).
Proof.
  intros E Hdue Hrest. unfold advance.
  assert (Hp : ∃ n, pending w = S n).
  { unfold pending. rewrite E. cbn. pose proof (work_positive (t_cb t)).
    exists (work (t_cb t) + sum_list (map (λ t, work (t_cb t)) rest) - 1). lia. }
  destruct Hp as [n ->].
  rewrite (runTimers_fire _ _ _ _ _ E Hdue). by rewrite runTimers_idle.
Qed.

(** The queue after mounting [c] on a page whose timers are due later. *)
Lemma initializeCard_queue (c : ElemId) (w : World) (d : Z) :
  (50 ≤ d < 5000)%Z →
  (∀ u, head (timers w) = Some u → (now w + d < t_at u)%Z) →
  ∃ rest,
    timers (exec (initializeCard c) w) = entranceTimer c (now w) :: rest ∧
    (∀ u, head rest = Some u → (now w + d < t_at u)%Z).
Proof.
  intros Hd Hq. destruct (initializeCard_world c w) as (-> & _).
  eexists. split.
  - apply enqueue_front. intros u Hu. cbn [t_at entranceTimer].
    assert (now w + d < t_at u)%Z; [|lia]. revert u Hu.
    destruct (autoDismisses (getEl c w)); [|exact Hq].
    apply enqueue_head_later; [cbn; lia | exact Hq].
  - destruct (autoDismisses (getEl c w)); [|exact Hq].
    apply enqueue_head_later; [cbn; lia | exact Hq].
Qed.

Lemma animateInStep_timers (c : ElemId) (w : World) :
  timers (exec (animateInStep c) w) = timers w.
Proof. reflexivity. Qed.

Lemma animateInStep_style (c : ElemId) (w : World) :
  c < length (elements w) →
  style (getEl c (exec (animateInStep c) w)) = enteredStyle.
Proof. intros Hc. mrun. by at_card. Qed.

Lemma dismissCard_length (c : ElemId) (w : World) :
  length (elements (exec (dismissCard c) w)) = length (elements w).
Proof. mrun. cbn [elements set_elements set_timers emit]. by rewrite !length_alter. Qed.

Lemma dismissCard_style (c : ElemId) (w : World) :
  c < length (elements w) →
  style (getEl c (exec (dismissCard c) w)) = exitStyle.
Proof. intros Hc. mrun. by at_card. Qed.

(** X5. The entrance animation of a mounted card: it starts hidden and
    shifted to the right, stays so for 50 ms, and from then on has the
    entered style (opaque, in place, with the 0.4 s transition), on a page
    where no other timer is due in that time. *)
Theorem mounted_card_enters_after_50ms (c : ElemId) (ms : Z) (w : World) :
  c < length (elements w) →
  (0 ≤ ms < 5000)%Z →
  (∀ u, head (timers w) = Some u → (now w + ms < t_at u)%Z) →
  style (getEl c (advance ms (exec (initializeCard c) w))) =
  if (ms <? 50)%Z then entranceStart (style (getEl c w)) else enteredStyle.
Proof.
  intros Hc Hms Hq.
  destruct (initializeCard_world c w) as (Ht & _ & _ & _ & _ & Hn & _ & Hl).
  destruct (Z.ltb_spec ms 50) as [Hlt|Hge].
  - rewrite advance_idle.
    + autorewrite with world. by rewrite initializeCard_getEl.
    + rewrite Hn, Ht. apply enqueue_head_later; [cbn; lia|].
      destruct (autoDismisses (getEl c w)); [|exact Hq].
      apply enqueue_head_later; [cbn; lia | exact Hq].
  - destruct (initializeCard_queue c w ms ltac:(lia) Hq) as (rest & E & Hrest).
    rewrite (advance_one ms _ _ _ E).
    + cbn [t_cb entranceTimer fire]. autorewrite with world.
      apply animateInStep_style. cbn [elements set_now set_timers]. by rewrite Hl.
    + rewrite Hn. cbn. lia.
    + rewrite Hn. exact Hrest.
Qed.

(** The rendered card of [onePage], mounted: entered at 50 ms. *)
Lemma mounted_card_enters_after_50ms_onePage :
  style (getEl 0 (advance 50 (exec (initializeCard 0) onePage))) = enteredStyle.
Proof.
  apply (mounted_card_enters_after_50ms 0 50 onePage).
  - cbn. lia.
  - lia.
  - intros u. cbn. discriminate.
Defined.

(** X6. A dismissal made within the first 50 ms after the mount loses its
    exit transition: [dismissCard] writes the exit style, but the second step
    of [animateIn], still pending, fires at 50 ms and overwrites it with the
    entered style; the card, dismissed, is shown opaque and in place until
    the removal step takes it off 300 ms after the dismissal. *)
Theorem early_dismissal_is_restyled (c : ElemId) (t ms : Z) (w : World) :
  c < length (elements w) →
  (0 ≤ t < 50)%Z → (50 - t ≤ ms < 300)%Z →
  (∀ u, head (timers w) = Some u → (now w + (t + ms) < t_at u)%Z) →
  style (getEl c (exec (dismissCard c) (advance t (exec (initializeCard c) w)))) = exitStyle ∧
  style (getEl c (advance ms (exec (dismissCard c) (advance t (exec (initializeCard c) w)))))
    = enteredStyle ∧
  parent (getEl c (advance ms (exec (dismissCard c) (advance t (exec (initializeCard c) w)))))
    = parent (getEl c w).
Proof.
  intros Hc Ht Hms Hq.
  destruct (initializeCard_world c w) as (_ & _ & _ & _ & _ & Hn & _ & Hl).
  destruct (initializeCard_queue c w (t + ms) ltac:(lia) Hq) as (rest & E & Hrest).
  pose proof (initializeCard_getEl c w Hc) as Hg.
  remember (exec (initializeCard c) w) as w1 eqn:Hw1. clear Hw1.
  assert (A : advance t w1 = set_now (now w + t) w1).
  { rewrite advance_idle; [by rewrite Hn|]. rewrite E, Hn. intros u [= <-]. cbn. lia. }
  rewrite A. clear A.
  assert (L2 : c < length (elements (set_now (now w + t) w1))).
  { cbn [elements set_now]. by rewrite Hl. }
  assert (G2 : parent (getEl c (set_now (now w + t) w1)) = parent (getEl c w)).
  { autorewrite with world. by rewrite Hg. }
  assert (T2 : timers (set_now (now w + t) w1) = entranceTimer c (now w) :: rest) by exact E.
  assert (N2 : now (set_now (now w + t) w1) = (now w + t)%Z) by reflexivity.
  remember (set_now (now w + t) w1) as w2 eqn:Hw2. clear Hw2 E Hg Hl Hn w1.
  destruct (dismissCard_effect c w2) as (_ & _ & Ht3 & Hn3 & _ & Hp3).
  pose proof (dismissCard_style c w2 L2) as Hs3.
  pose proof (dismissCard_length c w2) as L3.
  remember (exec (dismissCard c) w2) as w3 eqn:Hw3. clear Hw3.
  split; [exact Hs3|].
  assert (E3 : timers w3 = entranceTimer c (now w) :: enqueue (removalTimer c (now w + t)) rest).
  { rewrite Ht3, T2, N2. cbn [enqueue t_at entranceTimer removalTimer].
    destruct (Z.leb_spec (now w + 50) (now w + t + 300)); [done | lia]. }
  rewrite (advance_one ms _ _ _ E3).
  - cbn [t_cb entranceTimer fire]. autorewrite with world. split.
    + apply animateInStep_style. by rewrite elements_fired, L3.
    + rewrite (preserves_exec (keepsEl parent) _ _ (keepsEl_parent_animateInStep c)).
      autorewrite with world. by rewrite Hp3.
  - rewrite Hn3, N2. cbn [t_at entranceTimer]. lia.
  - rewrite Hn3, N2. cbn [t_cb entranceTimer fire]. rewrite animateInStep_timers.
    cbn [timers set_now set_timers].
    apply enqueue_head_later; [cbn [t_at removalTimer]; lia|].
    intros u Hu. specialize (Hrest u Hu). lia.
Qed.

(** The rendered card of [onePage], mounted and dismissed 10 ms later: at
    50 ms it is shown entered, and it is still attached at 300 ms. *)
Lemma early_dismissal_is_restyled_onePage :
  style (getEl 0 (exec (dismissCard 0) (advance 10 (exec (initializeCard 0) onePage))))
    = exitStyle ∧
  style (getEl 0 (advance 40 (exec (dismissCard 0) (advance 10 (exec (initializeCard 0) onePage)))))
    = enteredStyle ∧
  parent (getEl 0 (advance 40 (exec (dismissCard 0) (advance 10 (exec (initializeCard 0) onePage)))))
    = parent (getEl 0 onePage).
Proof.
  apply (early_dismissal_is_restyled 0 10 40 onePage).
  - cbn. lia.
  - lia.
  - lia.
  - intros u. cbn. discriminate.
Defined.

(** ** The usage log *)

Lemma logNotification_run (c : ElemId) (w : World) :
  exec (logNotification c) w =
  emit (ConsoleLog (logEntryOf c w))
    (set_notificationLogs (λ logs, lastN 50 (logs ++ [logEntryOf c w])) w).
Proof. reflexivity. Qed.

Lemma lastN_snoc {A} (n : nat) (l : list A) (x : A) :
  lastN (S n) (l ++ [x]) = drop (length l - n) l ++ [x].
Proof.
  unfold lastN. rewrite length_app. cbn [length].
  replace (length l + 1 - S n) with (length l - n) by lia.
  rewrite drop_app_le by lia. done.
Qed.

(** X7. [logNotification] appends one entry for the card (its variant, its
    title text, the time) to the persisted log and keeps the last 50 entries:
    the new log is the old one without its oldest entries beyond 49, followed
    by the new entry, so it never holds more than 50 entries and the newest
    is always kept; the same entry goes to the console; no node, timer or
    event is touched. *)
Theorem logNotification_keeps_last_50 (c : ElemId) (w : World) :
  notificationLogs (exec (logNotification c) w) =
    drop (length (notificationLogs w) - 49) (notificationLogs w) ++ [logEntryOf c w] ∧
  length (notificationLogs (exec (logNotification c) w)) =
    Nat.min 50 (S (length (notificationLogs w))) ∧
  last (notificationLogs (exec (logNotification c) w)) = Some (logEntryOf c w) ∧
  trace (exec (logNotification c) w) = trace w ++ [ConsoleLog (logEntryOf c w)] ∧
  elements (exec (logNotification c) w) = elements w ∧
  timers (exec (logNotification c) w) = timers w.
Proof.
  rewrite logNotification_run.
  cbn [notificationLogs trace elements timers emit set_notificationLogs].
  rewrite lastN_snoc. repeat split.
  - rewrite length_app, length_drop. cbn [length]. lia.
  - by rewrite last_snoc.
Qed.

(** ** [show], up to the mount *)

Lemma ensureContainer_run (w : World) :
  exec ensureContainer w =
  match container w with
  | Some _ => w
  | None => emit ContainerCreated (set_container (Some []) w)
  end.
Proof. unfold ensureContainer, exec, mbind, M_bind, gets. cbv beta iota. by destruct (container w). Qed.

Lemma alter_last {A} (f : A → A) (l : list A) (x : A) :
  alter f (length l) (l ++ [x]) = l ++ [f x].
Proof.
  rewrite <- (Nat.add_0_r (length l)) at 1.
  by rewrite (alter_app_r f l [x] 0).
Qed.

(** The world [show] hands to [initializeCard]: the container exists, the
    parsed card is the last node of the table and the last child of the
    container, and nothing else has changed. *)
Lemma show_before_mount (o : Options) (w : World) :
  let card := length (elements w) in
  let w3 := exec (appendChild card)
              (set_elements (λ els, els ++ [parseCard (assign (defaultsFor o) o)])
                 (exec ensureContainer w)) in
  getEl card w3 = set_parent (Some InContainer) (parseCard (assign (defaultsFor o) o)) ∧
  elements w3 =
    elements w ++ [set_parent (Some InContainer) (parseCard (assign (defaultsFor o) o))] ∧
  container w3 = Some (default [] (container w) ++ [card]) ∧
  trace w3 = trace w ++ match container w with Some _ => [] | None => [ContainerCreated] end
                     ++ [Appended card] ∧
  timers w3 = timers w ∧ now w3 = now w ∧ notificationLogs w3 = notificationLogs w ∧
  messages w3 = messages w ∧ window_NotificationCard w3 = window_NotificationCard w.
Proof.
  intros card w3.
  assert (E : elements w3 =
    elements w ++ [set_parent (Some InContainer) (parseCard (assign (defaultsFor o) o))]).
  { unfold w3. rewrite ensureContainer_run. unfold card.
    destruct (container w); mrun; cbn [elements set_elements set_container emit];
      by rewrite alter_last. }
  split; [|split; [exact E|]].
  - unfold getEl. rewrite E. by rewrite list_lookup_middle.
  - unfold w3. rewrite ensureContainer_run.
    destruct (container w) as [cs|] eqn:Hcw; mrun;
      cbn [container trace timers now notificationLogs messages window_NotificationCard
           set_elements set_container emit];
      rewrite ?Hcw; rewrite <- ?app_assoc; done.
Qed.

Lemma show_exec (o : Options) (w : World) :
  exec (NotificationCard.show (Some o)) w =
  exec (when (0 <? duration (assign (defaultsFor o) o))%Z
          (setTimeout (CbDismiss (length (elements w))) (duration (assign (defaultsFor o) o))))
    (exec (initializeCard (length (elements w)))
       (exec (appendChild (length (elements w)))
          (set_elements (λ els, els ++ [parseCard (assign (defaultsFor o) o)])
             (exec ensureContainer w)))).
Proof. unfold exec at 1. by rewrite show_run. Qed.

(** [show]'s own timer touches the queue only. *)
Lemma when_setTimeout_frame (b : bool) (cb : Callback) (d : Z) (w : World) :
  elements (exec (when b (setTimeout cb d)) w) = elements w ∧
  container (exec (when b (setTimeout cb d)) w) = container w ∧
  trace (exec (when b (setTimeout cb d)) w) = trace w ∧
  notificationLogs (exec (when b (setTimeout cb d)) w) = notificationLogs w ∧
  now (exec (when b (setTimeout cb d)) w) = now w.
Proof. by destruct b. Qed.

Lemma getEl_same_elements (c : ElemId) (w w' : World) :
  elements w' = elements w → getEl c w' = getEl c w.
Proof. unfold getEl. by intros ->. Qed.

(** The page after [show]. *)
Lemma show_page (o : Options) (w : World) :
  container (exec (NotificationCard.show (Some o)) w) =
    Some (default [] (container w) ++ [length (elements w)]) ∧
  parent (getEl (length (elements w)) (exec (NotificationCard.show (Some o)) w)) =
    Some InContainer ∧
  length (elements (exec (NotificationCard.show (Some o)) w)) = S (length (elements w)) ∧
  (∀ c, c ≠ length (elements w) →
        getEl c (exec (NotificationCard.show (Some o)) w) = getEl c w) ∧
  trace (exec (NotificationCard.show (Some o)) w) =
    trace w ++ match container w with Some _ => [] | None => [ContainerCreated] end
            ++ [Appended (length (elements w));
                StyleSet (length (elements w)) Opacity "0";
                StyleSet (length (elements w)) Transform "translateX(100%)";
                ConsoleLog {| log_variant := getVariant (parseCard (assign (defaultsFor o) o));
                              log_title := Some (title (assign (defaultsFor o) o));
                              log_timestamp := now w |}].
Proof.
  rewrite show_exec.
  destruct (show_before_mount o w) as (G3 & E3 & C3 & T3 & _ & N3 & _). cbv zeta in *.
  remember (exec (appendChild (length (elements w))) _) as w3 eqn:Hw3. clear Hw3.
  assert (L3 : length (elements w) < length (elements w3)).
  { rewrite E3, length_app. cbn [length]. lia. }
  destruct (initializeCard_world (length (elements w)) w3) as (_ & _ & T4 & C4 & _ & _ & _ & L4).
  pose proof (initializeCard_getEl _ _ L3) as G4.
  pose proof (λ c', initializeCard_others (length (elements w)) c' w3) as O4.
  remember (exec (initializeCard (length (elements w))) w3) as w4 eqn:Hw4. clear Hw4.
  destruct (when_setTimeout_frame (0 <? duration (assign (defaultsFor o) o))%Z
              (CbDismiss (length (elements w))) (duration (assign (defaultsFor o) o)) w4)
    as (E5 & C5 & T5 & _).
  rewrite C5, T5, E5, !(getEl_same_elements _ _ _ E5).
  split; [by rewrite C4|]. split; [by rewrite G4, G3|].
  split; [rewrite L4, E3, length_app; cbn [length]; lia|].
  split.
  - intros c Hc. rewrite (getEl_same_elements _ _ _ E5), O4 by done.
    unfold getEl. rewrite E3.
    destruct (decide (c < length (elements w))) as [Hlt|Hge].
    + by rewrite lookup_app_l.
    + rewrite !(proj2 (lookup_ge_None _ _)); [done | lia |].
      rewrite length_app. cbn [length]. lia.
  - rewrite T4, T3, <- !app_assoc. unfold logEntryOf. rewrite G3, N3.
    cbn [titleNode set_parent parseCard]. rewrite decodeText_escapeHtml.
    do 7 f_equal.
Qed.


(** ** The listeners of a mounted card *)

Lemma forEach_one {A} (x : A) (f : A → M unit) (w : World) :
  f x w = (Return tt, exec (f x) w) → exec (forEach [x] f) w = exec (f x) w.
Proof. intros E. cbn [forEach]. by rewrite exec_bind_unit. Qed.

Lemma filter_cardListeners (c : ElemId) (b : bool) (type : EventType) :
  filter (λ tl : EventType * Listener, tl.1 = type) (cardListeners c b) =
  match type with
  | Click => []
  | MouseEnter => [(MouseEnter, OnMouseEnter c)]
  | MouseLeave => [(MouseLeave, OnMouseLeave c)]
  | KeyDown => [(KeyDown, OnKeydown c b)]
  end.
Proof. by destruct type. Qed.

Lemma total_dismissCard (c : ElemId) (w : World) :
  dismissCard c w = (Return tt, exec (dismissCard c) w).
Proof. reflexivity. Qed.

Lemma total_handle (l : Listener) (key : string) (w : World) :
  handle l key w = (Return tt, exec (handle l key) w).
Proof. destruct l; cbn [handle]; try reflexivity. apply total_when. reflexivity. Qed.

(** X9. What dismisses a card that has been mounted once.  With a dismiss
    control, a click on the control and the Escape key on the card each run
    [dismissCard] exactly once; any other key does nothing.  Without a
    dismiss control no key dismisses the card, Escape included. *)
Theorem mounted_card_dismissal_triggers (c : ElemId) (b : bool) (key : string) (w : World) :
  listeners (getEl c w) = cardListeners c b →
  dismissControl (getEl c w) = (if b then Some [OnDismissClick c] else None) →
  exec (keydown c key) w =
    (if String.eqb key "Escape" && b then exec (dismissCard c) w else w) ∧
  exec (click c) w = (if b then exec (dismissCard c) w else w).
Proof.
  intros Hl Hd. split.
  - unfold keydown, deliver, element. rewrite exec_gets_bind, Hl, filter_cardListeners.
    rewrite forEach_one by apply total_handle. cbn [handle snd].
    by destruct (String.eqb key "Escape" && b).
  - unfold click, element. rewrite exec_gets_bind, Hd.
    destruct b; cbn [default from_option id]; [|reflexivity].
    by rewrite forEach_one by apply total_handle.
Qed.

(** The rendered card of [onePage], mounted: Escape and a click dismiss. *)
Lemma mounted_card_dismissal_triggers_onePage :
  exec (keydown 0 "Escape") (exec (initializeCard 0) onePage) =
    exec (dismissCard 0) (exec (initializeCard 0) onePage) ∧
  exec (click 0) (exec (initializeCard 0) onePage) =
    exec (dismissCard 0) (exec (initializeCard 0) onePage).
Proof.
  apply (mounted_card_dismissal_triggers 0 true "Escape" (exec (initializeCard 0) onePage));
    reflexivity.
Defined.

Lemma setStyle_style (c : ElemId) (p : StyleProp) (v : string) (w : World) :
  c < length (elements w) →
  style (getEl c (exec (setStyle c p v) w)) = setProp p v (style (getEl c w)).
Proof. intros Hc. mrun. by at_card. Qed.

(** X10. Hovering a mounted card: [mouseenter] writes the lifted transform,
    [mouseleave] writes the empty transform, whatever the transform was
    before (the one of the entrance or of a running exit transition is not
    put back); opacity and transition are left alone, no event is
    dispatched and no timer is set. *)
Theorem hover_lifts_and_leave_clears (c : ElemId) (b : bool) (w : World) :
  c < length (elements w) →
  listeners (getEl c w) = cardListeners c b →
  style (getEl c (exec (deliver c MouseEnter "") w)) =
    {| opacity := opacity (style (getEl c w));
       transform := "translateY(-4px) scale(1.02)";
       transition := transition (style (getEl c w)) |} ∧
  style (getEl c (exec (deliver c MouseLeave "") w)) =
    {| opacity := opacity (style (getEl c w));
       transform := "";
       transition := transition (style (getEl c w)) |} ∧
  trace (exec (deliver c MouseEnter "") w) =
    trace w ++ [StyleSet c Transform "translateY(-4px) scale(1.02)"] ∧
  trace (exec (deliver c MouseLeave "") w) = trace w ++ [StyleSet c Transform ""] ∧
  timers (exec (deliver c MouseEnter "") w) = timers w ∧
  timers (exec (deliver c MouseLeave "") w) = timers w.
Proof.
  intros Hc Hl.
  assert (E : ∀ type l, filter (λ tl : EventType * Listener, tl.1 = type) (cardListeners c b)
                        = [(type, l)] →
              exec (deliver c type "") w = exec (handle l "") w).
  { intros type l F. unfold deliver, element. rewrite exec_gets_bind, Hl, F.
    by rewrite forEach_one by apply total_handle. }
  rewrite (E MouseEnter (OnMouseEnter c)), (E MouseLeave (OnMouseLeave c))
    by apply filter_cardListeners.
  cbn [handle]. rewrite !setStyle_style by done. done.
Qed.

(** The rendered card of [onePage], mounted and hovered. *)
Lemma hover_lifts_and_leave_clears_onePage :
  style (getEl 0 (exec (deliver 0 MouseEnter "") (exec (initializeCard 0) onePage))) =
    {| opacity := opacity (style (getEl 0 (exec (initializeCard 0) onePage)));
       transform := "translateY(-4px) scale(1.02)";
       transition := transition (style (getEl 0 (exec (initializeCard 0) onePage))) |} ∧
  style (getEl 0 (exec (deliver 0 MouseLeave "") (exec (initializeCard 0) onePage))) =
    {| opacity := opacity (style (getEl 0 (exec (initializeCard 0) onePage)));
       transform := "";
       transition := transition (style (getEl 0 (exec (initializeCard 0) onePage))) |} ∧
  trace (exec (deliver 0 MouseEnter "") (exec (initializeCard 0) onePage)) =
    trace (exec (initializeCard 0) onePage) ++ [StyleSet 0 Transform "translateY(-4px) scale(1.02)"] ∧
  trace (exec (deliver 0 MouseLeave "") (exec (initializeCard 0) onePage)) =
    trace (exec (initializeCard 0) onePage) ++ [StyleSet 0 Transform ""] ∧
  timers (exec (deliver 0 MouseEnter "") (exec (initializeCard 0) onePage)) =
    timers (exec (initializeCard 0) onePage) ∧
  timers (exec (deliver 0 MouseLeave "") (exec (initializeCard 0) onePage)) =
    timers (exec (initializeCard 0) onePage).
Proof.
  apply (hover_lifts_and_leave_clears 0 true (exec (initializeCard 0) onePage)).
  - vm_compute. lia.
  - reflexivity.
Defined.

(** ** The timer of the mount *)

Lemma getEl_blank (c : ElemId) (w : World) :
  length (elements w) ≤ c → getEl c w = blankElement.
Proof. intros H. unfold getEl. by rewrite (proj2 (lookup_ge_None _ _)). Qed.

(** X11. Which cards the mount dismisses by itself.  [initializeCard] sets a
    dismissal timer 5000 ms ahead exactly on a card whose variant is
    [success] and whose [data-auto-dismiss] attribute is not [false].  On any
    other card it sets none, and the card then stays on the page however
    much time passes, unless something else dismisses it. *)
Theorem mount_auto_dismiss_policy (c : ElemId) (w : World) :
  (autoDismisses (getEl c w) = true ↔
     getVariant (getEl c w) = "success" ∧
     dataset (getEl c w) !! "autoDismiss" ≠ Some "false") ∧
  (autoDismisses (getEl c w) = true →
     autoDismissTimer c (now w) ∈ timers (exec (initializeCard c) w)) ∧
  (autoDismisses (getEl c w) = false →
     Forall (λ t, leadsToRemoval c t = false) (timers w) →
     ∀ ms, parent (getEl c (advance ms (exec (initializeCard c) w))) = parent (getEl c w)).
Proof.
  destruct (initializeCard_world c w) as (Ht & _).
  split; [|split].
  - unfold autoDismisses.
    rewrite andb_true_iff, String.eqb_eq, negb_true_iff, bool_decide_eq_false. done.
  - intros Ha. rewrite Ht, Ha, !enqueue_Permutation. set_solver.
  - intros Ha Hq ms. unfold advance. autorewrite with world.
    rewrite runTimers_keeps_parent.
    + destruct (decide (c < length (elements w))) as [Hc|Hc].
      * by rewrite initializeCard_getEl.
      * rewrite (getEl_blank c w), (getEl_blank c (exec (initializeCard c) w)); [done | |lia].
        destruct (initializeCard_world c w) as (_ & _ & _ & _ & _ & _ & _ & ->). lia.
    + rewrite Ht, Ha, enqueue_Permutation. by constructor.
Qed.

(** ** [initializeAll] *)

Lemma initializeAll_loop :
  initializeAll = (cards ← gets querySelectorAll_cards; forEach cards initializeAll_each).
Proof. reflexivity. Qed.

Lemma initializeAll_each_run (c : ElemId) (w : World) :
  initializeAll_each c w =
  (Return tt,
   if isInitialized (getEl c w) then w
   else exec (initializeCard c) (exec (setData c "notificationInitialized" "true") w)).
Proof.
  unfold initializeAll_each, element, mbind, M_bind, gets. cbv beta iota.
  destruct (isInitialized (getEl c w)); [reflexivity|].
  change (setData c "notificationInitialized" "true" w)
    with (Return tt, exec (setData c "notificationInitialized" "true") w).
  cbv beta iota. by rewrite total_initializeCard.
Qed.

Lemma total_initializeAll_each (c : ElemId) (w : World) :
  initializeAll_each c w = (Return tt, exec (initializeAll_each c) w).
Proof. unfold exec. by rewrite initializeAll_each_run. Qed.

Lemma setData_getEl (c : ElemId) (k v : string) (w : World) :
  c < length (elements w) →
  getEl c (exec (setData c k v) w) = set_dataset (<[k := v]>) (getEl c w).
Proof. intros Hc. mrun. by at_card. Qed.

Lemma setData_others (c c' : ElemId) (k v : string) (w : World) :
  c' ≠ c → getEl c' (exec (setData c k v) w) = getEl c' w.
Proof. intros Hc. mrun. by off_card. Qed.

Lemma setData_length (c : ElemId) (k v : string) (w : World) :
  length (elements (exec (setData c k v) w)) = length (elements w).
Proof. mrun. cbn [elements set_elements]. by rewrite length_alter. Qed.

Lemma initializeAll_each_getEl (c : ElemId) (w : World) :
  c < length (elements w) →
  getEl c (exec (initializeAll_each c) w) = visited c (getEl c w).
Proof.
  intros Hc. unfold exec at 1. rewrite initializeAll_each_run. cbn [snd]. unfold visited.
  destruct (isInitialized (getEl c w)); [done|].
  rewrite initializeCard_getEl by (by rewrite setData_length).
  by rewrite setData_getEl.
Qed.

Lemma initializeAll_each_others (c c' : ElemId) (w : World) :
  c' ≠ c → getEl c' (exec (initializeAll_each c) w) = getEl c' w.
Proof.
  intros Hc. unfold exec at 1. rewrite initializeAll_each_run. cbn [snd].
  destruct (isInitialized (getEl c w)); [done|].
  by rewrite initializeCard_others, setData_others.
Qed.

Lemma initializeAll_each_length (c : ElemId) (w : World) :
  length (elements (exec (initializeAll_each c) w)) = length (elements w).
Proof.
  unfold exec at 1. rewrite initializeAll_each_run. cbn [snd].
  destruct (isInitialized (getEl c w)); [done|].
  destruct (initializeCard_world c (exec (setData c "notificationInitialized" "true") w))
    as (_ & _ & _ & _ & _ & _ & _ & ->).
  apply setData_length.
Qed.

(** A loop over distinct cards whose body works on its card only. *)
Lemma forEach_cards (f : ElemId → M unit) (g : ElemId → Element → Element) :
  (∀ c w, f c w = (Return tt, exec (f c) w)) →
  (∀ c w, length (elements (exec (f c) w)) = length (elements w)) →
  (∀ c c' w, c' ≠ c → getEl c' (exec (f c) w) = getEl c' w) →
  (∀ c w, c < length (elements w) → getEl c (exec (f c) w) = g c (getEl c w)) →
  ∀ l w, NoDup l → (∀ c, c ∈ l → c < length (elements w)) →
    length (elements (exec (forEach l f) w)) = length (elements w) ∧
    ∀ c, getEl c (exec (forEach l f) w) =
         if bool_decide (c ∈ l) then g c (getEl c w) else getEl c w.
Proof.
  intros Ht Hlen Ho Hg l. induction l as [|x l IH]; intros w Hnd Hin.
  - split; [done|]. intros c. by rewrite bool_decide_eq_false_2 by set_solver.
  - cbn [forEach]. rewrite exec_bind_unit by apply Ht.
    apply NoDup_cons in Hnd as [Hx Hnd].
    destruct (IH (exec (f x) w) Hnd) as [IHl IHg].
    { intros c Hc. rewrite Hlen. apply Hin. by right. }
    split; [by rewrite IHl, Hlen|].
    intros c. rewrite IHg. destruct (decide (c = x)) as [->|Hne].
    + rewrite bool_decide_eq_false_2 by done.
      rewrite bool_decide_eq_true_2 by (by left).
      apply Hg, Hin. by left.
    + rewrite Ho by done.
      destruct (decide (c ∈ l)) as [Hcl|Hcl].
      * rewrite !bool_decide_eq_true_2; [done | by right | done].
      * rewrite !bool_decide_eq_false_2; [done | | done].
        by intros [?|?]%elem_of_cons.
Qed.

Lemma querySelectorAll_cards_spec (c : ElemId) (w : World) :
  c ∈ querySelectorAll_cards w ↔
  c < length (elements w) ∧ is_Some (parent (getEl c w)) ∧
  hasClass (className (getEl c w)) "notification-card" = true.
Proof.
  unfold querySelectorAll_cards. rewrite list_elem_of_filter, elem_of_seq.
  rewrite bool_decide_spec. split.
  - intros [[Hp Hc] Hlt]. split; [lia|]. split; [done|]. by apply Is_true_eq_true.
  - intros (Hlt & Hp & Hc). split; [|lia]. split; [done|]. by apply Is_true_eq_left.
Qed.

Lemma initializeAll_run (w : World) :
  initializeAll w =
  (Return tt, exec (forEach (querySelectorAll_cards w) initializeAll_each) w).
Proof.
  rewrite initializeAll_loop. unfold mbind, M_bind, gets. cbv beta iota.
  destruct (preserves_total grows (forEach (querySelectorAll_cards w) initializeAll_each) w)
    as [[] E]; [|exact E].
  apply preserves_forEach; [apply _|]. intros c w'. unfold wp.
  rewrite initializeAll_each_run.
  destruct (isInitialized (getEl c w')); [reflexivity|].
  etrans; [|apply (preserves_exec grows), grows_initializeCard].
  apply (preserves_exec grows), grows_setData. by right.
Qed.

(** The node [c] after [initializeAll]. *)
Lemma initializeAll_getEl (c : ElemId) (w : World) :
  length (elements (exec initializeAll w)) = length (elements w) ∧
  getEl c (exec initializeAll w) =
  if bool_decide (c ∈ querySelectorAll_cards w) then visited c (getEl c w) else getEl c w.
Proof.
  unfold exec at 1 2. rewrite initializeAll_run. cbn [snd].
  destruct (forEach_cards initializeAll_each visited
              total_initializeAll_each initializeAll_each_length
              initializeAll_each_others initializeAll_each_getEl
              (querySelectorAll_cards w) w) as [HL H].
  - apply NoDup_filter, NoDup_seq.
  - intros c' Hc'. by apply querySelectorAll_cards_spec in Hc' as [? _].
  - split; [exact HL | apply H].
Qed.

(** X12. [initializeAll] visits each attached card of class
    [notification-card] once: a card that carries the mount marker is left
    exactly as it is; any other one gets the marker and is mounted, once.
    Nodes that are detached, or lack the class, are not touched. *)
Theorem initializeAll_mounts_unmarked_cards_once (c : ElemId) (w : World) :
  getEl c (exec initializeAll w) =
  if bool_decide (c ∈ querySelectorAll_cards w)
  then (if isInitialized (getEl c w) then getEl c w else wired c (marked (getEl c w)))
  else getEl c w.
Proof. apply initializeAll_getEl. Qed.

Lemma visited_keeps (c : ElemId) (e : Element) :
  className (visited c e) = className e ∧ parent (visited c e) = parent e.
Proof. unfold visited. by destruct (isInitialized e). Qed.

Lemma visited_marked (c : ElemId) (e : Element) : isInitialized (visited c e) = true.
Proof.
  unfold visited. destruct (isInitialized e) eqn:E; [done|].
  unfold isInitialized. apply bool_decide_eq_true.
  change (dataset (wired c (marked e))) with (<["notificationInitialized" := "true"]> (dataset e)).
  apply lookup_insert_eq.
Qed.

(** A loop over marked cards does nothing. *)
Lemma forEach_marked (l : list ElemId) (w : World) :
  (∀ c, c ∈ l → isInitialized (getEl c w) = true) →
  exec (forEach l initializeAll_each) w = w.
Proof.
  induction l as [|x l IH]; intros H; [done|].
  cbn [forEach]. rewrite exec_bind_unit by apply total_initializeAll_each.
  assert (E : exec (initializeAll_each x) w = w).
  { unfold exec. rewrite initializeAll_each_run. cbn [snd]. rewrite H; [done | by left]. }
  rewrite E. apply IH. intros c Hc. apply H. by right.
Qed.

(** X13. [initializeAll] is idempotent: a second call right after the first
    finds every card marked and changes nothing, so calling it again (after
    an AJAX update, say) never wires a card twice. *)
Theorem initializeAll_twice_is_once (w : World) :
  exec (initializeAll;; initializeAll) w = exec initializeAll w.
Proof.
  rewrite exec_bind_unit by (unfold exec; by rewrite initializeAll_run).
  unfold exec at 1. rewrite initializeAll_run. cbn [snd].
  apply forEach_marked. intros c Hc.
  apply querySelectorAll_cards_spec in Hc as (Hlt & Hp & Hcls).
  destruct (initializeAll_getEl c w) as [HL HG].
  rewrite HG in *. rewrite HL in Hlt.
  destruct (bool_decide (c ∈ querySelectorAll_cards w)) eqn:Hin.
  - apply visited_marked.
  - apply bool_decide_eq_false in Hin. exfalso. apply Hin.
    apply querySelectorAll_cards_spec. done.
Qed.

(** ** Mounting through [init] only *)

Lemma init_one_is_each (c : ElemId) (w : World) :
  exec (NotificationCard.init (Some c)) w = exec (initializeAll_each c) w.
Proof.
  unfold exec. rewrite initializeAll_each_run.
  unfold NotificationCard.init, element, mbind, M_bind, gets. cbv beta iota.
  destruct (isInitialized (getEl c w)); cbn [negb]; [reflexivity|].
  change (setData c "notificationInitialized" "true" w)
    with (Return tt, exec (setData c "notificationInitialized" "true") w).
  cbv beta iota. by rewrite total_initializeCard.
Qed.

Lemma hasDismiss_wired_marked (c : ElemId) (e : Element) :
  hasDismiss (wired c (marked e)) = hasDismiss e.
Proof. unfold hasDismiss. cbn [dismissControl wired marked set_dataset]. by destruct (dismissControl e). Qed.

(** Visiting a node keeps it bare-or-wired-once. *)
Lemma visited_single (c : ElemId) (e : Element) :
  (if isInitialized e then wiredOnce c e else bare e) →
  wiredOnce c (visited c e).
Proof.
  unfold visited. destruct (isInitialized e); [done|].
  intros [Hl Hd]. split.
  - rewrite hasDismiss_wired_marked. cbn [listeners wired marked set_dataset]. by rewrite Hl.
  - cbn [dismissControl wired marked set_dataset].
    destruct Hd as [-> | ->]; [by left | by right].
Qed.

Lemma mountedThroughInit_wiring (w w' : World) :
  (∀ c, wiring (getEl c w') = wiring (getEl c w)) →
  mountedThroughInit w → mountedThroughInit w'.
Proof.
  intros H I c. specialize (H c). specialize (I c).
  unfold wiring in H. injection H as Hc Hds Ha Hdc Ht Hm Hl.
  unfold isInitialized, wiredOnce, bare, hasDismiss in *.
  by rewrite Hds, Hdc, Hl.
Qed.

(** X14. On a page where cards are mounted through [init] only (with or
    without argument), no card is ever wired twice: if every node is either
    unmarked and bare or marked and wired once, this is still so after any
    call of [init], after any time has passed, and after any click, hover or
    key press. *)
Theorem init_never_wires_twice (w : World) :
  mountedThroughInit w →
  (∀ element_, mountedThroughInit (exec (NotificationCard.init element_) w)) ∧
  (∀ ms, mountedThroughInit (advance ms w)) ∧
  (∀ c, mountedThroughInit (exec (click c) w)) ∧
  (∀ c type key, mountedThroughInit (exec (deliver c type key) w)).
Proof.
  intros I. split; [|split; [|split]].
  - intros [c|] c'.
    + rewrite init_one_is_each. destruct (decide (c' = c)) as [->|Hne].
      * destruct (decide (c < length (elements w))) as [Hc|Hc].
        -- rewrite initializeAll_each_getEl by done.
           rewrite visited_marked. apply visited_single, I.
        -- rewrite (getEl_blank c (exec _ w)) by (rewrite initializeAll_each_length; lia).
           rewrite <- (getEl_blank c w) by lia. apply I.
      * rewrite initializeAll_each_others by done. apply I.
    + cbn [NotificationCard.init]. destruct (initializeAll_getEl c' w) as [_ ->].
      destruct (bool_decide (c' ∈ querySelectorAll_cards w)); [|apply I].
      rewrite visited_marked. apply visited_single, I.
  - intros ms. apply (mountedThroughInit_wiring w); [|done].
    intros c. apply advance_wiring.
  - intros c. apply (mountedThroughInit_wiring w); [|done].
    intros c'. apply click_wiring.
  - intros c type key. apply (mountedThroughInit_wiring w); [|done].
    intros c'. apply deliver_wiring.
Qed.

(** The page with one rendered card, not mounted yet. *)
Lemma init_never_wires_twice_onePage :
  (∀ element_, mountedThroughInit (exec (NotificationCard.init element_) onePage)) ∧
  (∀ ms, mountedThroughInit (advance ms onePage)) ∧
  (∀ c, mountedThroughInit (exec (click c) onePage)) ∧
  (∀ c type key, mountedThroughInit (exec (deliver c type key) onePage)).
Proof. apply (init_never_wires_twice onePage). intros [|c]; cbn; split; auto. Defined.

(** ** The card behaviour of the wrapper *)

Lemma classTokens_from_app (cur a b : string) :
  classTokens_from cur (a +:+ " " +:+ b) = classTokens_from cur a ++ classTokens b.
Proof.
  revert cur. induction a as [|ch a IH]; intros cur.
  - rewrite append_nil_l. change (" " +:+ b) with (String " " b).
    cbn [classTokens_from]. change (is_space " ") with true. cbv iota.
    by destruct (String.eqb cur "").
  - rewrite append_cons. cbn [classTokens_from]. destruct (is_space ch).
    + rewrite IH. by destruct (String.eqb cur "").
    + apply IH.
Qed.

Lemma once_cards_loop (id : string) (context : list ElemId) :
  Drupal.once_cards id context =
  (w ← gets (λ w, w); forEach (freshCards id context w) (once_mark id);;
                      mret (freshCards id context w)).
Proof. reflexivity. Qed.

Lemma notificationCard_attach_loop (context : list ElemId) :
  Drupal.notificationCard_attach context =
  (cards ← Drupal.once_cards "notification-card" context; forEach cards attach_each).
Proof. reflexivity. Qed.

#[global] Instance onceGrows_preorder : PreOrder onceGrows.
Proof.
  split.
  - intros w c. split; [done|]. exists []. by rewrite app_nil_r.
  - intros w1 w2 w3 H1 H2 c.
    destruct (H1 c) as [C1 [m1 E1]], (H2 c) as [C2 [m2 E2]].
    split; [congruence|]. exists (m1 ++ m2). by rewrite E2, E1, app_assoc.
Qed.

Lemma onceGrows_elem (id : string) (c : ElemId) (w w' : World) :
  onceGrows w w' → id ∈ Drupal.onceIds (getEl c w) → id ∈ Drupal.onceIds (getEl c w').
Proof. intros H Hin. destruct (H c) as [_ [more ->]]. apply elem_of_app. by left. Qed.

Lemma once_mark_run (id : string) (c : ElemId) (w : World) :
  once_mark id c w =
  (Return tt,
   set_elements (alter (set_dataset (<["once" :=
     match dataset (getEl c w) !! "once" with
     | Some old => old +:+ " " +:+ id
     | None => id
     end]>)) c) w).
Proof. reflexivity. Qed.

(** Marking appends the id to the card's [data-once] list. *)
Lemma onceIds_marked (id : string) (e : Element) :
  Drupal.onceIds (set_dataset (<["once" :=
     match dataset e !! "once" with
     | Some old => old +:+ " " +:+ id
     | None => id
     end]>) e) = Drupal.onceIds e ++ classTokens id.
Proof.
  unfold Drupal.onceIds. cbn [dataset set_dataset]. rewrite lookup_insert_eq.
  cbn [default from_option Datatypes.id].
  destruct (dataset e !! "once") as [old|]; cbn [default from_option Datatypes.id].
  - apply classTokens_from_app.
  - reflexivity.
Qed.

Lemma onceGrows_once_mark (id : string) (c : ElemId) : preserves onceGrows (once_mark id c).
Proof.
  intros w. unfold wp. rewrite once_mark_run. intros c'.
  destruct (decide (c' = c)) as [->|Hne].
  - destruct (decide (c < length (elements w))) as [Hc|Hc].
    + rewrite getEl_alter_eq by done. split; [done|].
      exists (classTokens id). apply onceIds_marked.
    + rewrite (getEl_blank c (set_elements _ w)), (getEl_blank c w);
        [| lia | cbn [elements set_elements]; rewrite length_alter; lia].
      split; [done|]. exists []. by rewrite app_nil_r.
  - rewrite getEl_alter_ne by done. split; [done|]. exists []. by rewrite app_nil_r.
Qed.

(** After [once] has run over its cards, each of them carries the id. *)
Lemma forEach_once_mark (id : string) (l : list ElemId) (w : World) :
  id ∈ classTokens id →
  (∀ c, c ∈ l → c < length (elements w)) →
  onceGrows w (exec (forEach l (once_mark id)) w) ∧
  ∀ c, c ∈ l → id ∈ Drupal.onceIds (getEl c (exec (forEach l (once_mark id)) w)).
Proof.
  intros Hid. revert w. induction l as [|x l IH]; intros w Hl.
  - split; [reflexivity|]. by intros c ?%elem_of_nil.
  - cbn [forEach]. rewrite exec_bind_unit by reflexivity.
    pose proof (preserves_exec onceGrows _ w (onceGrows_once_mark id x)) as G1.
    assert (M1 : id ∈ Drupal.onceIds (getEl x (exec (once_mark id x) w))).
    { unfold exec. rewrite once_mark_run. cbn [snd].
      rewrite getEl_alter_eq by (apply Hl; by left).
      rewrite onceIds_marked. apply elem_of_app. by right. }
    assert (L1 : length (elements (exec (once_mark id x) w)) = length (elements w)).
    { unfold exec. rewrite once_mark_run. cbn [snd elements set_elements]. apply length_alter. }
    destruct (IH (exec (once_mark id x) w)) as [G2 M2].
    { intros c Hc. rewrite L1. apply Hl. by right. }
    split; [by etrans|].
    intros c [->|Hc]%elem_of_cons; [|by apply M2].
    by apply (onceGrows_elem id x _ _ G2).
Qed.

Lemma hasClass_in_table (c : ElemId) (tok : string) (w : World) :
  hasClass (className (getEl c w)) tok = true → c < length (elements w).
Proof.
  intros H. destruct (decide (c < length (elements w))) as [|Hge]; [done|].
  rewrite getEl_blank in H by lia. by vm_compute in H.
Qed.

Lemma keepsEl_setData {X} (P : Element → X) (c : ElemId) (k v : string) :
  (∀ e, P (set_dataset (<[k := v]>) e) = P e) → preserves (keepsEl P) (setData c k v).
Proof. intros H. by apply keepsEl_updateElement. Qed.

(** Handing a card to [init] leaves classes and [data-once] lists alone. *)
Lemma onceGrows_attach_each (c : ElemId) : preserves onceGrows (attach_each c).
Proof.
  assert (H : preserves (keepsEl (λ e, (className e, dataset e !! "once"))) (attach_each c)).
  { unfold attach_each, NotificationCard.init.
    apply preserves_bind; [apply _ | apply preserves_gets, _ | intros loaded].
    apply preserves_when; [apply _|].
    apply preserves_bind; [apply _ | apply preserves_gets, _ | intros el].
    apply preserves_if; [|apply preserves_ret, _].
    apply preserves_bind; [apply _ | | intros _; keepsEl_tac].
    apply keepsEl_setData. intros e. cbn [className dataset set_dataset].
    by rewrite lookup_insert_ne. }
  intros w. eapply wp_mono; [|apply H]. cbn beta. intros _ w' K c'.
  specialize (K c'). injection K as Kc Ko. split; [done|].
  exists []. unfold Drupal.onceIds. by rewrite Ko, app_nil_r.
Qed.

Lemma total_forEach {A} (l : list A) (f : A → M unit) (w : World) :
  (∀ x w, f x w = (Return tt, exec (f x) w)) →
  forEach l f w = (Return tt, exec (forEach l f) w).
Proof.
  intros H. revert w. induction l as [|x l IH]; intros w; [done|].
  cbn [forEach]. unfold exec, mbind, M_bind. rewrite H. cbv beta iota.
  rewrite IH. done.
Qed.

Lemma total_attach_each (c : ElemId) (w : World) :
  attach_each c w = (Return tt, exec (attach_each c) w).
Proof.
  destruct (preserves_total onceGrows _ w (onceGrows_attach_each c)) as [[] E]. exact E.
Qed.

(** The behaviour as two loops over the cards [once] hands out. *)
Lemma notificationCard_attach_run (context : list ElemId) (w : World) :
  Drupal.notificationCard_attach context w =
  (Return tt,
   exec (forEach (freshCards "notification-card" context w) attach_each)
     (exec (forEach (freshCards "notification-card" context w) (once_mark "notification-card")) w)).
Proof.
  rewrite notificationCard_attach_loop, once_cards_loop.
  unfold mbind, M_bind, gets, mret, M_ret. cbv beta iota.
  rewrite (total_forEach _ (once_mark "notification-card")) by reflexivity.
  cbv beta iota. by rewrite (total_forEach _ attach_each) by apply total_attach_each.
Qed.

(** Once [once] has marked the cards of a context, none of them is fresh,
    whatever [init] has done to them since. *)
Lemma freshCards_after_once (context : list ElemId) (w w2 : World) :
  onceGrows (exec (forEach (freshCards "notification-card" context w)
                     (once_mark "notification-card")) w) w2 →
  freshCards "notification-card" context w2 = [].
Proof.
  intros G2. set (id := "notification-card") in *.
  destruct (forEach_once_mark id (freshCards id context w) w) as [G1 M1].
  { by vm_compute; left. }
  { intros c [[Hc _] _]%list_elem_of_filter. eapply hasClass_in_table, Is_true_eq_true, Hc. }
  apply filter_none. intros c Hc [Hcls Hn]. apply Hn. clear Hn.
  destruct (G1 c) as [C1 _], (G2 c) as [C2 _].
  rewrite C2, C1 in Hcls.
  apply (onceGrows_elem id c _ _ G2).
  destruct (decide (id ∈ Drupal.onceIds (getEl c w))) as [Hin|Hout].
  - by apply (onceGrows_elem id c _ _ G1).
  - apply M1. unfold freshCards. apply list_elem_of_filter. done.
Qed.


Lemma forEach_attach_each_no_script (l : list ElemId) (w : World) :
  window_NotificationCard w = false → exec (forEach l attach_each) w = w.
Proof.
  intros H. induction l as [|x l IH]; [done|].
  cbn [forEach]. rewrite exec_bind_unit by apply total_attach_each.
  assert (E : exec (attach_each x) w = w).
  { unfold attach_each, exec, mbind, M_bind, gets. cbv beta iota. by rewrite H. }
  by rewrite E.
Qed.

Lemma keeps_once_mark {X} (π : World → X) (id : string) (c : ElemId) :
  (∀ f w, π (set_elements f w) = π w) → preserves (keeps π) (once_mark id c).
Proof. intros H w. unfold wp. rewrite once_mark_run. apply H. Qed.

Lemma keepsEl_once_mark (id : string) (c : ElemId) :
  preserves (keepsEl (λ e, (listeners e, dismissControl e, isInitialized e))) (once_mark id c).
Proof.
  unfold once_mark, element.
  apply preserves_bind; [apply _ | apply preserves_gets, _ | intros el].
  apply keepsEl_setData. intros e. unfold isInitialized. cbn [listeners dismissControl dataset set_dataset].
  by rewrite lookup_insert_ne.
Qed.

(** X16. The behaviour asks [once] for the cards before it looks for the
    native script.  Attached on a page where [window.NotificationCard] is
    not defined, it mounts nothing (no listener, no marker, no timer, no log
    entry, no effect) but [once] has marked the cards; so on any later page
    where the nodes still have their classes and [data-once] marks (the
    script has been loaded since, say) attaching the behaviour again is a
    no-op: the behaviour itself never mounts these cards. *)
Theorem card_behaviour_before_script_mounts_never (context : list ElemId) (w : World) :
  window_NotificationCard w = false →
  (∀ c, listeners (getEl c (exec (Drupal.notificationCard_attach context) w)) =
          listeners (getEl c w) ∧
        dismissControl (getEl c (exec (Drupal.notificationCard_attach context) w)) =
          dismissControl (getEl c w) ∧
        isInitialized (getEl c (exec (Drupal.notificationCard_attach context) w)) =
          isInitialized (getEl c w)) ∧
  timers (exec (Drupal.notificationCard_attach context) w) = timers w ∧
  trace (exec (Drupal.notificationCard_attach context) w) = trace w ∧
  notificationLogs (exec (Drupal.notificationCard_attach context) w) = notificationLogs w ∧
  (∀ w', onceGrows (exec (Drupal.notificationCard_attach context) w) w' →
         Drupal.notificationCard_attach context w' = (Return tt, w')).
Proof.
  intros Hoff. set (id := "notification-card").
  assert (E : exec (Drupal.notificationCard_attach context) w =
              exec (forEach (freshCards id context w) (once_mark id)) w).
  { unfold exec at 1. rewrite notificationCard_attach_run. cbn [snd].
    apply forEach_attach_each_no_script.
    rewrite <- Hoff.
    apply (preserves_exec (keeps window_NotificationCard)), preserves_forEach; [apply _|].
    intros c. by apply keeps_once_mark. }
  rewrite E. clear E.
  split; [|split; [|split; [|split]]].
  - intros c.
    pose proof (preserves_exec _ _ w
      (preserves_forEach (keepsEl (λ e, (listeners e, dismissControl e, isInitialized e)))
         (freshCards id context w) _ (keepsEl_once_mark id)) c) as K.
    cbn beta in K. by injection K as -> -> ->.
  - apply (preserves_exec (keeps timers)), preserves_forEach; [apply _|].
    intros c. by apply keeps_once_mark.
  - apply (preserves_exec (keeps trace)), preserves_forEach; [apply _|].
    intros c. by apply keeps_once_mark.
  - apply (preserves_exec (keeps notificationLogs)), preserves_forEach; [apply _|].
    intros c. by apply keeps_once_mark.
  - intros w' G. rewrite notificationCard_attach_run.
    by rewrite (freshCards_after_once context w).
Qed.

(** The page with one rendered card, before the script is there. *)
Lemma card_behaviour_before_script_mounts_never_onePage :
  (∀ c, listeners (getEl c (exec (Drupal.notificationCard_attach [0]) onePageNoScript)) =
          listeners (getEl c onePageNoScript) ∧
        dismissControl (getEl c (exec (Drupal.notificationCard_attach [0]) onePageNoScript)) =
          dismissControl (getEl c onePageNoScript) ∧
        isInitialized (getEl c (exec (Drupal.notificationCard_attach [0]) onePageNoScript)) =
          isInitialized (getEl c onePageNoScript)) ∧
  timers (exec (Drupal.notificationCard_attach [0]) onePageNoScript) = timers onePageNoScript ∧
  trace (exec (Drupal.notificationCard_attach [0]) onePageNoScript) = trace onePageNoScript ∧
  notificationLogs (exec (Drupal.notificationCard_attach [0]) onePageNoScript) =
    notificationLogs onePageNoScript ∧
  (∀ w', onceGrows (exec (Drupal.notificationCard_attach [0]) onePageNoScript) w' →
         Drupal.notificationCard_attach [0] w' = (Return tt, w')).
Proof. apply (card_behaviour_before_script_mounts_never [0] onePageNoScript). reflexivity. Defined.

(** ** Every due timer fires *)

Lemma enqueue_inOrder (t : Timer) (q : list Timer) : inOrder q → inOrder (enqueue t q).
Proof.
  induction q as [|u q IH]; intros Hs; cbn [enqueue].
  - by repeat constructor.
  - destruct Hs as [Hu Hq].
    destruct (Z.leb_spec (t_at u) (t_at t)) as [Hle|Hlt].
    + split; [|by apply IH]. rewrite enqueue_Permutation. by constructor.
    + split; [|by split]. constructor; [lia|].
      eapply Forall_impl; [exact Hu|]. cbn. intros; lia.
Qed.

(** The world in which the callback of the first timer runs. *)
Lemma queueOrdered_pop (t : Timer) (rest : list Timer) (w : World) :
  queueOrdered w → timers w = t :: rest →
  Z.max (now w) (t_at t) = t_at t ∧
  queueOrdered (set_now (Z.max (now w) (t_at t)) (set_timers (λ _, rest) w)).
Proof.
  intros [Hs Hn] E. rewrite E in Hs, Hn.
  destruct Hs as [Ht Hs]. apply Forall_cons in Hn as [Hnt Hn].
  split; [lia|]. split; cbn [timers now set_now set_timers]; [done|].
  eapply Forall_impl; [exact Ht|]. cbn. intros; lia.
Qed.

Lemma queueOrdered_fire (cb : Callback) (w : World) :
  queueOrdered w → queueOrdered (exec (fire cb) w).
Proof.
  intros [Hs Hn]. destruct cb as [c|c|c]; cbn [fire].
  - destruct (dismissCard_effect c w) as (_ & _ & Ht & Hnow & _).
    unfold queueOrdered. rewrite Ht, Hnow. split; [by apply enqueue_inOrder|].
    rewrite enqueue_Permutation. constructor; [cbn; lia | done].
  - destruct (removeCard_effect c w) as (_ & _ & Ht & Hnow & _).
    unfold queueOrdered. by rewrite Ht, Hnow.
  - unfold queueOrdered. by rewrite animateInStep_timers.
Qed.

Lemma dueBy_enqueue (f : Timer → bool) (d : Z) (t : Timer) (q : list Timer) :
  length (filter (λ t, f t && (t_at t <=? d)%Z) (enqueue t q)) =
  length (filter (λ t, f t && (t_at t <=? d)%Z) q) + (if f t && (t_at t <=? d)%Z then 1 else 0).
Proof. apply (filter_enqueue (λ t, f t && (t_at t <=? d)%Z)). Qed.

(** One firing of a due timer keeps the events seen plus the events due. *)
Lemma fire_due_counts (d : Z) (t : Timer) (rest : list Timer) (w : World) :
  timers w = t :: rest → (t_at t ≤ d)%Z → (now w ≤ t_at t)%Z →
  let w1 := exec (fire (t_cb t)) (set_now (Z.max (now w) (t_at t)) (set_timers (λ _, rest) w)) in
  dismissCount w1 + dismissalsDueBy d w1 = dismissCount w + dismissalsDueBy d w ∧
  removedCount w1 + removalsDueBy d w1 + dismissalsDueBy (d - 300) w1 =
    removedCount w + removalsDueBy d w + dismissalsDueBy (d - 300) w.
Proof.
  intros E Hdue Hnow w1. subst w1.
  remember (set_now (Z.max (now w) (t_at t)) (set_timers (λ _, rest) w)) as w0 eqn:Hw0.
  assert (D0 : dismissCount w0 = dismissCount w) by (by subst w0).
  assert (R0 : removedCount w0 = removedCount w) by (by subst w0).
  assert (T0 : timers w0 = rest) by (by subst w0).
  assert (N0 : now w0 = t_at t) by (subst w0; cbn [now set_now]; lia).
  clear Hw0.
  unfold dismissalsDueBy, removalsDueBy. rewrite E, !count_cons.
  destruct t as [at_ [c|c|c]]; cbn [t_cb t_at fire isDismissal isRemoval andb] in *.
  - destruct (dismissCard_counts c w0) as (-> & -> & _).
    destruct (dismissCard_effect c w0) as (_ & _ & -> & _).
    rewrite !dueBy_enqueue, T0, N0. cbn [isDismissal isRemoval removalTimer t_cb t_at andb].
    destruct (Z.leb_spec at_ d), (Z.leb_spec at_ (d - 300)), (Z.leb_spec (at_ + 300) d); lia.
  - destruct (removeCard_counts c w0) as (-> & -> & _).
    destruct (removeCard_effect c w0) as (_ & _ & -> & _). rewrite T0.
    destruct (Z.leb_spec at_ d); lia.
  - destruct (animateInStep_counts c w0) as (-> & ->).
    rewrite animateInStep_timers, T0. lia.
Qed.

(** When the loop stops, nothing in the queue is due. *)
Lemma sorted_none_due (f : Timer → bool) (d d' : Z) (q : list Timer) :
  inOrder q →
  (∀ t, head q = Some t → (d < t_at t)%Z) → (d' ≤ d)%Z →
  length (filter (λ t, f t && (t_at t <=? d')%Z) q) = 0.
Proof.
  intros Hs Hh Hd. rewrite filter_none; [done|].
  intros t Ht. destruct q as [|u q]; [by apply elem_of_nil in Ht|].
  specialize (Hh u eq_refl). destruct Hs as [Hu _].
  assert (Hut : (t_at u ≤ t_at t)%Z).
  { apply elem_of_cons in Ht as [->|Ht]; [lia|].
    by apply (proj1 (Forall_forall _ _) Hu). }
  intros Hf. apply Is_true_eq_true, andb_true_iff in Hf as [_ Hf].
  apply Z.leb_le in Hf. lia.
Qed.

Lemma runTimers_due_counts (fuel : nat) (d : Z) (w : World) :
  pending w ≤ fuel → queueOrdered w →
  dismissCount (runTimers fuel d w) = dismissCount w + dismissalsDueBy d w ∧
  removedCount (runTimers fuel d w) =
    removedCount w + removalsDueBy d w + dismissalsDueBy (d - 300) w.
Proof.
  revert w. induction fuel as [|fuel IH]; intros w Hp Ho.
  - assert (E : timers w = []).
    { unfold pending in Hp. destruct (timers w) as [|u rest]; [done|].
      cbn in Hp. pose proof (work_positive (t_cb u)). lia. }
    cbn [runTimers]. unfold dismissalsDueBy, removalsDueBy. rewrite E. cbn. lia.
  - cbn [runTimers]. destruct (timers w) as [|t rest] eqn:E.
    { unfold dismissalsDueBy, removalsDueBy. rewrite E. cbn. lia. }
    destruct (Z.leb_spec (t_at t) d) as [Hdue|Hnot].
    + destruct (queueOrdered_pop t rest w Ho E) as [Hmax Ho0].
      destruct (fire_due_counts d t rest w E Hdue ltac:(lia)) as [H1 H2]. cbv zeta in H1, H2.
      pose proof (pending_fire (t_cb t)
        (set_now (Z.max (now w) (t_at t)) (set_timers (λ _, rest) w))) as Hf.
      assert (Hw : pending w = work (t_cb t) +
                pending (set_now (Z.max (now w) (t_at t)) (set_timers (λ _, rest) w))).
      { unfold pending. cbn [timers set_now set_timers]. rewrite E. by cbn. }
      destruct (IH (exec (fire (t_cb t))
                      (set_now (Z.max (now w) (t_at t)) (set_timers (λ _, rest) w))))
        as [I1 I2]; [lia | by apply queueOrdered_fire |].
      rewrite I1, I2. lia.
    + destruct Ho as [Hs _].
      unfold dismissalsDueBy, removalsDueBy.
      rewrite !(sorted_none_due _ d); [lia | done.. | | lia | done | |lia | done | | lia].
      all: rewrite E; intros u [= <-]; lia.
Qed.

(** X17. Every pending dismissal and removal that is due fires, exactly once.
    On a page whose timer queue is in order, after [ms] milliseconds the
    document has seen one more [notificationDismiss] for each dismissal that
    was due in that time, and one more [notificationRemoved] for each removal
    that was due and for each dismissal that was due at least 300 ms
    earlier. *)
Theorem due_dismissals_and_removals_fire (ms : Z) (w : World) :
  queueOrdered w →
  dismissCount (advance ms w) = dismissCount w + dismissalsDueBy (now w + ms) w ∧
  removedCount (advance ms w) =
    removedCount w + removalsDueBy (now w + ms) w + dismissalsDueBy (now w + ms - 300) w.
Proof.
  intros Ho. unfold advance.
  apply (runTimers_due_counts (pending w) (now w + ms) w); [lia | done].
Qed.

(** The page with two cards, the success card mounted and dismissed by
    hand: its own timer fires at 5000 ms all the same. *)
Lemma due_dismissals_and_removals_fire_twoCards :
  dismissCount (advance 6000 (exec (initializeCard 0;; dismissCard 0) twoCards)) = 2 ∧
  removedCount (advance 6000 (exec (initializeCard 0;; dismissCard 0) twoCards)) = 2.
Proof.
  assert (Ho : queueOrdered (exec (initializeCard 0;; dismissCard 0) twoCards)).
  { split; vm_compute; repeat constructor; discriminate. }
  exact (due_dismissals_and_removals_fire 6000 _ Ho).
Defined.

(** ** A dismissed card is removed *)

(** Nothing the timers run attaches a card. *)
Lemma fire_keeps_detached (c : ElemId) (cb : Callback) (w : World) :
  parent (getEl c w) = None → parent (getEl c (exec (fire cb) w)) = None.
Proof.
  intros H. destruct cb as [c'|c'|c']; cbn [fire].
  - destruct (dismissCard_effect c' w) as (_ & _ & _ & _ & _ & Hp). by rewrite Hp.
  - destruct (decide (c = c')) as [->|Hne].
    + by destruct (removeCard_effect c' w) as (_ & _ & _ & _ & Hp & _).
    + by rewrite removeCard_others.
  - by rewrite (preserves_exec (keepsEl parent) _ w (keepsEl_parent_animateInStep c')).
Qed.

Lemma runTimers_removes (c : ElemId) (d : Z) (fuel : nat) (w : World) :
  pending w ≤ fuel → queueOrdered w →
  Exists (λ t, removesBy d c t = true) (timers w) ∨ parent (getEl c w) = None →
  parent (getEl c (runTimers fuel d w)) = None.
Proof.
  revert w. induction fuel as [|fuel IH]; intros w Hp Ho H.
  - assert (E : timers w = []).
    { unfold pending in Hp. destruct (timers w) as [|u rest]; [done|].
      cbn in Hp. pose proof (work_positive (t_cb u)). lia. }
    cbn [runTimers]. rewrite E in H. destruct H as [H|H]; [by apply Exists_nil in H | done].
  - cbn [runTimers]. destruct (timers w) as [|t rest] eqn:E.
    { destruct H as [H|H]; [by apply Exists_nil in H | done]. }
    destruct (Z.leb_spec (t_at t) d) as [Hdue|Hnot].
    + destruct (queueOrdered_pop t rest w Ho E) as [Hmax Ho0].
      pose proof (pending_fire (t_cb t)
        (set_now (Z.max (now w) (t_at t)) (set_timers (λ _, rest) w))) as Hf.
      assert (Hw : pending w = work (t_cb t) +
                pending (set_now (Z.max (now w) (t_at t)) (set_timers (λ _, rest) w))).
      { unfold pending. cbn [timers set_now set_timers]. rewrite E. by cbn. }
      remember (set_now (Z.max (now w) (t_at t)) (set_timers (λ _, rest) w)) as w0 eqn:Hw0.
      assert (T0 : timers w0 = rest) by (by subst w0).
      assert (N0 : now w0 = t_at t) by (subst w0; cbn [now set_now]; lia).
      assert (P0 : parent (getEl c w0) = parent (getEl c w)) by (by subst w0).
      clear Hw0.
      apply IH; [lia | by apply queueOrdered_fire |].
      destruct H as [H|H]; [|right; apply fire_keeps_detached; congruence].
      apply Exists_cons in H as [Ht|Hrest].
      * unfold removesBy in Ht. destruct t as [at_ [c'|c'|c']]; cbn [t_cb t_at fire] in *;
          [| |done].
        -- apply andb_true_iff in Ht as [->%bool_decide_eq_true Hat]. left.
           destruct (dismissCard_effect c w0) as (_ & _ & -> & _).
           rewrite enqueue_Permutation, N0. apply Exists_cons. left.
           unfold removesBy. cbn [t_cb t_at removalTimer].
           by rewrite bool_decide_eq_true_2, Hat.
        -- apply andb_true_iff in Ht as [->%bool_decide_eq_true _]. right.
           by destruct (removeCard_effect c w0) as (_ & _ & _ & _ & Hpar & _).
      * left. destruct t as [at_ [c'|c'|c']]; cbn [t_cb fire].
        -- destruct (dismissCard_effect c' w0) as (_ & _ & -> & _).
           rewrite enqueue_Permutation, T0. apply Exists_cons. by right.
        -- destruct (removeCard_effect c' w0) as (_ & _ & -> & _). by rewrite T0.
        -- by rewrite animateInStep_timers, T0.
    + destruct H as [H|H]; [|done]. exfalso.
      destruct Ho as [Hs _]. rewrite E in Hs. destruct Hs as [Ht _].
      apply Exists_exists in H as (u & Hu & Hr).
      assert (Hut : (t_at t ≤ t_at u)%Z).
      { apply elem_of_cons in Hu as [->|Hu]; [lia|].
        by apply (proj1 (Forall_forall _ _) Ht). }
      unfold removesBy in Hr. destruct (t_cb u); [| |done];
        apply andb_true_iff in Hr as [_ Hr]; apply Z.leb_le in Hr; lia.
Qed.

(** X18. A dismissed card does leave the page.  On a page whose timer queue
    is in order, once a removal of the card is pending and due, or a
    dismissal of it is pending and due 300 ms before, the card has no parent
    when that time has passed, whatever else fires in between (and a card
    without parent stays so). *)
Theorem dismissed_card_is_removed (c : ElemId) (ms : Z) (w : World) :
  queueOrdered w →
  Exists (λ t, removesBy (now w + ms) c t = true) (timers w) →
  parent (getEl c (advance ms w)) = None.
Proof.
  intros Ho H. unfold advance. autorewrite with world.
  apply runTimers_removes; [lia | done | by left].
Qed.

(** The page with two cards, the success card mounted: its own timer has
    it removed by 5300 ms. *)
Lemma dismissed_card_is_removed_twoCards :
  parent (getEl 0 (advance 5300 (exec (initializeCard 0) twoCards))) = None.
Proof.
  apply (dismissed_card_is_removed 0 5300 (exec (initializeCard 0) twoCards)).
  - split; vm_compute; repeat constructor; discriminate.
  - apply Exists_cons. right. apply Exists_cons. left. reflexivity.
Defined.

(** ** What mounting does to the card *)

(** X19. [initializeCard] on a card: it adds one click listener to the dismiss
    control, if there is one; the listeners for [mouseenter], [mouseleave]
    and [keydown] to the card, in this order, the last one knowing whether
    there was a dismiss control; sets [tabindex] to 0; and leaves the style
    at the start of the entrance animation.  It neither reads nor writes the
    mount marker: the data attributes, like the classes, the title, the
    markup and the parent, are the same before and after. *)
Theorem initializeCard_wires_the_card (c : ElemId) (w : World) :
  c < length (elements w) →
  listeners (getEl c (exec (initializeCard c) w)) =
    listeners (getEl c w) ++
    [(MouseEnter, OnMouseEnter c); (MouseLeave, OnMouseLeave c);
     (KeyDown, OnKeydown c (bool_decide (is_Some (dismissControl (getEl c w)))))] ∧
  dismissControl (getEl c (exec (initializeCard c) w)) =
    (λ ls, ls ++ [OnDismissClick c]) <$> dismissControl (getEl c w) ∧
  attributes (getEl c (exec (initializeCard c) w)) =
    <["tabindex" := "0"]> (attributes (getEl c w)) ∧
  style (getEl c (exec (initializeCard c) w)) =
    {| opacity := "0"; transform := "translateX(100%)";
       transition := transition (style (getEl c w)) |} ∧
  dataset (getEl c (exec (initializeCard c) w)) = dataset (getEl c w) ∧
  className (getEl c (exec (initializeCard c) w)) = className (getEl c w) ∧
  titleNode (getEl c (exec (initializeCard c) w)) = titleNode (getEl c w) ∧
  markup (getEl c (exec (initializeCard c) w)) = markup (getEl c w) ∧
  parent (getEl c (exec (initializeCard c) w)) = parent (getEl c w).
Proof. intros Hc. by rewrite initializeCard_getEl. Qed.

(** The rendered card of [onePage], mounted. *)
Lemma initializeCard_wires_the_card_onePage :
  listeners (getEl 0 (exec (initializeCard 0) onePage)) =
    listeners (getEl 0 onePage) ++
    [(MouseEnter, OnMouseEnter 0); (MouseLeave, OnMouseLeave 0);
     (KeyDown, OnKeydown 0 (bool_decide (is_Some (dismissControl (getEl 0 onePage)))))] ∧
  dismissControl (getEl 0 (exec (initializeCard 0) onePage)) =
    (λ ls, ls ++ [OnDismissClick 0]) <$> dismissControl (getEl 0 onePage) ∧
  attributes (getEl 0 (exec (initializeCard 0) onePage)) =
    <["tabindex" := "0"]> (attributes (getEl 0 onePage)) ∧
  style (getEl 0 (exec (initializeCard 0) onePage)) =
    {| opacity := "0"; transform := "translateX(100%)";
       transition := transition (style (getEl 0 onePage)) |} ∧
  dataset (getEl 0 (exec (initializeCard 0) onePage)) = dataset (getEl 0 onePage) ∧
  className (getEl 0 (exec (initializeCard 0) onePage)) = className (getEl 0 onePage) ∧
  titleNode (getEl 0 (exec (initializeCard 0) onePage)) = titleNode (getEl 0 onePage) ∧
  markup (getEl 0 (exec (initializeCard 0) onePage)) = markup (getEl 0 onePage) ∧
  parent (getEl 0 (exec (initializeCard 0) onePage)) = parent (getEl 0 onePage).
Proof. apply (initializeCard_wires_the_card 0 onePage). cbn. lia. Defined.

(** The card [show] returns, and the rest of the page after [show]. *)
Lemma show_effect (o : Options) (w : World) :
  getEl (length (elements w)) (exec (NotificationCard.show (Some o)) w) =
    wired (length (elements w))
      (set_parent (Some InContainer) (parseCard (assign (defaultsFor o) o))) ∧
  length (elements (exec (NotificationCard.show (Some o)) w)) = S (length (elements w)) ∧
  (∀ c, c ≠ length (elements w) →
        getEl c (exec (NotificationCard.show (Some o)) w) = getEl c w) ∧
  container (exec (NotificationCard.show (Some o)) w) =
    Some (default [] (container w) ++ [length (elements w)]) ∧
  window_NotificationCard (exec (NotificationCard.show (Some o)) w) =
    window_NotificationCard w.
Proof.
  rewrite show_exec.
  destruct (show_before_mount o w) as (G3 & E3 & C3 & _ & _ & _ & _ & _ & W3). cbv zeta in *.
  remember (exec (appendChild (length (elements w))) _) as w3 eqn:Hw3. clear Hw3.
  assert (L3 : length (elements w) < length (elements w3)).
  { rewrite E3, length_app. cbn [length]. lia. }
  destruct (initializeCard_world (length (elements w)) w3)
    as (_ & _ & _ & C4 & _ & _ & W4 & L4).
  pose proof (initializeCard_getEl _ _ L3) as G4.
  pose proof (λ c', initializeCard_others (length (elements w)) c' w3) as O4.
  remember (exec (initializeCard (length (elements w))) w3) as w4 eqn:Hw4. clear Hw4.
  assert (E5 : ∀ b cb d, elements (exec (when b (setTimeout cb d)) w4) = elements w4 ∧
                         container (exec (when b (setTimeout cb d)) w4) = container w4 ∧
                         window_NotificationCard (exec (when b (setTimeout cb d)) w4) =
                           window_NotificationCard w4) by (by intros []).
  destruct (E5 (0 <? duration (assign (defaultsFor o) o))%Z
              (CbDismiss (length (elements w))) (duration (assign (defaultsFor o) o)))
    as (E & C & W).
  rewrite C, W, E, (getEl_same_elements _ _ _ E).
  split; [by rewrite G4, G3|].
  split; [rewrite L4, E3, length_app; cbn [length]; lia|].
  split; [|split; [by rewrite C4 | by rewrite W4]].
  intros c Hc. rewrite (getEl_same_elements _ _ _ E), O4 by done.
  unfold getEl. rewrite E3.
  destruct (decide (c < length (elements w))) as [Hlt|Hge].
  - by rewrite lookup_app_l.
  - rewrite !(proj2 (lookup_ge_None _ _)); [done | lia |].
    rewrite length_app. cbn [length]. lia.
Qed.


(** ** The conversion behaviour, block after block *)

Lemma convertMessage_run (i : nat) (w : World) :
  Drupal.convertMessage i w =
  (Return tt,
   exec (Drupal.hide i)
     (if window_NotificationCard w
      then exec (NotificationCard.show (Some (Drupal.messageOptions (Drupal.getMessage i w)))) w
      else w)).
Proof.
  unfold Drupal.convertMessage, mbind, M_bind, gets. cbv beta iota.
  destruct (window_NotificationCard w); cbn [when]; [|reflexivity].
  unfold exec. rewrite show_run. reflexivity.
Qed.

Lemma hide_getMessage (i j : nat) (w : World) :
  Drupal.messageOptions (Drupal.getMessage j (exec (Drupal.hide i) w)) =
    Drupal.messageOptions (Drupal.getMessage j w) ∧
  (m_display (Drupal.getMessage j w) = "none" →
   m_display (Drupal.getMessage j (exec (Drupal.hide i) w)) = "none") ∧
  (j = i → j < length (messages w) →
   m_display (Drupal.getMessage j (exec (Drupal.hide i) w)) = "none").
Proof.
  unfold Drupal.hide, Drupal.getMessage. mrun. cbn [messages set_messages].
  rewrite list_lookup_alter. case_decide as Hij.
  - subst j. destruct (messages w !! i) as [m|] eqn:E.
    + repeat split; done.
    + split; [done|]. split; [done|]. intros _ Hlt. apply lookup_ge_None in E. lia.
  - repeat split; done.
Qed.

(** One block converted: what the page looks like afterwards. *)
Lemma convertMessage_effect (i : nat) (w : World) :
  let n := length (elements w) in
  let w' := exec (Drupal.convertMessage i) w in
  window_NotificationCard w' = window_NotificationCard w ∧
  length (messages w') = length (messages w) ∧
  length (elements w') = (if window_NotificationCard w then S n else n) ∧
  (∀ c, c ≠ n → getEl c w' = getEl c w) ∧
  (window_NotificationCard w = false → elements w' = elements w) ∧
  (window_NotificationCard w = true →
   getEl n w' = shownCard n (Drupal.messageOptions (Drupal.getMessage i w))) ∧
  (∀ j, Drupal.messageOptions (Drupal.getMessage j w') =
        Drupal.messageOptions (Drupal.getMessage j w)) ∧
  (∀ j, j < length (messages w) →
        j = i ∨ m_display (Drupal.getMessage j w) = "none" →
        m_display (Drupal.getMessage j w') = "none").
Proof.
  intros n w'. subst w'. unfold exec at 1 2 3 4 5 6 7 8. rewrite convertMessage_run. cbn [snd].
  set (o := Drupal.messageOptions (Drupal.getMessage i w)).
  assert (H : ∀ v, messages v = messages w →
            window_NotificationCard (exec (Drupal.hide i) v) = window_NotificationCard v ∧
            length (messages (exec (Drupal.hide i) v)) = length (messages w) ∧
            elements (exec (Drupal.hide i) v) = elements v ∧
            (∀ j, Drupal.messageOptions (Drupal.getMessage j (exec (Drupal.hide i) v)) =
                  Drupal.messageOptions (Drupal.getMessage j w)) ∧
            (∀ j, j < length (messages w) →
                  j = i ∨ m_display (Drupal.getMessage j w) = "none" →
                  m_display (Drupal.getMessage j (exec (Drupal.hide i) v)) = "none")).
  { intros v E. split; [reflexivity|]. split.
    { unfold Drupal.hide. mrun. cbn [messages set_messages]. by rewrite length_alter, E. }
    split; [reflexivity|].
    assert (G : ∀ j, Drupal.getMessage j v = Drupal.getMessage j w).
    { intros j. unfold Drupal.getMessage. by rewrite E. }
    split.
    - intros j. destruct (hide_getMessage i j v) as (-> & _). by rewrite G.
    - intros j Hj [->|Hd].
      + destruct (hide_getMessage i i v) as (_ & _ & Hh). apply Hh; [done | by rewrite E].
      + destruct (hide_getMessage i j v) as (_ & Hk & _). apply Hk. by rewrite G. }
  destruct (window_NotificationCard w) eqn:Hw.
  - destruct (show_effect o w) as (G1 & L1 & O1 & _ & W1).
    pose proof (show_keeps_messages o w) as M1.
    remember (exec (NotificationCard.show (Some o)) w) as w1 eqn:Hw1. clear Hw1.
    destruct (H w1 M1) as (W2 & L2 & E2 & C2 & D2).
    rewrite W2, W1, L2, E2. repeat split; try done;
      intros; rewrite (getEl_same_elements _ _ _ E2); auto.
  - destruct (H w eq_refl) as (W2 & L2 & E2 & C2 & D2).
    rewrite W2, L2, E2. repeat split; try done;
      intros; by rewrite (getEl_same_elements _ _ _ E2).
Qed.

Lemma forEach_convertMessage (l : list nat) (v : World) :
  window_NotificationCard (exec (forEach l Drupal.convertMessage) v) = window_NotificationCard v ∧
  length (messages (exec (forEach l Drupal.convertMessage) v)) = length (messages v) ∧
  length (elements (exec (forEach l Drupal.convertMessage) v)) =
    (if window_NotificationCard v then length (elements v) + length l else length (elements v)) ∧
  (∀ c, c < length (elements v) →
        getEl c (exec (forEach l Drupal.convertMessage) v) = getEl c v) ∧
  (window_NotificationCard v = false →
   elements (exec (forEach l Drupal.convertMessage) v) = elements v) ∧
  (window_NotificationCard v = true → ∀ k i, l !! k = Some i →
   getEl (length (elements v) + k) (exec (forEach l Drupal.convertMessage) v) =
   shownCard (length (elements v) + k) (Drupal.messageOptions (Drupal.getMessage i v))) ∧
  (∀ j, Drupal.messageOptions (Drupal.getMessage j (exec (forEach l Drupal.convertMessage) v)) =
        Drupal.messageOptions (Drupal.getMessage j v)) ∧
  (∀ j, j < length (messages v) →
        j ∈ l ∨ m_display (Drupal.getMessage j v) = "none" →
        m_display (Drupal.getMessage j (exec (forEach l Drupal.convertMessage) v)) = "none").
Proof.
  revert v. induction l as [|i l IH]; intros v.
  - cbn [forEach length]. change (exec (mret tt) v) with v.
    rewrite Nat.add_0_r. destruct (window_NotificationCard v); repeat split; try done.
    all: intros j _ [H|H]; [by apply elem_of_nil in H | done].
  - cbn [forEach]. rewrite exec_bind_unit by (unfold exec; by rewrite convertMessage_run).
    destruct (convertMessage_effect i v) as (W1 & M1 & L1 & O1 & E1 & G1 & C1 & D1).
    cbv zeta in *.
    remember (exec (Drupal.convertMessage i) v) as v1 eqn:Hv1. clear Hv1.
    destruct (IH v1) as (W2 & M2 & L2 & O2 & E2 & G2 & C2 & D2).
    rewrite W2, W1, M2, M1, L2, W1, L1.
    split; [done|]. split; [done|]. split.
    { cbn [length]. destruct (window_NotificationCard v); lia. }
    split.
    { intros c Hc. rewrite O2, O1; [done | lia |].
      destruct (window_NotificationCard v); lia. }
    split.
    { intros Hoff. rewrite E2, E1; [done | done | congruence]. }
    split.
    { intros Hon [|k] i' Hk.
      - injection Hk as <-. rewrite Nat.add_0_r, O2, G1; [done | done |].
        rewrite L1, Hon. lia.
      - cbn in Hk. rewrite W1 in G2. specialize (G2 Hon k i' Hk).
        rewrite L1, Hon, C1 in G2.
        replace (length (elements v) + S k) with (S (length (elements v)) + k) by lia.
        exact G2. }
    split.
    { intros j. by rewrite C2, C1. }
    intros j Hj H. apply D2; [by rewrite M1|].
    destruct H as [[->|H]%elem_of_cons|H].
    + right. apply D1; [done | by left].
    + by left.
    + right. apply D1; [done | by right].
Qed.

(** [once] marks the blocks and leaves their content. *)
Lemma markOnce_content (id : string) (fresh : list nat) (ms : list MessageBlock) (j : nat) :
  length (foldr (λ i, alter (Drupal.markOnce id) i) ms fresh) = length ms ∧
  Drupal.messageOptions
    (default Drupal.blankMessage (foldr (λ i, alter (Drupal.markOnce id) i) ms fresh !! j)) =
  Drupal.messageOptions (default Drupal.blankMessage (ms !! j)) ∧
  m_display (default Drupal.blankMessage (foldr (λ i, alter (Drupal.markOnce id) i) ms fresh !! j)) =
  m_display (default Drupal.blankMessage (ms !! j)).
Proof.
  induction fresh as [|i fresh (IHl & IHc & IHd)]; cbn [foldr]; [done|].
  rewrite length_alter. split; [done|].
  rewrite list_lookup_alter. case_decide; [subst i|done].
  rewrite <- IHc, <- IHd.
  by destruct (foldr _ ms fresh !! j).
Qed.

Lemma convertDrupalMessages_attach_run (context : list nat) (w : World) :
  exec (Drupal.convertDrupalMessages_attach context) w =
  exec (forEach (freshBlocks "convert-messages" context w) Drupal.convertMessage)
    (set_messages (λ ms, foldr (λ i, alter (Drupal.markOnce "convert-messages") i) ms
                           (freshBlocks "convert-messages" context w)) w).
Proof. reflexivity. Qed.

(** X21. The conversion behaviour turns the status messages of a context into
    cards one by one, in the order of the context: the k-th message that
    [once] hands out becomes the k-th new node, the card [show] makes for
    the configuration derived from that message, and every such message is
    hidden; the nodes that were there are left as they were.  Without the
    native script the messages are hidden all the same and no card is
    made. *)
Theorem messages_become_cards_in_order (context : list nat) (w : World) :
  (∀ i, i ∈ freshBlocks "convert-messages" context w →
        m_display (Drupal.getMessage i (exec (Drupal.convertDrupalMessages_attach context) w))
        = "none") ∧
  (∀ c, c < length (elements w) →
        getEl c (exec (Drupal.convertDrupalMessages_attach context) w) = getEl c w) ∧
  (window_NotificationCard w = true →
     length (elements (exec (Drupal.convertDrupalMessages_attach context) w)) =
       length (elements w) + length (freshBlocks "convert-messages" context w) ∧
     ∀ k i, freshBlocks "convert-messages" context w !! k = Some i →
       getEl (length (elements w) + k) (exec (Drupal.convertDrupalMessages_attach context) w) =
       shownCard (length (elements w) + k) (Drupal.messageOptions (Drupal.getMessage i w))) ∧
  (window_NotificationCard w = false →
     elements (exec (Drupal.convertDrupalMessages_attach context) w) = elements w).
Proof.
  rewrite convertDrupalMessages_attach_run.
  set (fresh := freshBlocks "convert-messages" context w).
  set (mark := λ ms, foldr (λ i, alter (Drupal.markOnce "convert-messages") i) ms fresh).
  assert (K : ∀ j, Drupal.messageOptions (Drupal.getMessage j (set_messages mark w)) =
                   Drupal.messageOptions (Drupal.getMessage j w)).
  { intros j. apply (markOnce_content "convert-messages" fresh (messages w) j). }
  destruct (forEach_convertMessage fresh (set_messages mark w))
    as (_ & _ & L & O & E & G & _ & D).
  cbn [window_NotificationCard elements set_messages] in L, O, E, G.
  split; [|split; [|split]].
  - intros i Hi. apply D; [|by left].
    cbn [messages set_messages]. unfold mark.
    destruct (markOnce_content "convert-messages" fresh (messages w) i) as (-> & _).
    apply list_elem_of_filter in Hi as [[Hc _] _].
    destruct (decide (i < length (messages w))) as [|Hge]; [done|].
    unfold Drupal.getMessage in Hc. rewrite (proj2 (lookup_ge_None _ _)) in Hc by lia.
    by vm_compute in Hc.
  - intros c Hc. by rewrite O.
  - intros Hon. rewrite Hon in L. split; [exact L|].
    intros k i Hk. rewrite (G Hon k i Hk). by rewrite K.
  - exact E.
Qed.

(** ** From [show] to the removal *)

Lemma queueOrdered_setTimeout (cb : Callback) (d : Z) (w : World) :
  queueOrdered w → queueOrdered (exec (setTimeout cb d) w).
Proof.
  intros [Hs Hn]. unfold queueOrdered. mrun. cbn [timers now set_timers].
  split; [by apply enqueue_inOrder|].
  rewrite enqueue_Permutation. constructor; [cbn [t_at]; lia | done].
Qed.

Lemma queueOrdered_same (w w' : World) :
  timers w' = timers w → now w' = now w → queueOrdered w → queueOrdered w'.
Proof. unfold queueOrdered. by intros -> ->. Qed.

Lemma queueOrdered_initializeCard (c : ElemId) (w : World) :
  queueOrdered w → queueOrdered (exec (initializeCard c) w).
Proof.
  intros Ho. destruct (initializeCard_world c w) as (Ht & _ & _ & _ & _ & Hn & _).
  assert (H1 : queueOrdered (exec (when (autoDismisses (getEl c w))
                                     (setTimeout (CbDismiss c) 5000)) w)).
  { destruct (autoDismisses (getEl c w)); [by apply queueOrdered_setTimeout | done]. }
  apply (queueOrdered_setTimeout (CbAnimateIn c) 50) in H1.
  revert H1. apply queueOrdered_same.
  - rewrite Ht. by destruct (autoDismisses (getEl c w)).
  - rewrite Hn. by destruct (autoDismisses (getEl c w)).
Qed.

Lemma queueOrdered_show (o : Options) (w : World) :
  queueOrdered w → queueOrdered (exec (NotificationCard.show (Some o)) w).
Proof.
  intros Ho. rewrite show_exec.
  destruct (show_before_mount o w) as (_ & _ & _ & _ & T3 & N3 & _). cbv zeta in *.
  remember (exec (appendChild (length (elements w))) _) as w3 eqn:Hw3. clear Hw3.
  assert (H3 : queueOrdered w3) by (by apply (queueOrdered_same w)).
  apply (queueOrdered_initializeCard (length (elements w))) in H3.
  destruct (0 <? duration (assign (defaultsFor o) o))%Z; cbn [when]; [|done].
  by apply queueOrdered_setTimeout.
Qed.

(** A property of the page that every firing keeps holds across the loop. *)
Lemma runTimers_inv (J : World → Prop) :
  (∀ w t rest, J w → timers w = t :: rest →
     J (exec (fire (t_cb t)) (set_now (Z.max (now w) (t_at t)) (set_timers (λ _, rest) w)))) →
  ∀ fuel d w, J w → J (runTimers fuel d w).
Proof.
  intros Hstep fuel d. induction fuel as [|fuel IH]; intros w HJ; cbn [runTimers]; [done|].
  destruct (timers w) as [|t rest] eqn:E; [done|].
  destruct (t_at t <=? d)%Z; [|done].
  by apply IH, Hstep.
Qed.

Lemma removeCard_container (c : ElemId) (w : World) :
  container (exec (removeCard c) w) =
  match parent (getEl c w) with
  | Some InContainer => filter (λ c', c' ≠ c) <$> container w
  | _ => container w
  end.
Proof.
  unfold exec. rewrite removeCard_run. cbn [snd]. unfold exec. rewrite remove_run. cbn [snd].
  destruct (parent (getEl c w)) as [[|]|]; reflexivity.
Qed.

Lemma filter_last_out (card : ElemId) (cs : list ElemId) :
  card ∉ cs → filter (λ c', c' ≠ card) (cs ++ [card]) = cs.
Proof.
  intros H. rewrite filter_app.
  rewrite (filter_cons_False _ card) by (intros Hne; by apply Hne).
  rewrite filter_nil, app_nil_r.
  induction cs as [|x cs IH]; [done|].
  rewrite filter_cons_True by (intros ->; apply H; by left).
  f_equal. apply IH. intros Hin. apply H. by right.
Qed.

Lemma inContainerOrGone_fire (card : ElemId) (cs : list ElemId) (w : World)
    (t : Timer) (rest : list Timer) :
  card ∉ cs → inContainerOrGone card cs w → timers w = t :: rest →
  inContainerOrGone card cs
    (exec (fire (t_cb t)) (set_now (Z.max (now w) (t_at t)) (set_timers (λ _, rest) w))).
Proof.
  intros Hcs [Hq HI] E. rewrite E in Hq. apply Forall_cons in Hq as [Ht Hrest].
  remember (set_now (Z.max (now w) (t_at t)) (set_timers (λ _, rest) w)) as w0 eqn:Hw0.
  assert (T0 : timers w0 = rest) by (by subst w0).
  assert (P0 : parent (getEl card w0) = parent (getEl card w)) by (by subst w0).
  assert (C0 : container w0 = container w) by (by subst w0).
  clear Hw0. rewrite <- P0, <- C0 in HI. clear P0 C0 E.
  destruct t as [at_ [c|c|c]]; cbn [t_cb cardOf fire] in *; subst c.
  - destruct (dismissCard_effect card w0) as (_ & _ & Hti & _ & _ & Hp).
    split.
    + rewrite Hti, enqueue_Permutation, T0. by constructor.
    + rewrite Hp. exact HI.
  - destruct (removeCard_effect card w0) as (_ & _ & Hti & _ & Hp & _).
    split; [by rewrite Hti, T0|]. right. split; [exact Hp|].
    rewrite removeCard_container.
    destruct HI as [[-> ->]|[-> ->]]; [|done].
    cbn [fmap option_fmap option_map]. by rewrite filter_last_out.
  - split; [by rewrite animateInStep_timers, T0|].
    by rewrite (preserves_exec (keepsEl parent) _ w0 (keepsEl_parent_animateInStep card)).
Qed.

(** X22. From [show] to the removal, on a page with no other timer pending:
    [show] makes the card the last child of the container, and once the card
    has been dismissed and 300 ms have passed the card has no parent and the
    container holds exactly the children it had before [show], in their
    order; the container itself stays, empty if the card was its only
    child. *)
Theorem shown_card_dismissed_leaves_container_as_found (o : Options) (w : World) :
  timers w = [] →
  Forall (λ c, c < length (elements w)) (default [] (container w)) →
  container (exec (dismissCard (length (elements w)))
               (exec (NotificationCard.show (Some o)) w)) =
    Some (default [] (container w) ++ [length (elements w)]) ∧
  container (advance 300 (exec (dismissCard (length (elements w)))
                            (exec (NotificationCard.show (Some o)) w))) =
    Some (default [] (container w)) ∧
  parent (getEl (length (elements w))
            (advance 300 (exec (dismissCard (length (elements w)))
                            (exec (NotificationCard.show (Some o)) w)))) = None.
Proof.
  intros Hq Hcs.
  set (card := length (elements w)). set (cs := default [] (container w)) in *.
  assert (Hnot : card ∉ cs).
  { intros Hin. apply (proj1 (Forall_forall _ _) Hcs) in Hin. unfold card in Hin. lia. }
  assert (Ho1 : queueOrdered (exec (NotificationCard.show (Some o)) w)).
  { apply queueOrdered_show. split; rewrite Hq; [done | constructor]. }
  assert (Hq1 : Forall (λ t, cardOf (t_cb t) = card)
                  (timers (exec (NotificationCard.show (Some o)) w))).
  { rewrite show_exec.
    destruct (show_before_mount o w) as (_ & _ & _ & _ & T3 & _). cbv zeta in T3.
    remember (exec (appendChild (length (elements w))) _) as w3 eqn:Hw3. clear Hw3.
    destruct (initializeCard_world card w3) as (T4 & _). fold card.
    remember (exec (initializeCard card) w3) as w4 eqn:Hw4. clear Hw4.
    assert (H4 : Forall (λ t, cardOf (t_cb t) = card) (timers w4)).
    { rewrite T4, T3, Hq, enqueue_Permutation.
      constructor; [done|]. destruct (autoDismisses (getEl card w3)); by repeat constructor. }
    destruct (0 <? duration (assign (defaultsFor o) o))%Z; cbn [when]; [|done].
    mrun. cbn [timers set_timers]. rewrite enqueue_Permutation. by constructor. }
  destruct (show_effect o w) as (G1 & _ & _ & C1 & _). fold card cs in G1, C1.
  remember (exec (NotificationCard.show (Some o)) w) as w1 eqn:Hw1. clear Hw1.
  destruct (dismissCard_effect card w1) as (_ & _ & T2 & N2 & _ & P2).
  assert (C2 : container (exec (dismissCard card) w1) = container w1) by reflexivity.
  pose proof (queueOrdered_fire (CbDismiss card) w1 Ho1) as Ho2. cbn [fire] in Ho2.
  remember (exec (dismissCard card) w1) as w2 eqn:Hw2. clear Hw2.
  assert (J2 : inContainerOrGone card cs w2).
  { split.
    - rewrite T2, enqueue_Permutation. by constructor.
    - left. by rewrite P2, C2, G1, C1. }
  split; [by rewrite C2, C1|].
  assert (P3 : parent (getEl card (advance 300 w2)) = None).
  { unfold advance. autorewrite with world.
    apply runTimers_removes; [lia | done | left].
    rewrite T2, enqueue_Permutation. apply Exists_cons. left.
    unfold removesBy. cbn [t_cb t_at removalTimer].
    rewrite bool_decide_eq_true_2 by done. rewrite N2.
    by destruct (Z.leb_spec (now w1 + 300) (now w1 + 300)); [|lia]. }
  split; [|exact P3].
  pose proof (runTimers_inv (inContainerOrGone card cs)
                (λ v t rest, inContainerOrGone_fire card cs v t rest Hnot)
                (pending w2) (now w2 + 300)%Z w2 J2) as [_ J3].
  unfold advance in *. autorewrite with world in P3. cbn [container set_now].
  destruct J3 as [[J3 _]|[_ J3]]; [congruence | done].
Qed.

(** On the empty page: the container is created by [show] and stays, empty,
    after the card has been dismissed and removed. *)
Lemma shown_card_dismissed_leaves_container_as_found_emptyPage :
  container (exec (dismissCard 0) (exec (NotificationCard.show (Some noOptions)) emptyPage)) =
    Some [0] ∧
  container (advance 300 (exec (dismissCard 0)
                            (exec (NotificationCard.show (Some noOptions)) emptyPage))) =
    Some [] ∧
  parent (getEl 0 (advance 300 (exec (dismissCard 0)
                                  (exec (NotificationCard.show (Some noOptions)) emptyPage)))) =
    None.
Proof.
  apply (shown_card_dismissed_leaves_container_as_found noOptions emptyPage).
  - reflexivity.
  - constructor.
Defined.

(** ** A card stays exactly until its removal is due *)

Lemma fire_keeps_attached (c : ElemId) (d : Z) (t : Timer) (w : World) :
  removesBy d c t = false → (t_at t ≤ d)%Z → now w = t_at t →
  Forall (λ u, removesBy d c u = false) (timers w) →
  parent (getEl c (exec (fire (t_cb t)) w)) = parent (getEl c w) ∧
  Forall (λ u, removesBy d c u = false) (timers (exec (fire (t_cb t)) w)).
Proof.
  unfold removesBy at 1. intros Ht Hdue Hnow Hq.
  destruct t as [at_ [c'|c'|c']]; cbn [t_cb t_at fire] in *.
  - destruct (dismissCard_effect c' w) as (_ & _ & -> & _ & _ & Hp).
    split; [apply Hp|]. rewrite enqueue_Permutation. constructor; [|done].
    unfold removesBy. cbn [t_cb t_at removalTimer]. rewrite Hnow.
    destruct (bool_decide (c' = c)); [|done]. cbn [andb] in *. exact Ht.
  - destruct (removeCard_effect c' w) as (_ & _ & -> & _).
    split; [|done]. rewrite removeCard_others; [done|].
    intros ->. rewrite bool_decide_eq_true_2 in Ht by done. cbn [andb] in Ht.
    apply Z.leb_gt in Ht. lia.
  - split; [|by rewrite animateInStep_timers].
    apply (preserves_exec (keepsEl parent) _ w (keepsEl_parent_animateInStep c')).
Qed.

Lemma runTimers_keeps_attached (c : ElemId) (d : Z) (fuel : nat) (w : World) :
  queueOrdered w →
  Forall (λ u, removesBy d c u = false) (timers w) →
  parent (getEl c (runTimers fuel d w)) = parent (getEl c w).
Proof.
  revert w. induction fuel as [|fuel IH]; intros w Ho Hq; cbn [runTimers]; [done|].
  destruct (timers w) as [|t rest] eqn:E; [done|].
  destruct (Z.leb_spec (t_at t) d) as [Hdue|Hnot]; [|done].
  apply Forall_cons in Hq as [Ht Hrest].
  destruct (queueOrdered_pop t rest w Ho E) as [Hmax Ho0].
  remember (set_now (Z.max (now w) (t_at t)) (set_timers (λ _, rest) w)) as w0 eqn:Hw0.
  assert (T0 : timers w0 = rest) by (by subst w0).
  assert (N0 : now w0 = t_at t) by (subst w0; cbn [now set_now]; lia).
  assert (P0 : parent (getEl c w0) = parent (getEl c w)) by (by subst w0).
  clear Hw0. rewrite <- T0 in Hrest.
  destruct (fire_keeps_attached c d t w0 Ht Hdue N0 Hrest) as [Hp Hq'].
  rewrite IH; [congruence | by apply queueOrdered_fire | done].
Qed.

(** X23. A card leaves the page exactly when a removal is due.  On a page
    whose timer queue is in order, a card keeps its parent for as long as no
    pending removal of it is due and no pending dismissal of it is due
    300 ms before: other cards' timers, its own entrance animation and a
    dismissal of it less than 300 ms old do not detach it. *)
Theorem card_stays_until_removal_is_due (c : ElemId) (ms : Z) (w : World) :
  queueOrdered w →
  Forall (λ t, removesBy (now w + ms) c t = false) (timers w) →
  parent (getEl c (advance ms w)) = parent (getEl c w).
Proof.
  intros Ho Hq. unfold advance. autorewrite with world.
  by apply runTimers_keeps_attached.
Qed.

(** The page with two cards, the success card mounted: it is still there
    at 5299 ms. *)
Lemma card_stays_until_removal_is_due_twoCards :
  parent (getEl 0 (advance 5299 (exec (initializeCard 0) twoCards))) =
  parent (getEl 0 (exec (initializeCard 0) twoCards)).
Proof.
  apply (card_stays_until_removal_is_due 0 5299 (exec (initializeCard 0) twoCards)).
  - split; vm_compute; repeat constructor; discriminate.
  - repeat constructor.
Defined.

(** ** How long a shown card stays *)

(** The timers after [show] on a page that had none. *)
Lemma show_timers (o : Options) (w : World) :
  timers w = [] →
  timers (exec (NotificationCard.show (Some o)) w) ≡ₚ
    entranceTimer (length (elements w)) (now w) ::
    (if String.eqb (getVariant (parseCard (assign (defaultsFor o) o))) "success"
     then [autoDismissTimer (length (elements w)) (now w)] else []) ++
    (if (0 <? duration (assign (defaultsFor o) o))%Z
     then [{| t_at := now w + duration (assign (defaultsFor o) o);
              t_cb := CbDismiss (length (elements w)) |}] else []) ∧
  now (exec (NotificationCard.show (Some o)) w) = now w.
Proof.
  intros Hq. rewrite show_exec.
  destruct (show_before_mount o w) as (G3 & _ & _ & _ & T3 & N3 & _). cbv zeta in *.
  remember (exec (appendChild (length (elements w))) _) as w3 eqn:Hw3. clear Hw3.
  destruct (initializeCard_world (length (elements w)) w3)
    as (T4 & _ & _ & _ & _ & N4 & _).
  assert (A : autoDismisses (getEl (length (elements w)) w3) =
              String.eqb (getVariant (parseCard (assign (defaultsFor o) o))) "success").
  { rewrite G3. unfold autoDismisses. cbn [dataset set_parent parseCard].
    rewrite lookup_empty, bool_decide_eq_false_2 by done.
    cbn [negb]. by rewrite andb_true_r. }
  rewrite A, T3, N3, Hq in T4. rewrite N3 in N4.
  remember (exec (initializeCard (length (elements w))) w3) as w4 eqn:Hw4. clear Hw4.
  destruct (Z.ltb_spec 0 (duration (assign (defaultsFor o) o))) as [Hd|Hd]; cbn [when].
  - mrun. cbn [timers now set_timers]. rewrite N4. split; [|done].
    rewrite enqueue_Permutation, T4, enqueue_Permutation.
    rewrite Z.max_r by lia.
    destruct (String.eqb _ "success"); cbn [app].
    + apply Permutation_cons_append.
    + apply Permutation_swap.
  - change (exec (mret tt) w4) with w4. rewrite T4, N4. split; [|done].
    rewrite enqueue_Permutation, app_nil_r.
    by destruct (String.eqb _ "success").
Qed.



(** ** The queue stays in order *)

#[global] Instance keepsOrdered_preorder : PreOrder keepsOrdered.
Proof.
  split.
  - by intros w H.
  - intros w1 w2 w3 H1 H2 H. by apply H2, H1.
Qed.

Lemma keepsOrdered_handle (l : Listener) (key : string) : preserves keepsOrdered (handle l key).
Proof.
  intros w. unfold wp. rewrite total_handle. intros Ho.
  destruct l as [c|c|c|c b]; cbn [handle].
  - by apply (queueOrdered_fire (CbDismiss c)).
  - revert Ho. by apply queueOrdered_same.
  - revert Ho. by apply queueOrdered_same.
  - destruct (String.eqb key "Escape" && b); cbn [when]; [|done].
    by apply (queueOrdered_fire (CbDismiss c)).
Qed.

Lemma keepsOrdered_initializeAll_each (c : ElemId) :
  preserves keepsOrdered (initializeAll_each c).
Proof.
  intros w. unfold wp. rewrite initializeAll_each_run. intros Ho.
  destruct (isInitialized (getEl c w)); [done|].
  apply queueOrdered_initializeCard. revert Ho. by apply queueOrdered_same.
Qed.

Lemma queueOrdered_advance (ms : Z) (w : World) : queueOrdered w → queueOrdered (advance ms w).
Proof.
  intros Ho. unfold advance.
  pose proof (runTimers_complete (pending w) (now w + ms) w (le_n _)) as Hc.
  pose proof (runTimers_inv queueOrdered
                (λ v t rest Hv E, queueOrdered_fire (t_cb t) _
                                    (proj2 (queueOrdered_pop t rest v Hv E)))
                (pending w) (now w + ms)%Z w Ho) as [Hs _].
  remember (runTimers (pending w) (now w + ms) w) as w1 eqn:Hw1. clear Hw1.
  split; cbn [timers now set_now]; [done|].
  destruct (timers w1) as [|u q]; [constructor|].
  specialize (Hc u eq_refl). destruct Hs as [Hu _].
  constructor; [lia|]. eapply Forall_impl; [exact Hu|]. cbn. intros; lia.
Qed.

(** X25. The script sets its timers ahead of the clock, so the timer queue of
    a page stays in firing order with no timer left from the past: if it is
    so before, it is so after [show], after [init] with or without argument,
    after [dismissCard], after any click, hover or key press, and after any
    time has passed.  The page without timers is such a page. *)
Theorem script_keeps_queue_in_order (w : World) :
  queueOrdered w →
  (∀ o, queueOrdered (exec (NotificationCard.show (Some o)) w)) ∧
  (∀ element_, queueOrdered (exec (NotificationCard.init element_) w)) ∧
  (∀ c, queueOrdered (exec (dismissCard c) w)) ∧
  (∀ c, queueOrdered (exec (click c) w)) ∧
  (∀ c type key, queueOrdered (exec (deliver c type key) w)) ∧
  (∀ ms, queueOrdered (advance ms w)).
Proof.
  intros Ho.
  split; [|split; [|split; [|split; [|split]]]].
  - intros o. by apply queueOrdered_show.
  - intros [c|].
    + rewrite init_one_is_each.
      by apply (preserves_exec keepsOrdered _ w (keepsOrdered_initializeAll_each c)).
    + cbn [NotificationCard.init]. unfold exec. rewrite initializeAll_run. cbn [snd].
      revert Ho. apply (preserves_exec keepsOrdered), preserves_forEach; [apply _|].
      apply keepsOrdered_initializeAll_each.
  - intros c. by apply (queueOrdered_fire (CbDismiss c)).
  - intros c. revert Ho. apply (click_rel keepsOrdered), keepsOrdered_handle.
  - intros c type key. revert Ho. apply (deliver_rel keepsOrdered), keepsOrdered_handle.
  - intros ms. by apply queueOrdered_advance.
Qed.

(** The page with one rendered card and no timer. *)
Lemma script_keeps_queue_in_order_onePage :
  (∀ o, queueOrdered (exec (NotificationCard.show (Some o)) onePage)) ∧
  (∀ element_, queueOrdered (exec (NotificationCard.init element_) onePage)) ∧
  (∀ c, queueOrdered (exec (dismissCard c) onePage)) ∧
  (∀ c, queueOrdered (exec (click c) onePage)) ∧
  (∀ c type key, queueOrdered (exec (deliver c type key) onePage)) ∧
  (∀ ms, queueOrdered (advance ms onePage)).
Proof. apply (script_keeps_queue_in_order onePage). split; cbn; constructor. Defined.

(** ** A converted status message *)

Lemma show_counts (o : Options) (w : World) :
  dismissCount (exec (NotificationCard.show (Some o)) w) = dismissCount w ∧
  removedCount (exec (NotificationCard.show (Some o)) w) = removedCount w.
Proof.
  destruct (show_page o w) as (_ & _ & _ & _ & T).
  unfold dismissCount, removedCount. rewrite T, !count_app.
  destruct (container w);
    change (length (filter isDismissEvent [])) with 0;
    change (length (filter isRemovedEvent [])) with 0;
    change (length (filter isDismissEvent [ContainerCreated])) with 0;
    change (length (filter isRemovedEvent [ContainerCreated])) with 0;
    change (length (filter isDismissEvent [_; _; _; _])) with 0;
    change (length (filter isRemovedEvent [_; _; _; _])) with 0; lia.
Qed.

Lemma count_Permutation {A} (f : A → bool) (l1 l2 : list A) :
  l1 ≡ₚ l2 → length (filter f l1) = length (filter f l2).
Proof. intros H. by rewrite H. Qed.

(** X26. A status message converted by the Drupal behaviour is dismissed
    twice.  The behaviour asks [show] for a success card with a duration of
    5000 ms; [show] sets its timer and the mount sets its own, both 5000 ms
    ahead, and neither knows of the other: on a page with no other timer the
    new card has two dismissals pending, the document sees two
    [notificationDismiss] events at 5000 ms and, nothing before, two
    [notificationRemoved] events at 5300 ms, for the one card. *)
Theorem converted_status_message_is_dismissed_twice (i : nat) (w : World) :
  timers w = [] →
  window_NotificationCard w = true →
  Drupal.messageVariant (Drupal.getMessage i w) = "success" →
  dismissalsCount (length (elements w)) (exec (Drupal.convertMessage i) w) = 2 ∧
  dismissCount (advance 4999 (exec (Drupal.convertMessage i) w)) = dismissCount w ∧
  dismissCount (advance 5000 (exec (Drupal.convertMessage i) w)) = dismissCount w + 2 ∧
  removedCount (advance 5299 (exec (Drupal.convertMessage i) w)) = removedCount w ∧
  removedCount (advance 5300 (exec (Drupal.convertMessage i) w)) = removedCount w + 2.
Proof.
  intros Hq Hon Hv.
  unfold exec at 1 2 3 4 5. rewrite convertMessage_run, Hon. cbn [snd].
  set (o := Drupal.messageOptions (Drupal.getMessage i w)).
  assert (Hs : String.eqb (getVariant (parseCard (assign (defaultsFor o) o))) "success" = true).
  { unfold getVariant. cbn [className parseCard variant assign o_variant o
                            Drupal.messageOptions default from_option Datatypes.id].
    by rewrite Hv. }
  assert (Hd : duration (assign (defaultsFor o) o) = 5000%Z).
  { cbn [duration assign o_duration o Drupal.messageOptions default from_option Datatypes.id].
    by rewrite Hv. }
  destruct (show_timers o w Hq) as [HT HN]. rewrite Hs, Hd in HT.
  change (0 <? 5000)%Z with true in HT. cbn [app] in HT.
  destruct (show_counts o w) as [HD HR].
  assert (Ho : queueOrdered (exec (NotificationCard.show (Some o)) w)).
  { apply queueOrdered_show. split; rewrite Hq; [done | constructor]. }
  remember (exec (NotificationCard.show (Some o)) w) as w1 eqn:Hw1. clear Hw1.
  assert (Ho2 : queueOrdered (exec (Drupal.hide i) w1)) by (revert Ho; by apply queueOrdered_same).
  assert (T2 : timers (exec (Drupal.hide i) w1) = timers w1) by reflexivity.
  assert (N2 : now (exec (Drupal.hide i) w1) = now w) by (by rewrite <- HN).
  assert (D2 : dismissCount (exec (Drupal.hide i) w1) = dismissCount w) by (by rewrite <- HD).
  assert (R2 : removedCount (exec (Drupal.hide i) w1) = removedCount w) by (by rewrite <- HR).
  remember (exec (Drupal.hide i) w1) as w2 eqn:Hw2. clear Hw2.
  assert (C : ∀ f : Timer → bool, length (filter f (timers w2)) =
              (if f (entranceTimer (length (elements w)) (now w)) then 1 else 0) +
              ((if f (autoDismissTimer (length (elements w)) (now w)) then 1 else 0) +
               ((if f {| t_at := now w + 5000; t_cb := CbDismiss (length (elements w)) |}
                 then 1 else 0) + 0))).
  { intros f. by rewrite T2, (count_Permutation f _ _ HT), !count_cons. }
  assert (Due : ∀ d, dismissalsDueBy (now w + d) w2 = (if (5000 <=? d)%Z then 2 else 0) ∧
                     removalsDueBy (now w + d) w2 = 0).
  { intros d. unfold dismissalsDueBy, removalsDueBy. rewrite !C.
    cbn [isDismissal isRemoval t_cb t_at entranceTimer autoDismissTimer andb].
    destruct (Z.leb_spec (now w + 5000) (now w + d)), (Z.leb_spec 5000 d); lia. }
  split.
  { unfold dismissalsCount, dismissalsPending. rewrite C.
    cbn [isDismissTimer t_cb entranceTimer autoDismissTimer].
    by rewrite bool_decide_eq_true_2. }
  assert (A : ∀ ms, dismissCount (advance ms w2) =
                      dismissCount w + (if (5000 <=? ms)%Z then 2 else 0) ∧
                    removedCount (advance ms w2) =
                      removedCount w + (if (5000 <=? ms - 300)%Z then 2 else 0)).
  { intros ms.
    destruct (runTimers_due_counts (pending w2) (now w2 + ms) w2 (le_n _) Ho2) as [A1 A2].
    unfold advance. change (dismissCount (set_now ?t ?v)) with (dismissCount v).
    change (removedCount (set_now ?t ?v)) with (removedCount v).
    rewrite A1, A2, D2, R2, N2.
    destruct (Due ms) as [-> ->].
    replace (now w + ms - 300)%Z with (now w + (ms - 300))%Z by lia.
    destruct (Due (ms - 300)%Z) as [-> _].
    destruct (5000 <=? ms)%Z, (5000 <=? ms - 300)%Z; lia. }
  destruct (A 4999%Z) as [-> _], (A 5000%Z) as [-> _], (A 5299%Z) as [_ ->],
           (A 5300%Z) as [_ ->].
  change (5000 <=? 4999)%Z with false. change (5000 <=? 5000)%Z with true.
  change (5000 <=? 5299 - 300)%Z with false. change (5000 <=? 5300 - 300)%Z with true.
  repeat split; lia.
Qed.

(** The status message of [statusPage]: two dismissals for its card. *)
Lemma converted_status_message_is_dismissed_twice_statusPage :
  dismissalsCount 0 (exec (Drupal.convertMessage 0) statusPage) = 2 ∧
  dismissCount (advance 4999 (exec (Drupal.convertMessage 0) statusPage)) = 0 ∧
  dismissCount (advance 5000 (exec (Drupal.convertMessage 0) statusPage)) = 2 ∧
  removedCount (advance 5299 (exec (Drupal.convertMessage 0) statusPage)) = 0 ∧
  removedCount (advance 5300 (exec (Drupal.convertMessage 0) statusPage)) = 2.
Proof.
  exact (converted_status_message_is_dismissed_twice 0 statusPage eq_refl eq_refl eq_refl).
Defined.
